(** * webpwmoi-backend: schema reconciliation, entity mappers, aggregate fetch

    A shallow embedding of the parts of [seed.js] ([ensureColumn] and the
    compatibility block of [seedDatabase]) and of [server.js] (the row and
    payload mappers, [safeJsonParse], [safeQuery], the [/api/all-data]
    handler and the handlers that write to the pool), with the properties
    the specification states about them and further ones read off the code.

    JavaScript code is written in an error monad ([Completion]): reading a
    property of [null] or [undefined] throws, [try]/[catch] is [try_catch].
    Code that talks to the database threads the connection ([DbM]) or the
    pool ([PoolM]).  What the host and the store compute (number syntax,
    the JSON grammar, the rows of a [SELECT]) enters as a parameter. *)

From Stdlib Require Import ZArith SpecFloat DecimalString.
From stdpp Require Import gmap strings list.

Open Scope string_scope.

(** ** JavaScript values

    The values that flow through the mappers are JSON data (request bodies,
    parsed JSON columns) and driver cells (NULL, numbers, strings), plus
    [undefined] for a property that is not there.  Numbers are IEEE-754
    doubles, carried as [spec_float].  An object is its list of own
    properties in insertion order; it is plain data: no property of it
    stands in for a method of [Object.prototype], so converting it to a
    string or to a number does not throw. *)

#[warnings="-register-all"]
Inductive JsVal : Type :=
| JUndefined
| JNull
| JBool (b : bool)
| JNum (n : spec_float)
| JStr (s : string)
| JArr (elems : list JsVal)
| JObj (props : list (string * JsVal)).

Abbreviation Props := (list (string * JsVal)).

(** The double nearest to an integer literal. *)
Definition num_of_Z (z : Z) : spec_float := binary_normalize 53 1024 z 0 false.

Definition num_zero : spec_float := Eval cbv in num_of_Z 0.
Definition num_one : spec_float := Eval cbv in num_of_Z 1.
Definition num_two : spec_float := Eval cbv in num_of_Z 2.

(** What the host computes and this repository does not define: the number a
    string denotes ([StringToNumber]), the text of a number, and the JSON
    grammar ([None] stands for the [SyntaxError] of [JSON.parse]). *)
Record Runtime : Type := {
  StringToNumber : string -> spec_float;
  NumberToString : spec_float -> string;
  JSON_parse : string -> option JsVal
}.

(** Exceptions and completions. *)
Inductive JsError : Type :=
| TypeError
| SyntaxError
| QueryError (code : string).

Inductive Completion (A : Type) : Type :=
| Normal (a : A)
| Throw (e : JsError).
Arguments Normal {A} a.
Arguments Throw {A} e.

Definition cbind {A B} (m : Completion A) (k : A -> Completion B) : Completion B :=
  match m with
  | Normal a => k a
  | Throw e => Throw e
  end.

Declare Scope js_scope.
Delimit Scope js_scope with js.
Notation "'let*' x ':=' m 'in' k" := (cbind m (fun x => k))
  (at level 10, x name, m at level 100, k at level 200) : js_scope.
Open Scope js_scope.

(** [try { m } catch { h }] *)
Definition try_catch {A} (m : Completion A) (h : JsError -> Completion A) : Completion A :=
  match m with
  | Normal a => Normal a
  | Throw e => h e
  end.

(** ** Operators *)

(** ToBoolean: [undefined], [null], [false], [+0], [-0], [NaN] and [''] are
    falsy. *)
Definition truthy (v : JsVal) : bool :=
  match v with
  | JUndefined | JNull => false
  | JBool b => b
  | JNum (S754_zero _) | JNum S754_nan => false
  | JNum _ => true
  | JStr "" => false
  | JStr _ => true
  | JArr _ | JObj _ => true
  end.

Definition is_nullish (v : JsVal) : bool :=
  match v with
  | JUndefined | JNull => true
  | _ => false
  end.

Definition is_undefined (v : JsVal) : bool :=
  match v with
  | JUndefined => true
  | _ => false
  end.

(** [a ?? b]: the right operand is evaluated only when the left one is
    [null] or [undefined]. *)
Definition coalesce (ma mb : Completion JsVal) : Completion JsVal :=
  let* a := ma in if is_nullish a then mb else Normal a.

(** [a || b] *)
Definition or_else (ma mb : Completion JsVal) : Completion JsVal :=
  let* a := ma in if truthy a then Normal a else mb.

Notation "a ?? b" := (coalesce a b) (at level 40, left associativity) : js_scope.
Notation "a ||| b" := (or_else a b) (at level 50, left associativity) : js_scope.

(** Own data properties. *)
Fixpoint lookupProp (k : string) (props : Props) : JsVal :=
  match props with
  | [] => JUndefined
  | (k', v) :: rest => if String.eqb k k' then v else lookupProp k rest
  end.

Fixpoint has_key (k : string) (props : Props) : bool :=
  match props with
  | [] => false
  | (k', _) :: rest => String.eqb k k' || has_key k rest
  end.

(** [o.k]: reading a property of [null] or [undefined] throws; an object
    answers with its own property; the other values (numbers, booleans,
    strings, arrays) have none of the data properties read in this program. *)
Definition getProp (o : JsVal) (k : string) : Completion JsVal :=
  match o with
  | JUndefined | JNull => Throw TypeError
  | JObj props => Normal (lookupProp k props)
  | _ => Normal JUndefined
  end.

Notation "o .[ k ]" := (getProp o k) (at level 1, format "o .[ k ]") : js_scope.

(** [o.k = v] on a plain object: overwrite in place, else append. *)
Fixpoint setProp (k : string) (v : JsVal) (props : Props) : Props :=
  match props with
  | [] => [(k, v)]
  | (k', v') :: rest =>
      if String.eqb k k' then (k, v) :: rest else (k', v') :: setProp k v rest
  end.

(** [if (v !== undefined) o.k = v;] *)
Definition setIfDefined (k : string) (v : JsVal) (props : Props) : Props :=
  if is_undefined v then props else setProp k v props.

Section Conversions.
Context (rt : Runtime).

(** ToString on data: a plain object prints as [[object Object]], an array
    joins its elements with commas, printing [null] and [undefined] as the
    empty string. *)
Fixpoint ToString (v : JsVal) : string :=
  match v with
  | JUndefined => "undefined"
  | JNull => "null"
  | JBool true => "true"
  | JBool false => "false"
  | JNum n => NumberToString rt n
  | JStr s => s
  | JObj _ => "[object Object]"
  | JArr elems =>
      (fix join (l : list JsVal) : string :=
         match l with
         | [] => ""
         | [x] => if is_nullish x then "" else ToString x
         | x :: rest =>
             (if is_nullish x then "" else ToString x) ++ "," ++ join rest
         end) elems
  end.

(** ToNumber, the conversion behind [Number(v)]. *)
Definition ToNumber (v : JsVal) : spec_float :=
  match v with
  | JUndefined => S754_nan
  | JNull => num_zero
  | JBool true => num_one
  | JBool false => num_zero
  | JNum n => n
  | JStr s => StringToNumber rt s
  | JArr _ | JObj _ => StringToNumber rt (ToString v)
  end.

Definition Number_ (m : Completion JsVal) : Completion JsVal :=
  let* v := m in Normal (JNum (ToNumber v)).

(** [typeof v === 'object'] *)
Definition typeof_object (v : JsVal) : bool :=
  match v with
  | JNull | JArr _ | JObj _ => true
  | _ => false
  end.

Definition typeof_string (v : JsVal) : bool :=
  match v with
  | JStr _ => true
  | _ => false
  end.

(** [JSON.parse(v)]: the argument is converted to a string first. *)
Definition JSON_parse_val (v : JsVal) : Completion JsVal :=
  match JSON_parse rt (ToString v) with
  | Some j => Normal j
  | None => Throw SyntaxError
  end.

(** ** server.js helpers *)

Definition safeJsonParse (value fallback : JsVal) : JsVal :=
  match
    try_catch
      (if is_nullish value then Normal fallback
       else if typeof_object value then Normal value
       else JSON_parse_val value)
      (fun _ => Normal fallback)
  with
  | Normal v => v
  | Throw _ => fallback
  end.

(** *** Row to API shape *)

Definition dbUserToApi (row : JsVal) : Completion JsVal :=
  if negb (truthy row) then Normal JNull else
  let* id := row.["id"] in
  let* name := row.["name"] in
  let* email := row.["email"] in
  let* password := row.["password"] in
  let* role := row.["role"] in
  let* avatarUrl := row.["avatar_url"] ?? row.["avatarUrl"] ?? Normal JNull in
  let* isVerified := Number_ (row.["is_verified"] ?? row.["isVerified"] ?? Normal (JNum num_zero)) in
  let* phoneNumber := row.["phone_number"] ?? row.["phoneNumber"] ?? Normal JNull in
  let* mediaName := row.["media_name"] ?? row.["mediaName"] ?? Normal JNull in
  let* position := row.["position"] ?? Normal JNull in
  let* ukwCertification := row.["ukw_certification"] ?? row.["ukwCertification"] ?? Normal JNull in
  Normal (JObj [("id", id); ("name", name); ("email", email);
                ("password", password); ("role", role);
                ("avatarUrl", avatarUrl); ("isVerified", isVerified);
                ("phoneNumber", phoneNumber); ("mediaName", mediaName);
                ("position", position);
                ("ukwCertification", ukwCertification)]).

Definition dbPartnerToApi (row : JsVal) : Completion JsVal :=
  if negb (truthy row) then Normal JNull else
  let* id := row.["id"] in
  let* name := row.["name"] in
  let* logoUrl := row.["logo_url"] ?? row.["logoUrl"] ?? Normal JNull in
  let* link := row.["link"] ?? Normal JNull in
  Normal (JObj [("id", id); ("name", name); ("logoUrl", logoUrl); ("link", link)]).

Definition dbStructureToApi (row : JsVal) : Completion JsVal :=
  if negb (truthy row) then Normal JNull else
  let* id := row.["id"] in
  let* name := row.["name"] in
  let* position := row.["position"] in
  let* photoUrl := row.["photo_url"] ?? row.["photoUrl"] ?? Normal JNull in
  Normal (JObj [("id", id); ("name", name); ("position", position);
                ("photoUrl", photoUrl)]).

Definition dbArticleToApi (row : JsVal) : Completion JsVal :=
  if negb (truthy row) then Normal JNull else
  let* cover := row.["cover_image_url"] ?? row.["coverImageUrl"] ?? row.["imageUrl"] ?? Normal JNull in
  let* id := row.["id"] in
  let* title := row.["title"] in
  let* content := row.["content"] in
  let* snippet := row.["snippet"] in
  let* status := row.["status"] in
  let* authorId := row.["authorId"] in
  let* editorFeedback := row.["editor_feedback"] ?? row.["editorFeedback"] ?? Normal JNull in
  Normal (JObj [("id", id); ("title", title); ("content", content);
                ("snippet", snippet); ("status", status);
                ("authorId", authorId); ("editorFeedback", editorFeedback);
                ("coverImageUrl", cover); ("imageUrl", cover)]).

Definition formatContactFromRow (row : JsVal) : Completion JsVal :=
  if negb (truthy row) then Normal JNull else
  let* rawSocials := row.["socials"] in
  let socials := safeJsonParse rawSocials (JObj []) in
  let* organizationName := row.["organizationName"] ||| Normal (JStr "") in
  let* address := row.["address"] ||| Normal (JStr "") in
  let* email := row.["email"] ||| Normal (JStr "") in
  let* phone := row.["phone"] ||| Normal (JStr "") in
  let* siteLogo := row.["logo_url"] ||| Normal (JStr "") in
  let* faviconUrl := row.["favicon_url"] ||| Normal (JStr "") in
  Normal (JObj [("organizationName", organizationName); ("address", address);
                ("email", email); ("phone", phone); ("siteLogo", siteLogo);
                ("faviconUrl", faviconUrl); ("socials", socials)]).

(** *** API payload to DB object *)

(** [payload || {}] *)
Definition orEmptyObject (payload : JsVal) : JsVal :=
  if truthy payload then payload else JObj [].

Definition apiArticleToDb (payload : JsVal) : Completion JsVal :=
  let src := orEmptyObject payload in
  let* id := src.["id"] in
  let* title := src.["title"] in
  let* content := src.["content"] in
  let* snippet := src.["snippet"] in
  let* status := src.["status"] in
  let* authorId := src.["authorId"] in
  let* editorFeedback := src.["editorFeedback"] in
  let* coverImageUrl := src.["coverImageUrl"] in
  let* imageUrl := src.["imageUrl"] in
  let dbObj := [] in
  let dbObj := setIfDefined "title" title dbObj in
  let dbObj := setIfDefined "content" content dbObj in
  let dbObj := setIfDefined "snippet" snippet dbObj in
  let dbObj := setIfDefined "status" status dbObj in
  let dbObj := setIfDefined "authorId" authorId dbObj in
  let dbObj := setIfDefined "editor_feedback" editorFeedback dbObj in
  let* cover := Normal coverImageUrl ?? Normal imageUrl in
  let dbObj := setIfDefined "cover_image_url" cover dbObj in
  let dbObj := setIfDefined "id" id dbObj in
  Normal (JObj dbObj).

Definition apiUserToDb (payload : JsVal) : Completion JsVal :=
  let src := orEmptyObject payload in
  let* name := src.["name"] in
  let* email := src.["email"] in
  let* password := src.["password"] in
  let* role := src.["role"] in
  let* avatarUrl := src.["avatarUrl"] in
  let* formalPhotoUrl := src.["formalPhotoUrl"] in
  let* isVerified := src.["isVerified"] in
  let* phoneNumber := src.["phoneNumber"] in
  let* mediaName := src.["mediaName"] in
  let* position := src.["position"] in
  let* ukwCertification := src.["ukwCertification"] in
  let dbObj := [] in
  let dbObj := setIfDefined "name" name dbObj in
  let dbObj := setIfDefined "email" email dbObj in
  let dbObj := setIfDefined "password" password dbObj in
  let dbObj := setIfDefined "role" role dbObj in
  let* avatar := Normal formalPhotoUrl ?? Normal avatarUrl in
  let dbObj := setIfDefined "avatar_url" avatar dbObj in
  let* dbObj :=
    if is_undefined isVerified then Normal dbObj
    else
      let* flag := Number_ (Normal (JNum (if truthy isVerified
                                          then num_one else num_zero))) in
      Normal (setProp "is_verified" flag dbObj) in
  let dbObj := setIfDefined "phone_number" phoneNumber dbObj in
  let dbObj := setIfDefined "media_name" mediaName dbObj in
  let dbObj := setIfDefined "position" position dbObj in
  let dbObj := setIfDefined "ukw_certification" ukwCertification dbObj in
  Normal (JObj dbObj).

Definition apiStructureToDb (item : JsVal) : Completion JsVal :=
  let src := orEmptyObject item in
  let* id := src.["id"] in
  let* name := src.["name"] in
  let* position := src.["position"] in
  let* photoUrl := src.["photoUrl"] in
  let dbObj := [("name", name); ("position", position); ("photo_url", photoUrl)] in
  let dbObj := setIfDefined "id" id dbObj in
  Normal (JObj dbObj).

Definition apiPartnerToDb (item : JsVal) : Completion JsVal :=
  let src := orEmptyObject item in
  let* id := src.["id"] in
  let* name := src.["name"] in
  let* logoUrl := src.["logoUrl"] in
  let* link := src.["link"] in
  let dbObj := [("name", name); ("logo_url", logoUrl); ("link", link)] in
  let dbObj := setIfDefined "id" id dbObj in
  Normal (JObj dbObj).

End Conversions.


(** ** The [/api/all-data] handler of server.js *)

(** A row-set is the array of row objects a [SELECT] resolves to. *)
Abbreviation RowSet := (list Props).

Record Response : Type := {
  status : Z;
  body : JsVal
}.

(** [err.message], as far as the model tells errors apart. *)
Definition error_message (e : JsError) : string :=
  match e with
  | TypeError => "TypeError"
  | SyntaxError => "SyntaxError"
  | QueryError code => code
  end.

(** [Promise.all]: the results in the order of the promises, or the first
    rejection. *)
Fixpoint Promise_all {A} (ps : list (Completion A)) : Completion (list A) :=
  match ps with
  | [] => Normal []
  | p :: rest =>
      let* a := p in
      let* others := Promise_all rest in
      Normal (a :: others)
  end.

(** [rows.map(f)] for a mapper that may throw. *)
Fixpoint map_rows (f : JsVal -> Completion JsVal) (rows : RowSet)
  : Completion (list JsVal) :=
  match rows with
  | [] => Normal []
  | r :: rest =>
      let* x := f (JObj r) in
      let* xs := map_rows f rest in
      Normal (x :: xs)
  end.

Definition rows_json (rows : RowSet) : JsVal := JArr (List.map JObj rows).

Section AllData.
Context (rt : Runtime).
(** [pool.query(query, params)]: the rows, or the driver's error. *)
Context (pool : string -> Completion RowSet).

Definition safeQuery (query : string) : Completion RowSet :=
  try_catch (let* rows := pool query in Normal rows)
            (fun err => (* console.warn *) Normal []).

(** [Promise.all([safeQuery(q1), safeQuery(q2), ...])] *)
Definition fetchAll (queries : list string) : Completion (list RowSet) :=
  Promise_all (List.map safeQuery queries).

Definition allDataQueries : list string :=
  ["SELECT * FROM users";
   "SELECT * FROM articles";
   "SELECT * FROM site_profile LIMIT 1";
   "SELECT * FROM contact_info LIMIT 1";
   "SELECT * FROM programs";
   "SELECT * FROM structure";
   "SELECT * FROM announcements";
   "SELECT * FROM gallery";
   "SELECT * FROM comments";
   "SELECT * FROM notifications";
   "SELECT * FROM inspiration_notes";
   "SELECT * FROM partners";
   "SELECT * FROM legal_content"].

(** [legalContentRows.reduce((acc, row) => { acc[row.page_key] = {...};
    return acc; }, {})].  Assigning an object under the key [__proto__]
    sets the prototype of [acc] and creates no own property, so such a row
    leaves no entry.  (The host lists integer-like keys first; the model
    keeps insertion order.) *)
Definition formatLegalContent (legalContentRows : RowSet) : Props :=
  fold_left
    (fun acc row =>
       let key := ToString rt (lookupProp "page_key" row) in
       if String.eqb key "__proto__" then acc
       else setProp key
                    (JObj [("title", lookupProp "title" row);
                           ("content", lookupProp "content" row)])
                    acc)
    legalContentRows [].

Definition missionOf (rawProfile : JsVal) : Completion JsVal :=
  try_catch
    (let* mission := rawProfile.["mission"] in
     if typeof_string mission then JSON_parse_val rt mission
     else Normal mission ||| Normal (JArr []))
    (fun e => (* console.warn *) Normal (JArr [])).

Definition formatProfile (profileContentRows : RowSet) : Completion JsVal :=
  match profileContentRows with
  | [] => Normal JNull
  | first :: _ =>
      let rawProfile := JObj first in
      let* missionData := missionOf rawProfile in
      let* about := rawProfile.["about"] ||| Normal (JStr "") in
      let* vision := rawProfile.["vision"] ||| Normal (JStr "") in
      let* purpose := rawProfile.["purpose"] ||| Normal (JStr "") in
      let* text := rawProfile.["legality_text"] ||| Normal (JStr "") in
      let* sk := rawProfile.["legality_sk"] ||| Normal (JStr "") in
      let* adArt := rawProfile.["ad_art"] ||| Normal (JStr "") in
      Normal (JObj [("about", about); ("vision", vision);
                    ("mission", missionData); ("purpose", purpose);
                    ("legality", JObj [("text", text); ("sk", sk)]);
                    ("adArt", adArt)])
  end.

Definition formatContact (contactInfoRows : RowSet) : Completion JsVal :=
  match contactInfoRows with
  | [] => Normal JNull
  | first :: _ => formatContactFromRow rt (JObj first)
  end.

Definition allDataBody : Completion JsVal :=
  let* results := fetchAll allDataQueries in
  match results with
  | [usersRows; articles; profileContentRows; contactInfoRows; programs;
     structureRows; announcements; galleryImages; comments; notifications;
     inspirationNotes; partnersRows; legalContentRows] =>
      let legalContent := formatLegalContent legalContentRows in
      let* formattedProfile := formatProfile profileContentRows in
      let* formattedContact := formatContact contactInfoRows in
      let* users := map_rows (dbUserToApi rt) usersRows in
      let* partners := map_rows dbPartnerToApi partnersRows in
      let* structure := map_rows dbStructureToApi structureRows in
      let* articlesApi := map_rows dbArticleToApi articles in
      Normal (JObj [("users", JArr users);
                    ("articles", JArr articlesApi);
                    ("profileContent", formattedProfile);
                    ("contactInfo", formattedContact);
                    ("programs", rows_json programs);
                    ("structure", JArr structure);
                    ("announcements", rows_json announcements);
                    ("galleryImages", rows_json galleryImages);
                    ("comments", rows_json comments);
                    ("notifications", rows_json notifications);
                    ("inspirationNotes", rows_json inspirationNotes);
                    ("partners", JArr partners);
                    ("legalContent", JObj legalContent)])
  | _ => Throw TypeError
  end.

(** [app.get('/api/all-data', ...)] *)
Definition allData : Response :=
  match allDataBody with
  | Normal payload => {| status := 200; body := payload |}
  | Throw err =>
      {| status := 500;
         body := JObj [("message",
                        JStr "Critical server error while fetching initial data.");
                       ("error", JStr (error_message err))] |}
  end.

End AllData.

(** ** The column store behind seed.js

    A table is the list of its columns; a column carries its definition and
    its cells.  A column created by [ADD COLUMN] holds whatever the store
    fills in for its definition ([DefaultCells]).  [SHOW COLUMNS ... LIKE ?]
    is taken with a plain column name as its pattern: the names are compared
    as they are written. *)

Inductive ColData : Type :=
| Cells (cells : list JsVal)
| DefaultCells.

Record Column : Type := {
  col_name : string;
  col_def : string;
  col_data : ColData
}.

Abbreviation Schema := (gmap string (list Column)).

Inductive Stmt : Type :=
| ShowColumnsLike (table pattern : string)
| AlterChangeColumn (table oldName newName definition : string)
| AlterAddColumn (table newName definition : string).

Definition schema_altering (st : Stmt) : bool :=
  match st with
  | ShowColumnsLike _ _ => false
  | AlterChangeColumn _ _ _ _ | AlterAddColumn _ _ _ => true
  end.

Definition has_col (name : string) (cols : list Column) : bool :=
  existsb (fun c => String.eqb (col_name c) name) cols.

Definition rename_col (oldName newName definition : string) (cols : list Column)
  : list Column :=
  List.map
    (fun c =>
       if String.eqb (col_name c) oldName
       then {| col_name := newName; col_def := definition; col_data := col_data c |}
       else c)
    cols.

Definition add_col (newName definition : string) (cols : list Column)
  : list Column :=
  (cols ++ [{| col_name := newName; col_def := definition;
               col_data := DefaultCells |}])%list.

(** One statement against the store: the rows it resolves to and the schema
    it leaves, or the error it rejects with. *)
Definition exec (st : Stmt) (db : Schema) : Completion (list Column * Schema) :=
  match st with
  | ShowColumnsLike table pattern =>
      match db !! table with
      | None => Throw (QueryError "ER_NO_SUCH_TABLE")
      | Some cols =>
          Normal (List.filter (fun c => String.eqb (col_name c) pattern) cols, db)
      end
  | AlterChangeColumn table oldName newName definition =>
      match db !! table with
      | None => Throw (QueryError "ER_NO_SUCH_TABLE")
      | Some cols =>
          if negb (has_col oldName cols) then Throw (QueryError "ER_BAD_FIELD_ERROR")
          else if negb (String.eqb oldName newName) && has_col newName cols
               then Throw (QueryError "ER_DUP_FIELDNAME")
          else Normal ([], <[table := rename_col oldName newName definition cols]> db)
      end
  | AlterAddColumn table newName definition =>
      match db !! table with
      | None => Throw (QueryError "ER_NO_SUCH_TABLE")
      | Some cols =>
          if has_col newName cols then Throw (QueryError "ER_DUP_FIELDNAME")
          else Normal ([], <[table := add_col newName definition cols]> db)
      end
  end.

(** The connection: the schema and the statements sent so far. *)
Record Conn : Type := {
  schema : Schema;
  issued : list Stmt
}.

Definition DbM (A : Type) : Type := Conn -> Completion A * Conn.

Definition dret {A} (a : A) : DbM A := fun c => (Normal a, c).

Definition dbind {A B} (m : DbM A) (k : A -> DbM B) : DbM B :=
  fun c =>
    match m c with
    | (Normal a, c') => k a c'
    | (Throw e, c') => (Throw e, c')
    end.

Notation "'await' x ':=' m 'in' k" := (dbind m (fun x => k))
  (at level 10, x name, m at level 100, k at level 200) : js_scope.

Definition dtry {A} (m : DbM A) (h : JsError -> DbM A) : DbM A :=
  fun c =>
    match m c with
    | (Normal a, c') => (Normal a, c')
    | (Throw e, c') => h e c'
    end.

(** [conn.query(sql, params)] *)
Definition conn_query (st : Stmt) : DbM (list Column) :=
  fun c =>
    let sent := (issued c ++ [st])%list in
    match exec st (schema c) with
    | Normal (rows, db') => (Normal rows, {| schema := db'; issued := sent |})
    | Throw e => (Throw e, {| schema := schema c; issued := sent |})
    end.

(** ** seed.js *)

Definition ensureColumn (table oldName newName definition : string) : DbM unit :=
  await oldRows := conn_query (ShowColumnsLike table oldName) in
  await newRows := conn_query (ShowColumnsLike table newName) in
  let oldExists := Nat.ltb 0 (length oldRows) in
  let newExists := Nat.ltb 0 (length newRows) in
  if oldExists && negb newExists && negb (String.eqb oldName newName) then
    dtry (await _r := conn_query (AlterChangeColumn table oldName newName definition) in
          dret tt)
         (fun e => (* console.warn *) dret tt)
  else if negb oldExists && negb newExists then
    dtry (await _r := conn_query (AlterAddColumn table newName definition) in
          dret tt)
         (fun e => (* console.warn *) dret tt)
  else if oldExists && newExists then dret tt
  else if newExists then dret tt
  else dret tt.

Record Directive : Type := {
  d_table : string;
  d_old : string;
  d_new : string;
  d_def : string
}.

Definition directive (t o n d : string) : Directive :=
  {| d_table := t; d_old := o; d_new := n; d_def := d |}.

(** A run of awaited [ensureColumn] calls, one per directive, in order. *)
Fixpoint ensureColumns (ds : list Directive) : DbM unit :=
  match ds with
  | [] => dret tt
  | d :: rest =>
      await _u := ensureColumn (d_table d) (d_old d) (d_new d) (d_def d) in
      ensureColumns rest
  end.

(** The compatibility block of [seedDatabase]. *)
Definition seedDirectives : list Directive :=
  [directive "users" "avatarUrl" "avatar_url" "VARCHAR(255)";
   directive "users" "isVerified" "is_verified" "TINYINT DEFAULT 0";
   directive "users" "phoneNumber" "phone_number" "VARCHAR(20)";
   directive "users" "mediaName" "media_name" "VARCHAR(100)";
   directive "users" "ukwCertification" "ukw_certification" "VARCHAR(50)";
   directive "contact_info" "site_logo" "logo_url" "VARCHAR(255)";
   directive "contact_info" "faviconUrl" "favicon_url" "VARCHAR(255)";
   directive "structure" "photoUrl" "photo_url" "VARCHAR(255)";
   directive "programs" "icon" "icon" "VARCHAR(10)";
   directive "partners" "logoUrl" "logo_url" "VARCHAR(255)";
   directive "partners" "websiteUrl" "link" "VARCHAR(255)";
   directive "gallery" "image_url" "imageUrl" "VARCHAR(255)";
   directive "gallery" "album" "title" "VARCHAR(255)";
   directive "gallery" "title" "title" "VARCHAR(255)";
   directive "gallery" "caption" "description" "TEXT";
   directive "gallery" "description" "description" "TEXT";
   directive "articles" "editorFeedback" "editor_feedback" "TEXT";
   directive "articles" "author_id" "authorId" "INT";
   directive "articles" "image_url" "cover_image_url" "VARCHAR(255)";
   directive "articles" "imageUrl" "cover_image_url" "VARCHAR(255)";
   directive "articles" "cover_image_url" "cover_image_url" "VARCHAR(255)";
   directive "comments" "user_id" "userId" "INT";
   directive "notifications" "user_id" "userId" "INT";
   directive "notifications" "is_read" "isRead" "TINYINT DEFAULT 0";
   directive "notifications" "link" "link" "VARCHAR(255)";
   directive "notifications" "timestamp" "timestamp"
             "TIMESTAMP NULL DEFAULT CURRENT_TIMESTAMP"].

(** Running from a schema, with an empty log. *)
Definition run {A} (m : DbM A) (db : Schema) : Completion A * Conn :=
  m {| schema := db; issued := [] |}.

(** The schema-altering statements a run sent. *)
Definition alters (c : Conn) : list Stmt := List.filter schema_altering (issued c).

Definition columns_of (db : Schema) (table : string) : list Column :=
  match db !! table with
  | Some cols => cols
  | None => []
  end.

(** The cells held under a column name. *)
Definition data_of (name : string) (cols : list Column) : option ColData :=
  col_data <$> List.find (fun c => String.eqb (col_name c) name) cols.

(** No directive takes as its legacy column, to be renamed, the current
    column of a directive on the same table. *)
Definition chain_free (ds : list Directive) : bool :=
  forallb
    (fun d2 =>
       forallb
         (fun d1 =>
            implb (String.eqb (d_table d1) (d_table d2)
                   && String.eqb (d_old d2) (d_new d1))
                  (String.eqb (d_old d2) (d_new d2)))
         ds)
    ds.

(** What one directive makes of the columns of its table, and the
    schema-altering statements it sends for that. *)
Definition reconcile_cols (o n def : string) (cols : list Column) : list Column :=
  if has_col o cols && negb (has_col n cols) && negb (String.eqb o n)
  then rename_col o n def cols
  else if negb (has_col o cols) && negb (has_col n cols)
  then add_col n def cols
  else cols.

Definition reconcile_alters (t o n def : string) (cols : list Column) : list Stmt :=
  if has_col o cols && negb (has_col n cols) && negb (String.eqb o n)
  then [AlterChangeColumn t o n def]
  else if negb (has_col o cols) && negb (has_col n cols)
  then [AlterAddColumn t n def]
  else [].

Definition step (d : Directive) (db : Schema) : Schema :=
  <[d_table d := reconcile_cols (d_old d) (d_new d) (d_def d)
                   (columns_of db (d_table d))]> db.

Definition steps (ds : list Directive) (db : Schema) : Schema :=
  fold_left (fun acc d => step d acc) ds db.

Fixpoint steps_alters (ds : list Directive) (db : Schema) : list Stmt :=
  match ds with
  | [] => []
  | d :: rest =>
      (reconcile_alters (d_table d) (d_old d) (d_new d) (d_def d)
         (columns_of db (d_table d))
       ++ steps_alters rest (step d db))%list
  end.

(** The directive names column [c] of table [t], as its legacy or as its
    current column. *)
Definition names_column (d : Directive) (t c : string) : bool :=
  String.eqb (d_table d) t
  && (String.eqb (d_old d) c || String.eqb (d_new d) c).

(** A chain of two directives, and an [articles] table that still has the
    oldest name only. *)
Definition chained_directives : list Directive :=
  [directive "articles" "image_url" "imageUrl" "VARCHAR(255)";
   directive "articles" "imageUrl" "cover_image_url" "VARCHAR(255)"].

Definition legacy_articles : Schema :=
  {[ "articles" :=
       [{| col_name := "id"; col_def := "INT PRIMARY KEY AUTO_INCREMENT";
           col_data := Cells [JNum num_one] |};
        {| col_name := "image_url"; col_def := "VARCHAR(255)";
           col_data := Cells [JStr "https://picsum.photos/seed/news1/1200/630"] |}] ]}.

(** Two directives that undo each other, and a [gallery] table that has the
    first legacy name. *)
Definition cyclic_directives : list Directive :=
  [directive "gallery" "album" "title" "VARCHAR(255)";
   directive "gallery" "title" "album" "VARCHAR(255)"].

Definition legacy_gallery : Schema :=
  {[ "gallery" :=
       [{| col_name := "id"; col_def := "INT PRIMARY KEY AUTO_INCREMENT";
           col_data := Cells [JNum num_one] |};
        {| col_name := "album"; col_def := "VARCHAR(255)";
           col_data := Cells [JStr "Pelantikan Pengurus"] |}] ]}.

(** A database from before the renames: every table of the compatibility
    block exists, [users] still has [avatarUrl] (one row, holding ['x']) and
    [notifications] still has [is_read]. *)
Definition id_column : Column :=
  {| col_name := "id"; col_def := "INT PRIMARY KEY AUTO_INCREMENT";
     col_data := Cells [JNum num_one] |}.

Definition legacy_users : list Column :=
  [id_column;
   {| col_name := "name"; col_def := "VARCHAR(100)";
      col_data := Cells [JStr "Admin PWMOI"] |};
   {| col_name := "avatarUrl"; col_def := "VARCHAR(255)";
      col_data := Cells [JStr "x"] |}].

Definition legacy_db : Schema :=
  list_to_map
    [("users", legacy_users);
     ("contact_info", [id_column]);
     ("structure", [id_column]);
     ("programs", [id_column]);
     ("partners", [id_column]);
     ("gallery", [id_column]);
     ("articles", [id_column]);
     ("comments", [id_column]);
     ("notifications",
        [id_column;
         {| col_name := "is_read"; col_def := "TINYINT DEFAULT 0";
            col_data := Cells [JNum num_zero] |}])].

(** ** The resolution rule of the specification

    "Check the current column first, then each legacy alias in a fixed
    priority order, returning the first non-missing value, else a defined
    default": [names] lists the current name and then the aliases; a value is
    missing when the row has no such property or holds [null] there. *)
Fixpoint resolve (row : Props) (names : list string) (default : JsVal) : JsVal :=
  match names with
  | [] => default
  | n :: rest =>
      let v := lookupProp n row in
      if is_nullish v then resolve row rest default else v
  end.

(** The value of [a ?? b] when both operands are values. *)
Definition nullish_or (a b : JsVal) : JsVal := if is_nullish a then b else a.

(** The value of [v || '']. *)
Definition or_empty (v : JsVal) : JsVal := if truthy v then v else JStr "".

(** Reading a field of a mapper's result. *)
Definition field (k : string) (c : Completion JsVal) : Completion JsVal :=
  let* o := c in o.[k].

(** [toApi(toDb(toApi(row)))] *)
Definition roundtrip (toApi toDb : JsVal -> Completion JsVal) (row : JsVal)
  : Completion JsVal :=
  let* api := toApi row in
  let* dbObj := toDb api in
  toApi dbObj.

(** [n === 0 || n === 1] *)
Definition is_bit (n : spec_float) : bool := SFeqb n num_zero || SFeqb n num_one.

(** A flag stored as a boolean or as the number 0 or 1. *)
Definition stored_as_bit (v : JsVal) : bool :=
  match v with
  | JBool _ => true
  | JNum n => is_bit n
  | _ => false
  end.

(** The payload fields each persisted column of an article or of a user is
    written from. *)
Definition article_sources (column : string) : list string :=
  if String.eqb column "title" then ["title"]
  else if String.eqb column "content" then ["content"]
  else if String.eqb column "snippet" then ["snippet"]
  else if String.eqb column "status" then ["status"]
  else if String.eqb column "authorId" then ["authorId"]
  else if String.eqb column "editor_feedback" then ["editorFeedback"]
  else if String.eqb column "cover_image_url" then ["coverImageUrl"; "imageUrl"]
  else if String.eqb column "id" then ["id"]
  else [].

Definition user_sources (column : string) : list string :=
  if String.eqb column "name" then ["name"]
  else if String.eqb column "email" then ["email"]
  else if String.eqb column "password" then ["password"]
  else if String.eqb column "role" then ["role"]
  else if String.eqb column "avatar_url" then ["formalPhotoUrl"; "avatarUrl"]
  else if String.eqb column "is_verified" then ["isVerified"]
  else if String.eqb column "phone_number" then ["phoneNumber"]
  else if String.eqb column "media_name" then ["mediaName"]
  else if String.eqb column "position" then ["position"]
  else if String.eqb column "ukw_certification" then ["ukwCertification"]
  else [].

(** Some field of [names] is present in the payload. *)
Definition some_present (payload : Props) (names : list string) : bool :=
  existsb (fun s => negb (is_undefined (lookupProp s payload))) names.

(** A host for the closed examples: no string denotes a number and no text
    parses as JSON. *)
Definition bare_host : Runtime :=
  {| StringToNumber := fun _ => S754_nan;
     NumberToString := fun _ => "NaN";
     JSON_parse := fun _ => None |}.

(** The rows [safeQuery] resolves to: those of the query, or none when it
    fails. *)
Definition safe_rows (pool : string -> Completion RowSet) (query : string) : RowSet :=
  match pool query with
  | Normal rows => rows
  | Throw _ => []
  end.

(** A field of the JSON body of a response. *)
Definition body_field (k : string) (r : Response) : Completion JsVal := (body r).[k].

(** A pool for the closed examples: a store that holds one site profile whose
    mission is not JSON and one user, has no contact row, and lacks the
    [partners] table. *)
Definition sample_pool (query : string) : Completion RowSet :=
  if String.eqb query "SELECT * FROM site_profile LIMIT 1"
  then Normal [[("id", JNum num_one); ("about", JStr "PWMOI");
                ("mission", JStr "not-json")]]
  else if String.eqb query "SELECT * FROM users"
  then Normal [[("id", JNum num_one); ("name", JStr "Admin PWMOI");
                ("is_verified", JNum num_one)]]
  else if String.eqb query "SELECT * FROM partners"
  then Throw (QueryError "ER_NO_SUCH_TABLE")
  else Normal [].

(** ** The values the mappers and the handler return *)

Definition user_api (rt : Runtime) (row : Props) : JsVal :=
  JObj
    [("id", lookupProp "id" row);
     ("name", lookupProp "name" row);
     ("email", lookupProp "email" row);
     ("password", lookupProp "password" row);
     ("role", lookupProp "role" row);
     ("avatarUrl", resolve row ["avatar_url"; "avatarUrl"] JNull);
     ("isVerified",
        JNum (ToNumber rt
                (resolve row ["is_verified"; "isVerified"] (JNum num_zero))));
     ("phoneNumber", resolve row ["phone_number"; "phoneNumber"] JNull);
     ("mediaName", resolve row ["media_name"; "mediaName"] JNull);
     ("position", resolve row ["position"] JNull);
     ("ukwCertification",
        resolve row ["ukw_certification"; "ukwCertification"] JNull)].

Definition partner_api (row : Props) : JsVal :=
  JObj
    [("id", lookupProp "id" row);
     ("name", lookupProp "name" row);
     ("logoUrl", resolve row ["logo_url"; "logoUrl"] JNull);
     ("link", resolve row ["link"] JNull)].

Definition structure_api (row : Props) : JsVal :=
  JObj
    [("id", lookupProp "id" row);
     ("name", lookupProp "name" row);
     ("position", lookupProp "position" row);
     ("photoUrl", resolve row ["photo_url"; "photoUrl"] JNull)].

Definition article_api (row : Props) : JsVal :=
  JObj
    [("id", lookupProp "id" row);
     ("title", lookupProp "title" row);
     ("content", lookupProp "content" row);
     ("snippet", lookupProp "snippet" row);
     ("status", lookupProp "status" row);
     ("authorId", lookupProp "authorId" row);
     ("editorFeedback", resolve row ["editor_feedback"; "editorFeedback"] JNull);
     ("coverImageUrl",
        resolve row ["cover_image_url"; "coverImageUrl"; "imageUrl"] JNull);
     ("imageUrl",
        resolve row ["cover_image_url"; "coverImageUrl"; "imageUrl"] JNull)].

Definition contact_api (rt : Runtime) (row : Props) : JsVal :=
  JObj
    [("organizationName", or_empty (lookupProp "organizationName" row));
     ("address", or_empty (lookupProp "address" row));
     ("email", or_empty (lookupProp "email" row));
     ("phone", or_empty (lookupProp "phone" row));
     ("siteLogo", or_empty (lookupProp "logo_url" row));
     ("faviconUrl", or_empty (lookupProp "favicon_url" row));
     ("socials", safeJsonParse rt (lookupProp "socials" row) (JObj []))].

(** The mission list of a profile row: the parsed text, the empty list for
    text that does not parse, the stored value when it is no text and is
    truthy, else the empty list. *)
Definition mission_value (rt : Runtime) (row : Props) : JsVal :=
  match lookupProp "mission" row with
  | JStr s =>
      match JSON_parse rt s with
      | Some j => j
      | None => JArr []
      end
  | v => if truthy v then v else JArr []
  end.

Definition profile_api (rt : Runtime) (row : Props) : JsVal :=
  JObj
    [("about", or_empty (lookupProp "about" row));
     ("vision", or_empty (lookupProp "vision" row));
     ("mission", mission_value rt row);
     ("purpose", or_empty (lookupProp "purpose" row));
     ("legality",
        JObj [("text", or_empty (lookupProp "legality_text" row));
              ("sk", or_empty (lookupProp "legality_sk" row))]);
     ("adArt", or_empty (lookupProp "ad_art" row))].

(** The first row of a row-set through [f], or [null] for none. *)
Definition first_or_null (f : Props -> JsVal) (rows : RowSet) : JsVal :=
  match rows with
  | [] => JNull
  | row :: _ => f row
  end.

(** The entry a legal-content row contributes, and the last row filed under
    a page key. *)
Definition legal_entry (row : Props) : JsVal :=
  JObj [("title", lookupProp "title" row); ("content", lookupProp "content" row)].

Definition last_legal_row (rt : Runtime) (k : string) (rows : RowSet)
  : option Props :=
  List.find (fun row => String.eqb k (ToString rt (lookupProp "page_key" row)))
            (rev rows).

(** A pool whose every read fails. *)
Definition failing_pool (query : string) : Completion RowSet :=
  Throw (QueryError "ECONNREFUSED").

(** ** The objects the payload mappers build *)

(** [if (isVerified !== undefined) dbObj.is_verified = Number(isVerified ? 1 : 0);] *)
Definition setFlag (isVerified : JsVal) (o : Props) : Props :=
  if is_undefined isVerified then o
  else setProp "is_verified"
         (JNum (if truthy isVerified then num_one else num_zero)) o.

Definition user_db (payload : Props) : Props :=
  setIfDefined "ukw_certification" (lookupProp "ukwCertification" payload)
  (setIfDefined "position" (lookupProp "position" payload)
  (setIfDefined "media_name" (lookupProp "mediaName" payload)
  (setIfDefined "phone_number" (lookupProp "phoneNumber" payload)
  (setFlag (lookupProp "isVerified" payload)
  (setIfDefined "avatar_url"
     (nullish_or (lookupProp "formalPhotoUrl" payload)
                 (lookupProp "avatarUrl" payload))
  (setIfDefined "role" (lookupProp "role" payload)
  (setIfDefined "password" (lookupProp "password" payload)
  (setIfDefined "email" (lookupProp "email" payload)
  (setIfDefined "name" (lookupProp "name" payload) []))))))))).

Definition article_db (payload : Props) : Props :=
  setIfDefined "id" (lookupProp "id" payload)
  (setIfDefined "cover_image_url"
     (nullish_or (lookupProp "coverImageUrl" payload)
                 (lookupProp "imageUrl" payload))
  (setIfDefined "editor_feedback" (lookupProp "editorFeedback" payload)
  (setIfDefined "authorId" (lookupProp "authorId" payload)
  (setIfDefined "status" (lookupProp "status" payload)
  (setIfDefined "snippet" (lookupProp "snippet" payload)
  (setIfDefined "content" (lookupProp "content" payload)
  (setIfDefined "title" (lookupProp "title" payload) []))))))).

Definition partner_db (item : Props) : Props :=
  setIfDefined "id" (lookupProp "id" item)
    [("name", lookupProp "name" item);
     ("logo_url", lookupProp "logoUrl" item);
     ("link", lookupProp "link" item)].

Definition structure_db (item : Props) : Props :=
  setIfDefined "id" (lookupProp "id" item)
    [("name", lookupProp "name" item);
     ("position", lookupProp "position" item);
     ("photo_url", lookupProp "photoUrl" item)].

(** The own properties a destructuring pattern reads from a payload:
    those of [payload || {}]. *)
Definition payload_props (payload : JsVal) : Props :=
  match payload with
  | JObj props => props
  | _ => []
  end.

(** Every value of the object is something other than [undefined]. *)
Definition all_defined (o : Props) : bool :=
  forallb (fun kv => negb (is_undefined (snd kv))) o.

(** The field of the aggregate payload each read feeds. *)
Definition allData_sources : list (string * string) :=
  [("users", "SELECT * FROM users");
   ("articles", "SELECT * FROM articles");
   ("profileContent", "SELECT * FROM site_profile LIMIT 1");
   ("contactInfo", "SELECT * FROM contact_info LIMIT 1");
   ("programs", "SELECT * FROM programs");
   ("structure", "SELECT * FROM structure");
   ("announcements", "SELECT * FROM announcements");
   ("galleryImages", "SELECT * FROM gallery");
   ("comments", "SELECT * FROM comments");
   ("notifications", "SELECT * FROM notifications");
   ("inspirationNotes", "SELECT * FROM inspiration_notes");
   ("partners", "SELECT * FROM partners");
   ("legalContent", "SELECT * FROM legal_content")].

(** The payload of a store that answers no read. *)
Definition empty_payload : JsVal :=
  JObj [("users", JArr []); ("articles", JArr []);
        ("profileContent", JNull); ("contactInfo", JNull);
        ("programs", JArr []); ("structure", JArr []);
        ("announcements", JArr []); ("galleryImages", JArr []);
        ("comments", JArr []); ("notifications", JArr []);
        ("inspirationNotes", JArr []); ("partners", JArr []);
        ("legalContent", JObj [])].

(** A pool that differs from [sample_pool] on the [users] read only. *)
Definition sample_pool_no_users (query : string) : Completion RowSet :=
  if String.eqb query "SELECT * FROM users"
  then Throw (QueryError "ER_NO_SUCH_TABLE")
  else sample_pool query.

(** A pool whose contact table holds one row: the [socials] column, of
    type [JSON], comes back from the driver as an object, and no phone
    number is stored. *)
Definition contact_pool (query : string) : Completion RowSet :=
  if String.eqb query "SELECT * FROM contact_info LIMIT 1"
  then Normal [[("id", JNum num_one);
                ("organizationName", JStr "PWMOI Banyuwangi");
                ("email", JStr "redaksi@pwmoi.test");
                ("phone", JNull);
                ("socials", JObj [("facebook", JStr "https://facebook.com/pwmoi")])]]
  else Normal [].

(** A pool with two legal rows filed under the same page key. *)
Definition legal_pool (query : string) : Completion RowSet :=
  if String.eqb query "SELECT * FROM legal_content"
  then Normal [[("page_key", JStr "kodeEtik"); ("title", JStr "Kode Etik");
                ("content", JStr "1. Akurat")];
               [("page_key", JStr "kodeEtik"); ("title", JStr "Kode Etik Jurnalistik");
                ("content", JStr "1. Bertanggung jawab")]]
  else Normal [].

(** An [articles] table that has both legacy names of the cover. *)
Definition two_legacy_articles : Schema :=
  {[ "articles" :=
       [id_column;
        {| col_name := "image_url"; col_def := "VARCHAR(255)";
           col_data := Cells [JStr "https://picsum.photos/seed/news1/1200/630"] |};
        {| col_name := "imageUrl"; col_def := "VARCHAR(255)";
           col_data := Cells [JStr "https://picsum.photos/seed/news2/1200/630"] |}] ]}.

(** The database of [legacy_db] with an [articles] table that has the
    second legacy name of the cover only. *)
Definition legacy_cover_db : Schema :=
  <["articles" :=
      [id_column;
       {| col_name := "imageUrl"; col_def := "VARCHAR(255)";
          col_data := Cells [JStr "https://picsum.photos/seed/news2/1200/630"] |}]]>
    legacy_db.

(** A database in which only [users] has been created. *)
Definition legacy_users_only : Schema := {[ "users" := legacy_users ]}.

(** ** The write handlers of server.js

    A handler talks to the pool, which answers a statement with the rows of
    a [SELECT], with the header of a write, or with an error.  What the
    pool answers is a parameter; the handlers are run against any pool, and
    the statements they send are logged. *)

(** [pool.query(sql, values)] with the second argument as the handler
    passes it: an array of values, a single object, or nothing
    ([undefined]). *)
Record Query : Type := {
  q_sql : string;
  q_values : JsVal
}.

Inductive QueryResult : Type :=
| ResultRows (rows : RowSet)
| ResultHeader (header : Props).

(** [result.insertId] *)
Definition insertId_of (r : QueryResult) : JsVal :=
  match r with
  | ResultHeader header => lookupProp "insertId" header
  | ResultRows _ => JUndefined
  end.

(** [rows[0]] *)
Definition first_row (r : QueryResult) : JsVal :=
  match r with
  | ResultRows (row :: _) => JObj row
  | _ => JUndefined
  end.

(** [rows.map(f)]: a header has no [map]. *)
Definition rows_map (f : JsVal -> Completion JsVal) (r : QueryResult)
  : Completion JsVal :=
  match r with
  | ResultRows rows => let* xs := map_rows f rows in Normal (JArr xs)
  | ResultHeader _ => Throw TypeError
  end.

(** The result as it is put into a response. *)
Definition result_json (r : QueryResult) : JsVal :=
  match r with
  | ResultRows rows => rows_json rows
  | ResultHeader header => JObj header
  end.

(** [delete o.k] *)
Definition deleteProp (k : string) (o : Props) : Props :=
  List.filter (fun kv => negb (String.eqb k (fst kv))) o.

(** [Object.keys(o).forEach(k => { if (o[k] === undefined) delete o[k]; })] *)
Definition removeUndefined (o : Props) : Props :=
  List.filter (fun kv => negb (is_undefined (snd kv))) o.

(** The own properties of a value, as the spread [{...v}] copies them: the
    properties of an object, the elements of an array and the characters of
    a string (a sequence of one-byte characters here) under their indices,
    nothing for the other values. *)
Definition index_key (i : nat) : string := NilZero.string_of_uint (Nat.to_uint i).

Fixpoint indexed {A} (f : A -> JsVal) (l : list A) (i : nat) : Props :=
  match l with
  | [] => []
  | x :: rest => (index_key i, f x) :: indexed f rest (S i)
  end.

Definition spread (v : JsVal) : Props :=
  match v with
  | JObj props => props
  | JArr elems => indexed (fun x => x) elems 0
  | JStr s => indexed (fun c => JStr (String c "")) (String.list_ascii_of_string s) 0
  | _ => []
  end.

(** The properties of an object. *)
Definition props_of (v : JsVal) : Props :=
  match v with
  | JObj props => props
  | _ => []
  end.

Definition is_array (v : JsVal) : bool :=
  match v with
  | JArr _ => true
  | _ => false
  end.

Definition elements_of (v : JsVal) : list JsVal :=
  match v with
  | JArr elems => elems
  | _ => []
  end.

Definition register_columns : list string :=
  ["name"; "email"; "password"; "role"; "avatar_url"; "is_verified";
   "phone_number"; "media_name"; "position"; "ukw_certification"].

(** The [values] array of the registration. *)
Definition register_values (dbUser : JsVal) : Completion (list JsVal) :=
  let* name := dbUser.["name"] ?? Normal JNull in
  let* email := dbUser.["email"] ?? Normal JNull in
  let* password := dbUser.["password"] ?? Normal JNull in
  let* role := dbUser.["role"] ?? Normal (JStr "Jurnalis") in
  let* avatar_url := dbUser.["avatar_url"] ?? Normal JNull in
  let* is_verified := dbUser.["is_verified"] ?? Normal (JNum num_zero) in
  let* phone_number := dbUser.["phone_number"] ?? Normal JNull in
  let* media_name := dbUser.["media_name"] ?? Normal JNull in
  let* position := dbUser.["position"] ?? Normal JNull in
  let* ukw_certification := dbUser.["ukw_certification"] ?? Normal JNull in
  Normal [name; email; password; role; avatar_url; is_verified;
          phone_number; media_name; position; ukw_certification].

Definition register_sql : string :=
  "INSERT INTO users (" ++ String.concat ", " register_columns
  ++ ") VALUES ("
  ++ String.concat ", " (List.map (fun _ => "?") register_columns) ++ ")".

Definition internal_error : Response :=
  {| status := 500; body := JObj [("message", JStr "Internal server error")] |}.

(** The pool with its state and the statements sent so far. *)
Record PoolSt (S : Type) : Type := {
  pool_state : S;
  sent : list Query
}.
Arguments pool_state {S} _.
Arguments sent {S} _.

Definition PoolM (S A : Type) : Type := PoolSt S -> Completion A * PoolSt S.

Definition pret {S A} (a : A) : PoolM S A := fun st => (Normal a, st).

Definition pbind {S A B} (m : PoolM S A) (k : A -> PoolM S B) : PoolM S B :=
  fun st =>
    match m st with
    | (Normal a, st') => k a st'
    | (Throw e, st') => (Throw e, st')
    end.

Definition ptry {S A} (m : PoolM S A) (h : JsError -> PoolM S A) : PoolM S A :=
  fun st =>
    match m st with
    | (Normal a, st') => (Normal a, st')
    | (Throw e, st') => h e st'
    end.

(** A computation that does not touch the pool. *)
Definition plift {S A} (c : Completion A) : PoolM S A := fun st => (c, st).

(** [for (const x of l) { await f(x); }] *)
Fixpoint for_each {S A} (f : A -> PoolM S unit) (l : list A) : PoolM S unit :=
  match l with
  | [] => pret tt
  | x :: rest => pbind (f x) (fun _ => for_each f rest)
  end.

Declare Scope pool_scope.
Notation "'await' x ':=' m 'in' k" := (pbind m (fun x => k))
  (at level 10, x name, m at level 100, k at level 200) : pool_scope.
Notation "'let*' x ':=' m 'in' k" := (pbind (plift m) (fun x => k))
  (at level 10, x name, m at level 100, k at level 200) : pool_scope.

Section Handlers.
Context {S : Type} (rt : Runtime).
Context (pool_query : Query -> S -> Completion QueryResult * S).
Open Scope pool_scope.

(** [await pool.query(sql, values)] *)
Definition query (sql : string) (values : JsVal) : PoolM S QueryResult :=
  fun st =>
    let q := {| q_sql := sql; q_values := values |} in
    let (r, s') := pool_query q (pool_state st) in
    (r, {| pool_state := s'; sent := (sent st ++ [q])%list |}).

(** [app.post('/api/register', ...)] *)
Definition post_register (body : JsVal) : PoolM S Response :=
  ptry
    (let payload := JObj (setProp "role" (JStr "Jurnalis") (spread body)) in
     let* dbUser := apiUserToDb rt payload in
     let* values := register_values dbUser in
     await result := query register_sql (JArr values) in
     await rows := query "SELECT * FROM users WHERE id = ?"
                         (JArr [insertId_of result]) in
     let* user := dbUserToApi rt (first_row rows) in
     pret {| status := 201; body := JObj [("user", user)] |})
    (fun err =>
       pret {| status := 500;
               body := JObj [("message", JStr "Gagal mendaftarkan pengguna")] |}).

(** [app.put('/api/users/:id', ...)] *)
Definition put_user (id body : JsVal) : PoolM S Response :=
  ptry
    (let* mapped := apiUserToDb rt body in
     let fieldsToUpdate := removeUndefined (props_of mapped) in
     if Nat.eqb (length fieldsToUpdate) 0 then
       pret {| status := 400;
               body := JObj [("message", JStr "No valid fields to update")] |}
     else
       await _r := query "UPDATE users SET ? WHERE id = ?"
                         (JArr [JObj fieldsToUpdate; id]) in
       await rows := query "SELECT * FROM users" JUndefined in
       let* users := rows_map (dbUserToApi rt) rows in
       pret {| status := 200; body := JObj [("users", users)] |})
    (fun err => pret internal_error).

(** [app.post('/api/articles', ...)] *)
Definition post_article (body : JsVal) : PoolM S Response :=
  ptry
    (let* dbArticle := apiArticleToDb body in
     await _r := query "INSERT INTO articles SET ?" dbArticle in
     await rows := query "SELECT * FROM articles" JUndefined in
     let* articles := rows_map dbArticleToApi rows in
     pret {| status := 201; body := JObj [("articles", articles)] |})
    (fun err => pret internal_error).

(** [app.put('/api/articles/:id', ...)] *)
Definition put_article (id body : JsVal) : PoolM S Response :=
  let* mapped := apiArticleToDb body in
  let updatedArticle := deleteProp "id" (props_of mapped) in
  ptry
    (await _r := query "UPDATE articles SET ? WHERE id = ?"
                       (JArr [JObj updatedArticle; id]) in
     await rows := query "SELECT * FROM articles" JUndefined in
     let* articles := rows_map dbArticleToApi rows in
     pret {| status := 200; body := JObj [("articles", articles)] |})
    (fun err => pret internal_error).

(** [app.put('/api/articles/:id/status', ...)] *)
Definition put_article_status (id body : JsVal) : PoolM S Response :=
  let* status := body.["status"] in
  let* title := body.["title"] in
  let* snippet := body.["snippet"] in
  ptry
    (await _r :=
       (if truthy title && truthy snippet
        then query "UPDATE articles SET status = ?, title = ?, snippet = ? WHERE id = ?"
                   (JArr [status; title; snippet; id])
        else query "UPDATE articles SET status = ? WHERE id = ?"
                   (JArr [status; id])) in
     await rows := query "SELECT * FROM articles" JUndefined in
     let* articles := rows_map dbArticleToApi rows in
     pret {| status := 200; body := JObj [("articles", articles)] |})
    (fun err => pret internal_error).

(** [app.put('/api/site/programs', ...)] and
    [app.put('/api/site/announcements', ...)], which differ in the table
    and the field they name. *)
Definition put_site_list (table name : string) (body : JsVal)
  : PoolM S Response :=
  let* items := body.[name] in
  ptry
    (await _r := query ("DELETE FROM " ++ table) JUndefined in
     await _u :=
       (if is_array items
        then for_each
               (fun item =>
                  await _i := query ("INSERT INTO " ++ table ++ " SET ?") item in
                  pret tt)
               (elements_of items)
        else pret tt) in
     pret {| status := 200;
             body := JObj [(name, nullish_or items (JArr []))] |})
    (fun err => pret internal_error).

Definition put_site_programs : JsVal -> PoolM S Response :=
  put_site_list "programs" "programs".

Definition put_site_announcements : JsVal -> PoolM S Response :=
  put_site_list "announcements" "announcements".

(** [app.put('/api/site/structure', ...)] *)
Definition put_site_structure (body : JsVal) : PoolM S Response :=
  let* structure := body.["structure"] in
  ptry
    (await _r := query "DELETE FROM structure" JUndefined in
     await _u :=
       (if is_array structure
        then for_each
               (fun official =>
                  let* dbOfficial := apiStructureToDb official in
                  await _i := query "INSERT INTO structure SET ?" dbOfficial in
                  pret tt)
               (elements_of structure)
        else pret tt) in
     pret {| status := 200;
             body := JObj [("structure", nullish_or structure (JArr []))] |})
    (fun err => pret internal_error).

(** [app.put('/api/gallery/:id', ...)] *)
Definition put_gallery (id body : JsVal) : PoolM S Response :=
  let updatedImage := deleteProp "id" (spread body) in
  ptry
    (await _r := query "UPDATE gallery SET ? WHERE id = ?"
                       (JArr [JObj updatedImage; id]) in
     await galleryImages := query "SELECT * FROM gallery" JUndefined in
     pret {| status := 200;
             body := JObj [("galleryImages", result_json galleryImages)] |})
    (fun err => pret internal_error).

(** [app.post('/api/partners', ...)] *)
Definition post_partner (body : JsVal) : PoolM S Response :=
  ptry
    (let* dbPartner := apiPartnerToDb body in
     await _r := query "INSERT INTO partners SET ?" dbPartner in
     await rows := query "SELECT * FROM partners" JUndefined in
     let* partners := rows_map dbPartnerToApi rows in
     pret {| status := 201; body := JObj [("partners", partners)] |})
    (fun err => pret internal_error).

(** [app.put('/api/partners/:id', ...)] *)
Definition put_partner (id body : JsVal) : PoolM S Response :=
  ptry
    (let* mapped := apiPartnerToDb body in
     let dbPartner := deleteProp "id" (props_of mapped) in
     await _r := query "UPDATE partners SET ? WHERE id = ?"
                       (JArr [JObj dbPartner; id]) in
     await rows := query "SELECT * FROM partners" JUndefined in
     let* partners := rows_map dbPartnerToApi rows in
     pret {| status := 200; body := JObj [("partners", partners)] |})
    (fun err => pret internal_error).

(** [app.post('/api/notifications', ...)] *)
Definition post_notification (body : JsVal) : PoolM S Response :=
  let src := orEmptyObject body in
  let* userId := src.["userId"] in
  let* message := src.["message"] in
  let* link := src.["link"] in
  let notif := [("userId", userId); ("message", message);
                ("link", nullish_or link JNull); ("isRead", JNum num_zero)] in
  ptry
    (await _r := query "INSERT INTO notifications SET ?" (JObj notif) in
     await notifications := query "SELECT * FROM notifications" JUndefined in
     pret {| status := 201;
             body := JObj [("notifications", result_json notifications)] |})
    (fun err => pret internal_error).

(** A handler run from a state of the pool, nothing sent yet. *)
Definition serve {A} (h : PoolM S A) (s : S) : Completion A * PoolSt S :=
  h {| pool_state := s; sent := [] |}.

(** The reference the replace handlers are compared with: statements sent
    to the pool one after the other, each in the state the one before left,
    up to and including the first one the pool rejects.  The result is the
    statements sent, the state the pool is left in, and the error of the
    rejected statement if there is one. *)
Fixpoint send_until_rejected (qs : list Query) (s : S)
  : list Query * S * option JsError :=
  match qs with
  | [] => ([], s, None)
  | q :: rest =>
      match pool_query q s with
      | (Normal _, s') =>
          let '(sent, s'', failure) := send_until_rejected rest s' in
          (q :: sent, s'', failure)
      | (Throw e, s') => ([q], s', Some e)
      end
  end.

Close Scope pool_scope.
End Handlers.

(** The payload fields [apiUserToDb] reads. *)
Definition user_payload_fields : list string :=
  ["name"; "email"; "password"; "role"; "avatarUrl"; "formalPhotoUrl";
   "isVerified"; "phoneNumber"; "mediaName"; "position"; "ukwCertification"].

(** A pool for the closed examples: it accepts every write, answers every
    read with no row, and counts the statements. *)
Definition counting_pool (q : Query) (n : nat) : Completion QueryResult * nat :=
  (Normal (if String.prefix "SELECT" (q_sql q)
           then ResultRows []
           else ResultHeader [("insertId", JNum num_one)]),
   S n).

(** A pool that rejects every statement. *)
Definition rejecting_pool (q : Query) (n : nat) : Completion QueryResult * nat :=
  (Throw (QueryError "ECONNREFUSED"), S n).


(** A pool that accepts a [DELETE] and rejects every other statement. *)
Definition refusing_inserts (q : Query) (n : nat) : Completion QueryResult * nat :=
  (if String.prefix "DELETE" (q_sql q)
   then Normal (ResultHeader [("affectedRows", JNum num_one)])
   else Throw (QueryError "ER_BAD_FIELD_ERROR"),
   S n).
(** * Properties *)

Arguments setIfDefined : simpl never.
Arguments coalesce : simpl never.
Arguments or_else : simpl never.

(** ** Basic facts about the operators *)

Lemma coalesce_Normal (a b : JsVal) :
  Normal a ?? Normal b = Normal (nullish_or a b).
Proof. unfold coalesce, nullish_or; simpl. now destruct (is_nullish a). Qed.

Lemma or_else_Normal (a b : JsVal) :
  Normal a ||| Normal b = Normal (if truthy a then a else b).
Proof. unfold or_else; simpl. now destruct (truthy a). Qed.

Lemma nullish_or_assoc (a b c : JsVal) :
  nullish_or (nullish_or a b) c = nullish_or a (nullish_or b c).
Proof. unfold nullish_or. destruct (is_nullish a) eqn:Ha; [reflexivity|]. now rewrite Ha. Qed.

Lemma nullish_or_defined (a : JsVal) :
  is_undefined (nullish_or a JNull) = false.
Proof. now destruct a. Qed.




Lemma resolve_1 row n d :
  resolve row [n] d = nullish_or (lookupProp n row) d.
Proof. reflexivity. Qed.

Lemma resolve_2 row n1 n2 d :
  resolve row [n1; n2] d
  = nullish_or (nullish_or (lookupProp n1 row) (lookupProp n2 row)) d.
Proof. rewrite nullish_or_assoc. reflexivity. Qed.

Lemma resolve_3 row n1 n2 n3 d :
  resolve row [n1; n2; n3] d
  = nullish_or (nullish_or (nullish_or (lookupProp n1 row) (lookupProp n2 row))
                           (lookupProp n3 row)) d.
Proof. rewrite !nullish_or_assoc. reflexivity. Qed.

Lemma lookupProp_setProp (k k' : string) (v : JsVal) (o : Props) :
  lookupProp k (setProp k' v o)
  = if String.eqb k k' then v else lookupProp k o.
Proof.
  induction o as [|[k0 v0] o IH]; simpl.
  - reflexivity.
  - destruct (String.eqb k' k0) eqn:E0; simpl.
    + apply String.eqb_eq in E0; subst k0.
      now destruct (String.eqb k k').
    + destruct (String.eqb k k0) eqn:E1.
      * apply String.eqb_eq in E1; subst k0.
        rewrite String.eqb_sym, E0. reflexivity.
      * exact IH.
Qed.

Lemma lookupProp_setIfDefined (k k' : string) (v : JsVal) (o : Props) :
  lookupProp k (setIfDefined k' v o)
  = if String.eqb k k'
    then (if is_undefined v then lookupProp k o else v)
    else lookupProp k o.
Proof.
  unfold setIfDefined. destruct (is_undefined v).
  - now destruct (String.eqb k k').
  - apply lookupProp_setProp.
Qed.

Lemma undefined_or_self (v : JsVal) :
  (if is_undefined v then JUndefined else v) = v.
Proof. now destruct v. Qed.


Lemma has_key_setProp (k k' : string) (v : JsVal) (o : Props) :
  has_key k (setProp k' v o) = String.eqb k k' || has_key k o.
Proof.
  induction o as [|[k0 v0] o IH]; simpl.
  - now rewrite orb_false_r.
  - destruct (String.eqb k' k0) eqn:E0; simpl.
    + apply String.eqb_eq in E0; subst k0.
      now destruct (String.eqb k k').
    + rewrite IH. now destruct (String.eqb k k'), (String.eqb k k0).
Qed.

Lemma has_key_setIfDefined (k k' : string) (v : JsVal) (o : Props) :
  has_key k (setIfDefined k' v o)
  = (String.eqb k k' && negb (is_undefined v)) || has_key k o.
Proof.
  unfold setIfDefined. destruct (is_undefined v); simpl.
  - now rewrite andb_false_r.
  - rewrite has_key_setProp. now rewrite andb_true_r.
Qed.

(** Evaluate the completions of a mapper applied to an object. *)
Ltac js_eval :=
  repeat (progress (simpl; rewrite ?coalesce_Normal, ?or_else_Normal)).

(** ** The row mappers, computed *)

Section MapperShapes.
Context (rt : Runtime).

Lemma dbArticleToApi_obj (row : Props) :
  dbArticleToApi (JObj row)
  = Normal (JObj
      [("id", lookupProp "id" row);
       ("title", lookupProp "title" row);
       ("content", lookupProp "content" row);
       ("snippet", lookupProp "snippet" row);
       ("status", lookupProp "status" row);
       ("authorId", lookupProp "authorId" row);
       ("editorFeedback", resolve row ["editor_feedback"; "editorFeedback"] JNull);
       ("coverImageUrl",
          resolve row ["cover_image_url"; "coverImageUrl"; "imageUrl"] JNull);
       ("imageUrl",
          resolve row ["cover_image_url"; "coverImageUrl"; "imageUrl"] JNull)]).
Proof.
  rewrite resolve_2, resolve_3.
  unfold dbArticleToApi. js_eval. reflexivity.
Qed.

Lemma dbUserToApi_obj (row : Props) :
  dbUserToApi rt (JObj row)
  = Normal (JObj
      [("id", lookupProp "id" row);
       ("name", lookupProp "name" row);
       ("email", lookupProp "email" row);
       ("password", lookupProp "password" row);
       ("role", lookupProp "role" row);
       ("avatarUrl", resolve row ["avatar_url"; "avatarUrl"] JNull);
       ("isVerified",
          JNum (ToNumber rt
                  (resolve row ["is_verified"; "isVerified"] (JNum num_zero))));
       ("phoneNumber", resolve row ["phone_number"; "phoneNumber"] JNull);
       ("mediaName", resolve row ["media_name"; "mediaName"] JNull);
       ("position", resolve row ["position"] JNull);
       ("ukwCertification",
          resolve row ["ukw_certification"; "ukwCertification"] JNull)]).
Proof.
  rewrite !resolve_2, resolve_1.
  unfold dbUserToApi, Number_. js_eval. reflexivity.
Qed.

Lemma dbPartnerToApi_obj (row : Props) :
  dbPartnerToApi (JObj row)
  = Normal (JObj
      [("id", lookupProp "id" row);
       ("name", lookupProp "name" row);
       ("logoUrl", resolve row ["logo_url"; "logoUrl"] JNull);
       ("link", resolve row ["link"] JNull)]).
Proof.
  rewrite resolve_2, resolve_1.
  unfold dbPartnerToApi. js_eval. reflexivity.
Qed.

Lemma dbStructureToApi_obj (row : Props) :
  dbStructureToApi (JObj row)
  = Normal (JObj
      [("id", lookupProp "id" row);
       ("name", lookupProp "name" row);
       ("position", lookupProp "position" row);
       ("photoUrl", resolve row ["photo_url"; "photoUrl"] JNull)]).
Proof.
  rewrite resolve_2.
  unfold dbStructureToApi. js_eval. reflexivity.
Qed.

Lemma formatContactFromRow_obj (row : Props) :
  formatContactFromRow rt (JObj row)
  = Normal (JObj
      [("organizationName", or_empty (lookupProp "organizationName" row));
       ("address", or_empty (lookupProp "address" row));
       ("email", or_empty (lookupProp "email" row));
       ("phone", or_empty (lookupProp "phone" row));
       ("siteLogo", or_empty (lookupProp "logo_url" row));
       ("faviconUrl", or_empty (lookupProp "favicon_url" row));
       ("socials", safeJsonParse rt (lookupProp "socials" row) (JObj []))]).
Proof.
  unfold formatContactFromRow. js_eval. reflexivity.
Qed.

End MapperShapes.

(** ** Round trips through the mappers *)

Lemma nullish_or_self (a : JsVal) : nullish_or a a = a.
Proof. unfold nullish_or. now destruct (is_nullish a). Qed.

Lemma settled_0 (e : JsVal) :
  is_undefined e = false -> nullish_or e JNull = e.
Proof. now destruct e. Qed.

Lemma settled_1 (e : JsVal) :
  is_undefined e = false -> nullish_or (nullish_or e JUndefined) JNull = e.
Proof. now destruct e. Qed.

Lemma settled_2 (e : JsVal) :
  is_undefined e = false ->
  nullish_or (nullish_or (nullish_or e JUndefined) JUndefined) JNull = e.
Proof. now destruct e. Qed.

(** Decide the comparisons of key literals, then the lookups they guard. *)
Ltac eqb_eval :=
  repeat match goal with
         | |- context [String.eqb ?a ?b] =>
             let r := eval vm_compute in (String.eqb a b) in
             progress change (String.eqb a b) with r
         end;
  cbv iota.

Ltac lookup_eval :=
  repeat (first [rewrite lookupProp_setIfDefined | rewrite lookupProp_setProp];
          eqb_eval);
  repeat (progress (cbn [lookupProp]; eqb_eval));
  rewrite ?undefined_or_self.

Lemma article_roundtrip (row : Props) :
  roundtrip dbArticleToApi apiArticleToDb (JObj row) = dbArticleToApi (JObj row).
Proof.
  unfold roundtrip. rewrite dbArticleToApi_obj.
  rewrite resolve_2, resolve_3.
  set (ef := nullish_or (nullish_or _ _) JNull).
  set (cv := nullish_or (nullish_or (nullish_or _ _) _) JNull).
  assert (Hef : is_undefined ef = false) by apply nullish_or_defined.
  assert (Hcv : is_undefined cv = false) by apply nullish_or_defined.
  clearbody ef cv.
  simpl. unfold apiArticleToDb. js_eval.
  rewrite dbArticleToApi_obj, resolve_2, resolve_3. lookup_eval.
  rewrite nullish_or_self, (settled_2 cv Hcv), (settled_1 ef Hef).
  reflexivity.
Qed.

Lemma partner_roundtrip (row : Props) :
  roundtrip dbPartnerToApi apiPartnerToDb (JObj row) = dbPartnerToApi (JObj row).
Proof.
  unfold roundtrip. rewrite dbPartnerToApi_obj.
  rewrite resolve_2, resolve_1.
  set (logo := nullish_or (nullish_or _ _) JNull).
  set (link := nullish_or _ JNull).
  assert (Hlogo : is_undefined logo = false) by apply nullish_or_defined.
  assert (Hlink : is_undefined link = false) by apply nullish_or_defined.
  clearbody logo link.
  simpl. unfold apiPartnerToDb. js_eval.
  rewrite dbPartnerToApi_obj, resolve_2, resolve_1. lookup_eval.
  rewrite (settled_1 logo Hlogo), (settled_0 link Hlink).
  reflexivity.
Qed.

Lemma structure_roundtrip (row : Props) :
  roundtrip dbStructureToApi apiStructureToDb (JObj row)
  = dbStructureToApi (JObj row).
Proof.
  unfold roundtrip. rewrite dbStructureToApi_obj.
  rewrite resolve_2.
  set (photo := nullish_or (nullish_or _ _) JNull).
  assert (Hphoto : is_undefined photo = false) by apply nullish_or_defined.
  clearbody photo.
  simpl. unfold apiStructureToDb. js_eval.
  rewrite dbStructureToApi_obj, resolve_2. lookup_eval.
  rewrite (settled_1 photo Hphoto).
  reflexivity.
Qed.

(** What the user round trip gives back: the row's API shape with the
    identifier gone and the verified flag forced to 0 or 1. *)
Lemma user_roundtrip (rt : Runtime) (row : Props) :
  roundtrip (dbUserToApi rt) (apiUserToDb rt) (JObj row)
  = Normal (JObj
      [("id", JUndefined);
       ("name", lookupProp "name" row);
       ("email", lookupProp "email" row);
       ("password", lookupProp "password" row);
       ("role", lookupProp "role" row);
       ("avatarUrl", resolve row ["avatar_url"; "avatarUrl"] JNull);
       ("isVerified",
          JNum (if truthy (JNum (ToNumber rt
                     (resolve row ["is_verified"; "isVerified"] (JNum num_zero))))
                then num_one else num_zero));
       ("phoneNumber", resolve row ["phone_number"; "phoneNumber"] JNull);
       ("mediaName", resolve row ["media_name"; "mediaName"] JNull);
       ("position", resolve row ["position"] JNull);
       ("ukwCertification",
          resolve row ["ukw_certification"; "ukwCertification"] JNull)]).
Proof.
  unfold roundtrip. rewrite dbUserToApi_obj.
  rewrite !resolve_2, resolve_1.
  set (n := ToNumber rt _).
  set (avatar := nullish_or (nullish_or (lookupProp "avatar_url" row) _) JNull).
  set (phone := nullish_or (nullish_or (lookupProp "phone_number" row) _) JNull).
  set (media := nullish_or (nullish_or (lookupProp "media_name" row) _) JNull).
  set (pos := nullish_or (lookupProp "position" row) JNull).
  set (ukw := nullish_or (nullish_or (lookupProp "ukw_certification" row) _) JNull).
  assert (Ha : is_undefined avatar = false) by apply nullish_or_defined.
  assert (Hp : is_undefined phone = false) by apply nullish_or_defined.
  assert (Hm : is_undefined media = false) by apply nullish_or_defined.
  assert (Ho : is_undefined pos = false) by apply nullish_or_defined.
  assert (Hu : is_undefined ukw = false) by apply nullish_or_defined.
  clearbody n avatar phone media pos ukw.
  simpl. unfold apiUserToDb, Number_. js_eval.
  rewrite dbUserToApi_obj, !resolve_2, resolve_1. lookup_eval.
  rewrite (settled_1 avatar Ha), (settled_1 phone Hp), (settled_1 media Hm),
    (settled_0 pos Ho), (settled_1 ukw Hu).
  reflexivity.
Qed.

(** C3, as stated, fails for the user mappers: a row that carries an
    identifier comes back without it ([apiUserToDb] never reads [id]). *)
Lemma user_roundtrip_drops_id :
  (forall rt, field "id" (dbUserToApi rt (JObj [("id", JNum num_one)]))
              = Normal (JNum num_one))
  /\ (forall rt, field "id" (roundtrip (dbUserToApi rt) (apiUserToDb rt)
                               (JObj [("id", JNum num_one)]))
                 = Normal JUndefined)
  /\ ~ (exists rt, roundtrip (dbUserToApi rt) (apiUserToDb rt)
                     (JObj [("id", JNum num_one)])
                   = dbUserToApi rt (JObj [("id", JNum num_one)])).
Proof.
  split; [|split].
  - intros rt. reflexivity.
  - intros rt. reflexivity.
  - intros [rt H]. discriminate H.
Qed.

(** C3 (amended): for every row object, [toApi(toDb(toApi(row)))] equals
    [toApi(row)] for the article, partner and structure mappers; for the user
    mappers it equals [toApi(row)] with [id] reset to [undefined] and
    [isVerified] replaced by 1 when it is truthy and by 0 otherwise, so the
    round trip is the identity on the API shape of a user row that has no
    [id] and whose verified flag reads as exactly 0 or 1. *)
Theorem mappers_roundtrip (rt : Runtime) (row : Props) :
  roundtrip dbArticleToApi apiArticleToDb (JObj row) = dbArticleToApi (JObj row)
  /\ roundtrip dbPartnerToApi apiPartnerToDb (JObj row) = dbPartnerToApi (JObj row)
  /\ roundtrip dbStructureToApi apiStructureToDb (JObj row)
     = dbStructureToApi (JObj row)
  /\ (exists api,
        dbUserToApi rt (JObj row) = Normal (JObj api)
        /\ roundtrip (dbUserToApi rt) (apiUserToDb rt) (JObj row)
           = Normal (JObj
               (setProp "isVerified"
                  (JNum (if truthy (lookupProp "isVerified" api)
                         then num_one else num_zero))
                  (setProp "id" JUndefined api))))
  /\ (lookupProp "id" row = JUndefined ->
      (let n := ToNumber rt (resolve row ["is_verified"; "isVerified"]
                               (JNum num_zero)) in
       n = num_zero \/ n = num_one) ->
      roundtrip (dbUserToApi rt) (apiUserToDb rt) (JObj row)
      = dbUserToApi rt (JObj row)).
Proof.
  split; [apply article_roundtrip|].
  split; [apply partner_roundtrip|].
  split; [apply structure_roundtrip|].
  split.
  - eexists. split; [apply dbUserToApi_obj|].
    rewrite user_roundtrip. reflexivity.
  - intros Hid Hn. rewrite user_roundtrip, dbUserToApi_obj, Hid.
    cbv zeta in Hn. destruct Hn as [-> | ->]; reflexivity.
Qed.

(** A user row without identifier whose flag is stored as 1 comes back as
    it was read. *)
Lemma mappers_roundtrip_witness :
  roundtrip (dbUserToApi bare_host) (apiUserToDb bare_host)
            (JObj [("name", JStr "Admin PWMOI"); ("is_verified", JNum num_one)])
  = dbUserToApi bare_host
                (JObj [("name", JStr "Admin PWMOI"); ("is_verified", JNum num_one)]).
Proof.
  apply (proj2 (proj2 (proj2 (proj2
           (mappers_roundtrip bare_host [("name", JStr "Admin PWMOI");
                                         ("is_verified", JNum num_one)]))))).
  - reflexivity.
  - right. reflexivity.
Defined.

(** ** Keys of the persisted objects *)

Lemma nullish_or_present (a b : JsVal) :
  is_undefined (nullish_or a b) = false ->
  is_undefined a = false \/ is_undefined b = false.
Proof. destruct a; simpl; auto. Qed.

Ltac key_prep E H :=
  apply String.eqb_eq in E; subst; simpl in H |- *;
  rewrite ?orb_false_r, ?orb_true_iff, ?negb_true_iff.

Ltac key_split H :=
  repeat (first [destruct H as [[? ?]|H] | destruct H as [?|H]]);
  try discriminate; try assumption.

Ltac key_case E H := key_prep E H; solve [key_split H].

Ltac key_case2 E H :=
  key_prep E H; apply nullish_or_present; solve [key_split H].

Lemma apiArticleToDb_keys (payload : Props) :
  exists dbObj,
    apiArticleToDb (JObj payload) = Normal (JObj dbObj)
    /\ forall k, has_key k dbObj = true ->
                 some_present payload (article_sources k) = true.
Proof.
  eexists. split.
  - unfold apiArticleToDb. js_eval. reflexivity.
  - intros k. rewrite !has_key_setIfDefined. simpl has_key.
    unfold article_sources, some_present.
    rewrite !orb_true_iff, !andb_true_iff, !negb_true_iff.
    intros H.
    destruct (String.eqb k "title") eqn:E1; [key_case E1 H|].
    destruct (String.eqb k "content") eqn:E2; [key_case E2 H|].
    destruct (String.eqb k "snippet") eqn:E3; [key_case E3 H|].
    destruct (String.eqb k "status") eqn:E4; [key_case E4 H|].
    destruct (String.eqb k "authorId") eqn:E5; [key_case E5 H|].
    destruct (String.eqb k "editor_feedback") eqn:E6; [key_case E6 H|].
    destruct (String.eqb k "cover_image_url") eqn:E7.
    { key_case2 E7 H. }
    destruct (String.eqb k "id") eqn:E8; [key_case E8 H|].
    key_split H.
Qed.

Lemma apiUserToDb_keys (rt : Runtime) (payload : Props) :
  exists dbObj,
    apiUserToDb rt (JObj payload) = Normal (JObj dbObj)
    /\ forall k, has_key k dbObj = true ->
                 some_present payload (user_sources k) = true.
Proof.
  assert (Hrun : apiUserToDb rt (JObj payload)
          = Normal (JObj
              (setIfDefined "ukw_certification" (lookupProp "ukwCertification" payload)
              (setIfDefined "position" (lookupProp "position" payload)
              (setIfDefined "media_name" (lookupProp "mediaName" payload)
              (setIfDefined "phone_number" (lookupProp "phoneNumber" payload)
              ((if is_undefined (lookupProp "isVerified" payload)
                then fun o => o
                else setProp "is_verified"
                       (JNum (if truthy (lookupProp "isVerified" payload)
                              then num_one else num_zero)))
              (setIfDefined "avatar_url"
                 (nullish_or (lookupProp "formalPhotoUrl" payload)
                             (lookupProp "avatarUrl" payload))
              (setIfDefined "role" (lookupProp "role" payload)
              (setIfDefined "password" (lookupProp "password" payload)
              (setIfDefined "email" (lookupProp "email" payload)
              (setIfDefined "name" (lookupProp "name" payload) [])))))))))))).
  { unfold apiUserToDb, Number_. js_eval.
    destruct (is_undefined (lookupProp "isVerified" payload)); reflexivity. }
  eexists. split; [exact Hrun|].
  intros k.
    destruct (is_undefined (lookupProp "isVerified" payload)) eqn:Ev;
      repeat first [rewrite has_key_setIfDefined | rewrite has_key_setProp];
      simpl has_key;
      unfold user_sources, some_present;
      rewrite !orb_true_iff, !andb_true_iff, !negb_true_iff;
      intros H;
      (destruct (String.eqb k "name") eqn:E1; [key_case E1 H|
       destruct (String.eqb k "email") eqn:E2; [key_case E2 H|
       destruct (String.eqb k "password") eqn:E3; [key_case E3 H|
       destruct (String.eqb k "role") eqn:E4; [key_case E4 H|
       destruct (String.eqb k "avatar_url") eqn:E5; [key_case2 E5 H|
       destruct (String.eqb k "is_verified") eqn:E6; [key_case E6 H|
       destruct (String.eqb k "phone_number") eqn:E7; [key_case E7 H|
       destruct (String.eqb k "media_name") eqn:E8; [key_case E8 H|
       destruct (String.eqb k "position") eqn:E9; [key_case E9 H|
       destruct (String.eqb k "ukw_certification") eqn:E10; [key_case E10 H|
       key_split H]]]]]]]]]]).
Qed.

Lemma apiPartnerToDb_always_keys (item : Props) :
  exists dbObj,
    apiPartnerToDb (JObj item) = Normal (JObj dbObj)
    /\ has_key "name" dbObj = true
    /\ has_key "logo_url" dbObj = true
    /\ has_key "link" dbObj = true.
Proof.
  eexists. split.
  - unfold apiPartnerToDb. js_eval. reflexivity.
  - rewrite !has_key_setIfDefined. simpl. rewrite ?orb_true_r. auto.
Qed.

Lemma apiStructureToDb_always_keys (item : Props) :
  exists dbObj,
    apiStructureToDb (JObj item) = Normal (JObj dbObj)
    /\ has_key "name" dbObj = true
    /\ has_key "position" dbObj = true
    /\ has_key "photo_url" dbObj = true.
Proof.
  eexists. split.
  - unfold apiStructureToDb. js_eval. reflexivity.
  - rewrite !has_key_setIfDefined. simpl. rewrite ?orb_true_r. auto.
Qed.

(** C4, at the failing input: a partner payload that carries only [link]
    (the body of a partial update) is mapped to an object that has the keys
    [name] and [logo_url] as well, both [undefined]; a structure item that
    carries only [name] is mapped to an object that has [position] and
    [photo_url] too.  The claim asks for no key there. *)
Theorem partner_structure_emit_absent_fields :
  apiPartnerToDb (JObj [("link", JStr "https://banyuwangikab.go.id")])
  = Normal (JObj [("name", JUndefined); ("logo_url", JUndefined);
                  ("link", JStr "https://banyuwangikab.go.id")])
  /\ has_key "name" [("link", JStr "https://banyuwangikab.go.id")] = false
  /\ apiStructureToDb (JObj [("name", JStr "Pak Wawan")])
     = Normal (JObj [("name", JStr "Pak Wawan"); ("position", JUndefined);
                     ("photo_url", JUndefined)])
  /\ has_key "position" [("name", JStr "Pak Wawan")] = false.
Proof. repeat split; reflexivity. Qed.

(** ** Rows read into the API shape *)

(** C5: for every row object, whatever fields it lacks, the row mappers
    return normally, and each attribute that has aliases is the first
    non-missing value among the current column and then its legacy aliases
    in their fixed order, else the default of the field: the article cover
    resolves [cover_image_url], then [coverImageUrl], then [imageUrl], else
    [null]. *)
Theorem mapRowToApi_resolves (rt : Runtime) (row : Props) :
  dbArticleToApi (JObj row)
  = Normal (JObj
      [("id", lookupProp "id" row);
       ("title", lookupProp "title" row);
       ("content", lookupProp "content" row);
       ("snippet", lookupProp "snippet" row);
       ("status", lookupProp "status" row);
       ("authorId", lookupProp "authorId" row);
       ("editorFeedback", resolve row ["editor_feedback"; "editorFeedback"] JNull);
       ("coverImageUrl",
          resolve row ["cover_image_url"; "coverImageUrl"; "imageUrl"] JNull);
       ("imageUrl",
          resolve row ["cover_image_url"; "coverImageUrl"; "imageUrl"] JNull)])
  /\ dbUserToApi rt (JObj row)
     = Normal (JObj
         [("id", lookupProp "id" row);
          ("name", lookupProp "name" row);
          ("email", lookupProp "email" row);
          ("password", lookupProp "password" row);
          ("role", lookupProp "role" row);
          ("avatarUrl", resolve row ["avatar_url"; "avatarUrl"] JNull);
          ("isVerified",
             JNum (ToNumber rt
                     (resolve row ["is_verified"; "isVerified"] (JNum num_zero))));
          ("phoneNumber", resolve row ["phone_number"; "phoneNumber"] JNull);
          ("mediaName", resolve row ["media_name"; "mediaName"] JNull);
          ("position", resolve row ["position"] JNull);
          ("ukwCertification",
             resolve row ["ukw_certification"; "ukwCertification"] JNull)])
  /\ dbPartnerToApi (JObj row)
     = Normal (JObj
         [("id", lookupProp "id" row);
          ("name", lookupProp "name" row);
          ("logoUrl", resolve row ["logo_url"; "logoUrl"] JNull);
          ("link", resolve row ["link"] JNull)])
  /\ dbStructureToApi (JObj row)
     = Normal (JObj
         [("id", lookupProp "id" row);
          ("name", lookupProp "name" row);
          ("position", lookupProp "position" row);
          ("photoUrl", resolve row ["photo_url"; "photoUrl"] JNull)]).
Proof.
  split; [apply dbArticleToApi_obj|].
  split; [apply dbUserToApi_obj|].
  split; [apply dbPartnerToApi_obj | apply dbStructureToApi_obj].
Qed.

Example article_cover_from_legacy :
  field "coverImageUrl"
    (dbArticleToApi (JObj [("id", JNum num_one); ("cover_image_url", JNull);
                           ("imageUrl", JStr "https://picsum.photos/seed/news1/1200/630")]))
  = Normal (JStr "https://picsum.photos/seed/news1/1200/630").
Proof. reflexivity. Qed.

Example article_cover_default :
  field "coverImageUrl" (dbArticleToApi (JObj [("title", JStr "Workshop")]))
  = Normal JNull.
Proof. reflexivity. Qed.

(** C6, as stated, fails: a verified flag stored as the number 2 is emitted
    as 2. *)
Lemma isVerified_stored_two :
  (forall rt, field "isVerified"
                (dbUserToApi rt (JObj [("is_verified", JNum num_two)]))
              = Normal (JNum num_two))
  /\ is_bit num_two = false.
Proof. split; [intros rt|]; reflexivity. Qed.


(** C6 (amended): for every user row, [isVerified] is [Number(v)] for the
    first non-missing [v] among [is_verified], [isVerified] and the literal
    0; it is exactly 0 or 1 when the flag is missing under both names or is
    stored as a boolean or as the number 0 or 1. *)
Theorem isVerified_is_number_of_stored (rt : Runtime) (row : Props) :
  let stored := resolve row ["is_verified"; "isVerified"] (JNum num_zero) in
  field "isVerified" (dbUserToApi rt (JObj row))
  = Normal (JNum (ToNumber rt stored))
  /\ (stored_as_bit stored = true -> is_bit (ToNumber rt stored) = true)
  /\ (is_nullish (lookupProp "is_verified" row) = true ->
      is_nullish (lookupProp "isVerified" row) = true ->
      ToNumber rt stored = num_zero).
Proof.
  intros stored. split; [|split].
  - rewrite dbUserToApi_obj. reflexivity.
  - destruct stored as [| |[|]|n|s|l|o]; simpl; try discriminate; auto.
  - intros H1 H2. subst stored. simpl. rewrite H1, H2. reflexivity.
Qed.

(** The flag of the seeded administrator, stored as 1, reads as 1. *)
Lemma isVerified_is_number_of_stored_witness :
  is_bit (ToNumber bare_host
            (resolve [("id", JNum num_one); ("is_verified", JNum num_one)]
                     ["is_verified"; "isVerified"] (JNum num_zero))) = true.
Proof.
  apply (proj1 (proj2 (isVerified_is_number_of_stored bare_host
                  [("id", JNum num_one); ("is_verified", JNum num_one)]))).
  reflexivity.
Defined.

(** C10: each row mapper (users, partners, structure, articles, contact)
    applied to [null] or to a missing row ([undefined]) returns exactly
    [null]: no object, no exception. *)
Theorem mappers_null_row (rt : Runtime) (row : JsVal) :
  is_nullish row = true ->
  dbUserToApi rt row = Normal JNull
  /\ dbPartnerToApi row = Normal JNull
  /\ dbStructureToApi row = Normal JNull
  /\ dbArticleToApi row = Normal JNull
  /\ formatContactFromRow rt row = Normal JNull.
Proof.
  destruct row; simpl; try discriminate; intros _; repeat split; reflexivity.
Qed.

Lemma mappers_null_row_witness :
  dbUserToApi bare_host JUndefined = Normal JNull
  /\ dbPartnerToApi JUndefined = Normal JNull
  /\ dbStructureToApi JUndefined = Normal JNull
  /\ dbArticleToApi JUndefined = Normal JNull
  /\ formatContactFromRow bare_host JUndefined = Normal JNull.
Proof. apply (mappers_null_row bare_host JUndefined). reflexivity. Defined.

(** ** The aggregate fetch *)

Section AllDataFacts.
Context (rt : Runtime) (pool : string -> Completion RowSet).

Lemma safeQuery_safe_rows (q : string) :
  safeQuery pool q = Normal (safe_rows pool q).
Proof. unfold safeQuery, safe_rows. now destruct (pool q). Qed.

Lemma fetchAll_safe_rows (qs : list string) :
  fetchAll pool qs = Normal (List.map (safe_rows pool) qs).
Proof.
  unfold fetchAll. induction qs as [|q qs IH]; simpl.
  - reflexivity.
  - rewrite safeQuery_safe_rows, IH. reflexivity.
Qed.

Lemma map_rows_total (f : JsVal -> Completion JsVal) (g : Props -> JsVal)
      (rows : RowSet) :
  (forall r, f (JObj r) = Normal (g r)) ->
  map_rows f rows = Normal (List.map g rows).
Proof.
  intros Hf. induction rows as [|r rows IH]; simpl.
  - reflexivity.
  - rewrite Hf, IH. reflexivity.
Qed.

Lemma missionOf_total (row : Props) :
  exists m, missionOf rt (JObj row) = Normal m.
Proof.
  unfold missionOf, JSON_parse_val. simpl.
  destruct (typeof_string (lookupProp "mission" row)).
  - destruct (JSON_parse rt _); simpl; eauto.
  - rewrite or_else_Normal. simpl. eauto.
Qed.

Lemma formatProfile_row (row : Props) (rest : RowSet) :
  exists m,
    missionOf rt (JObj row) = Normal m
    /\ formatProfile rt (row :: rest)
       = Normal (JObj
           [("about", or_empty (lookupProp "about" row));
            ("vision", or_empty (lookupProp "vision" row));
            ("mission", m);
            ("purpose", or_empty (lookupProp "purpose" row));
            ("legality",
               JObj [("text", or_empty (lookupProp "legality_text" row));
                     ("sk", or_empty (lookupProp "legality_sk" row))]);
            ("adArt", or_empty (lookupProp "ad_art" row))]).
Proof.
  destruct (missionOf_total row) as [m Hm]. exists m. split; [exact Hm|].
  unfold formatProfile. rewrite Hm. js_eval. reflexivity.
Qed.

Lemma formatProfile_total (rows : RowSet) :
  exists p, formatProfile rt rows = Normal p.
Proof.
  destruct rows as [|row rest].
  - simpl. eauto.
  - destruct (formatProfile_row row rest) as [m [_ H]]. eauto.
Qed.

Lemma formatContact_total (rows : RowSet) :
  exists c, formatContact rt rows = Normal c.
Proof.
  destruct rows as [|row rest]; simpl.
  - eauto.
  - rewrite formatContactFromRow_obj. eauto.
Qed.

(** The handler always answers 200, with the profile and the contact
    formatted from the third and fourth row-sets. *)
Lemma allData_shape :
  exists users articles profile contact structure partners legal,
    formatProfile rt (safe_rows pool "SELECT * FROM site_profile LIMIT 1")
    = Normal profile
    /\ formatContact rt (safe_rows pool "SELECT * FROM contact_info LIMIT 1")
       = Normal contact
    /\ allData rt pool
       = {| status := 200;
            body := JObj
              [("users", JArr users);
               ("articles", JArr articles);
               ("profileContent", profile);
               ("contactInfo", contact);
               ("programs", rows_json (safe_rows pool "SELECT * FROM programs"));
               ("structure", JArr structure);
               ("announcements",
                  rows_json (safe_rows pool "SELECT * FROM announcements"));
               ("galleryImages", rows_json (safe_rows pool "SELECT * FROM gallery"));
               ("comments", rows_json (safe_rows pool "SELECT * FROM comments"));
               ("notifications",
                  rows_json (safe_rows pool "SELECT * FROM notifications"));
               ("inspirationNotes",
                  rows_json (safe_rows pool "SELECT * FROM inspiration_notes"));
               ("partners", JArr partners);
               ("legalContent", JObj legal)] |}.
Proof.
  destruct (formatProfile_total
              (safe_rows pool "SELECT * FROM site_profile LIMIT 1")) as [p Hp].
  destruct (formatContact_total
              (safe_rows pool "SELECT * FROM contact_info LIMIT 1")) as [c Hc].
  eexists _, _, p, c, _, _, _. split; [exact Hp|]. split; [exact Hc|].
  unfold allData, allDataBody. rewrite fetchAll_safe_rows.
  unfold allDataQueries. cbn [List.map cbind].
  rewrite Hp, Hc. cbn [cbind].
  rewrite (map_rows_total _ _ _ (dbUserToApi_obj rt)). cbn [cbind].
  rewrite (map_rows_total _ _ _ dbPartnerToApi_obj). cbn [cbind].
  rewrite (map_rows_total _ _ _ dbStructureToApi_obj). cbn [cbind].
  rewrite (map_rows_total _ _ _ dbArticleToApi_obj). cbn [cbind].
  reflexivity.
Qed.

End AllDataFacts.

Lemma lookup_map {A B} (f : A -> B) (l : list A) (i : nat) :
  List.map f l !! i = f <$> (l !! i).
Proof.
  revert i. induction l as [|a l IH]; intros [|i]; simpl; auto.
Qed.

(** C7: when exactly one of the N queries fails, the batch resolves (no
    error reaches the caller) to N row-sets in the order of the queries: the
    empty row-set at the failing position and, at each other position, the
    rows its query returned. *)
Theorem fetchAll_one_failure (pool : string -> Completion RowSet)
        (qs : list string) (i : nat) (q : string) (e : JsError) :
  qs !! i = Some q ->
  pool q = Throw e ->
  (forall j q', j <> i -> qs !! j = Some q' -> exists rows, pool q' = Normal rows) ->
  exists results : list RowSet,
    fetchAll pool qs = Normal results
    /\ length results = length qs
    /\ results !! i = Some []
    /\ forall j q', j <> i -> qs !! j = Some q' ->
         exists rows, pool q' = Normal rows /\ results !! j = Some rows.
Proof.
  intros Hi He Hothers.
  exists (List.map (safe_rows pool) qs).
  split; [apply fetchAll_safe_rows|].
  split; [apply length_map|].
  split.
  - rewrite lookup_map, Hi. simpl. unfold safe_rows. now rewrite He.
  - intros j q' Hj Hq'. destruct (Hothers j q' Hj Hq') as [rows Hrows].
    exists rows. split; [exact Hrows|].
    rewrite lookup_map, Hq'. simpl. unfold safe_rows. now rewrite Hrows.
Qed.

(** The thirteen reads of the handler against a store without the
    [partners] table. *)
Lemma fetchAll_one_failure_witness :
  exists results : list RowSet,
    fetchAll sample_pool allDataQueries = Normal results
    /\ length results = length allDataQueries
    /\ results !! 11%nat = Some []
    /\ forall j q', j <> 11%nat -> allDataQueries !! j = Some q' ->
         exists rows, sample_pool q' = Normal rows /\ results !! j = Some rows.
Proof.
  apply (fetchAll_one_failure sample_pool allDataQueries 11
           "SELECT * FROM partners" (QueryError "ER_NO_SUCH_TABLE")).
  - reflexivity.
  - reflexivity.
  - intros j q' Hj Hq'.
    do 13 (destruct j as [|j];
           [first [congruence | injection Hq' as <-; eexists; reflexivity]|]).
    discriminate Hq'.
Defined.

(** What [safeJsonParse(value, fallback)] returns, case by case. *)
Lemma safeJsonParse_cases (rt : Runtime) (value fallback : JsVal) :
  safeJsonParse rt value fallback
  = match value with
    | JUndefined | JNull => fallback
    | JObj props => JObj props
    | JArr elems => JArr elems
    | v => match JSON_parse rt (ToString rt v) with
           | Some j => j
           | None => fallback
           end
    end.
Proof.
  unfold safeJsonParse, JSON_parse_val.
  destruct value as [| |b|n|s|l|p]; simpl; try reflexivity;
    now destruct (JSON_parse rt _).
Qed.

(** C8: when the read of the contact table resolves to no row, the
    aggregate response carries [contactInfo: null]; when it resolves to a
    row, [contactInfo] is the projection of the first row with all of its
    seven fields: each text field is the column when it is truthy and the
    empty string otherwise, and [socials] is the empty object when the
    column is [null] or absent or holds text that does not parse, the
    column itself when the driver hands an object or an array, and else
    what its text parses to. *)
Theorem contactInfo_null_or_projection (rt : Runtime)
        (pool : string -> Completion RowSet) :
  status (allData rt pool) = 200%Z
  /\ (pool "SELECT * FROM contact_info LIMIT 1" = Normal [] ->
      body_field "contactInfo" (allData rt pool) = Normal JNull)
  /\ (forall row rest,
        pool "SELECT * FROM contact_info LIMIT 1" = Normal (row :: rest) ->
        let text col :=
          if truthy (lookupProp col row) then lookupProp col row else JStr "" in
        body_field "contactInfo" (allData rt pool)
        = Normal (JObj
            [("organizationName", text "organizationName");
             ("address", text "address");
             ("email", text "email");
             ("phone", text "phone");
             ("siteLogo", text "logo_url");
             ("faviconUrl", text "favicon_url");
             ("socials",
                match lookupProp "socials" row with
                | JUndefined | JNull => JObj []
                | JObj props => JObj props
                | JArr elems => JArr elems
                | v => match JSON_parse rt (ToString rt v) with
                       | Some j => j
                       | None => JObj []
                       end
                end)])).
Proof.
  destruct (allData_shape rt pool)
    as (us & ar & p & c & st & pa & le & Hp & Hc & Hall).
  rewrite Hall. unfold body_field. simpl.
  split; [reflexivity|]. unfold safe_rows in Hc. split.
  - intros H. rewrite H in Hc. simpl in Hc. congruence.
  - intros row rest H. rewrite H in Hc. simpl in Hc.
    rewrite formatContactFromRow_obj, safeJsonParse_cases in Hc.
    injection Hc as <-.
    destruct (lookupProp "socials" row); reflexivity.
Qed.

(** Without a contact row the field is [null]; with the row of
    [contact_pool] it is the projection, the missing phone number as the
    empty string and the stored socials as they are. *)
Lemma contactInfo_null_or_projection_witness :
  body_field "contactInfo" (allData bare_host sample_pool) = Normal JNull
  /\ body_field "contactInfo" (allData bare_host contact_pool)
     = Normal (JObj
         [("organizationName", JStr "PWMOI Banyuwangi");
          ("address", JStr "");
          ("email", JStr "redaksi@pwmoi.test");
          ("phone", JStr "");
          ("siteLogo", JStr "");
          ("faviconUrl", JStr "");
          ("socials", JObj [("facebook", JStr "https://facebook.com/pwmoi")])]).
Proof.
  split.
  - apply (proj1 (proj2 (contactInfo_null_or_projection bare_host sample_pool))).
    reflexivity.
  - apply (proj2 (proj2 (contactInfo_null_or_projection bare_host contact_pool))
             [("id", JNum num_one);
              ("organizationName", JStr "PWMOI Banyuwangi");
              ("email", JStr "redaksi@pwmoi.test");
              ("phone", JNull);
              ("socials", JObj [("facebook", JStr "https://facebook.com/pwmoi")])]
             []).
    reflexivity.
Defined.

(** C9: for every site-profile row whose [mission] is a string that is not
    valid JSON, or is absent ([undefined] or [null]), the aggregate response
    is a 200 whose [profileContent.mission] is the empty list. *)
Theorem mission_defaults_to_empty (rt : Runtime)
        (pool : string -> Completion RowSet) (row : Props) (rest : RowSet) :
  pool "SELECT * FROM site_profile LIMIT 1" = Normal (row :: rest) ->
  (exists s, lookupProp "mission" row = JStr s /\ JSON_parse rt s = None)
  \/ is_nullish (lookupProp "mission" row) = true ->
  status (allData rt pool) = 200%Z
  /\ field "mission" (body_field "profileContent" (allData rt pool))
     = Normal (JArr []).
Proof.
  intros Hrows Hmission.
  destruct (allData_shape rt pool)
    as (us & ar & p & c & st & pa & le & Hp & Hc & Hall).
  rewrite Hall. unfold body_field. simpl. split; [reflexivity|].
  unfold safe_rows in Hp. rewrite Hrows in Hp.
  destruct (formatProfile_row rt row rest) as [m [Hm Hfmt]].
  rewrite Hfmt in Hp. injection Hp as <-. simpl.
  f_equal. 
  unfold missionOf, JSON_parse_val in Hm. simpl in Hm.
  destruct Hmission as [[s [Hs Hparse]] | Hnull].
  - rewrite Hs in Hm. simpl in Hm. rewrite Hparse in Hm. simpl in Hm. congruence.
  - destruct (lookupProp "mission" row); try discriminate Hnull;
      simpl in Hm; congruence.
Qed.

(** The profile whose mission holds the text [not-json]. *)
Lemma mission_defaults_to_empty_witness :
  status (allData bare_host sample_pool) = 200%Z
  /\ field "mission" (body_field "profileContent" (allData bare_host sample_pool))
     = Normal (JArr []).
Proof.
  apply (mission_defaults_to_empty bare_host sample_pool
           [("id", JNum num_one); ("about", JStr "PWMOI");
            ("mission", JStr "not-json")] []).
  - reflexivity.
  - left. exists "not-json". split; reflexivity.
Defined.

(** ** The column store *)

Lemma show_columns_has_col (p : string) (cols : list Column) :
  Nat.ltb 0 (length (List.filter (fun c => String.eqb (col_name c) p) cols))
  = has_col p cols.
Proof.
  unfold has_col. induction cols as [|c cols IH]; simpl; [reflexivity|].
  destruct (String.eqb (col_name c) p); simpl; [reflexivity | exact IH].
Qed.

Lemma has_col_rename (c o n def : string) (cols : list Column) :
  has_col c (rename_col o n def cols)
  = (String.eqb n c && has_col o cols)
    || existsb (fun x => negb (String.eqb (col_name x) o)
                         && String.eqb (col_name x) c) cols.
Proof.
  unfold has_col, rename_col. induction cols as [|x cols IH]; simpl.
  - now rewrite andb_false_r.
  - rewrite IH. destruct (String.eqb (col_name x) o) eqn:Exo; simpl.
    + destruct (String.eqb n c); simpl; [reflexivity|]. reflexivity.
    + destruct (String.eqb (col_name x) c); simpl.
      * now rewrite orb_true_r.
      * reflexivity.
Qed.

Lemma has_col_rename_new (o n def : string) (cols : list Column) :
  has_col o cols = true -> has_col n (rename_col o n def cols) = true.
Proof.
  intros H. rewrite has_col_rename, H, String.eqb_refl. reflexivity.
Qed.

Lemma has_col_rename_other (c o n def : string) (cols : list Column) :
  c <> o -> has_col c cols = true -> has_col c (rename_col o n def cols) = true.
Proof.
  intros Hne H. rewrite has_col_rename. apply orb_true_iff. right.
  unfold has_col in H. apply existsb_exists in H as [x [Hin Hx]].
  apply existsb_exists. exists x. split; [exact Hin|].
  rewrite Hx, andb_true_r. apply negb_true_iff.
  apply String.eqb_neq. apply String.eqb_eq in Hx. congruence.
Qed.

Lemma has_col_add (c n def : string) (cols : list Column) :
  has_col c (add_col n def cols) = has_col c cols || String.eqb n c.
Proof.
  unfold has_col, add_col. rewrite existsb_app. simpl. now rewrite orb_false_r.
Qed.

(** After its directive, the current column is there. *)
Lemma reconcile_cols_new (o n def : string) (cols : list Column) :
  has_col n (reconcile_cols o n def cols) = true.
Proof.
  unfold reconcile_cols.
  destruct (has_col o cols) eqn:Ho, (has_col n cols) eqn:Hn,
           (String.eqb o n) eqn:Eon; simpl; try assumption.
  - apply String.eqb_eq in Eon. congruence.
  - now apply has_col_rename_new.
  - rewrite has_col_add, String.eqb_refl. apply orb_true_r.
  - rewrite has_col_add, String.eqb_refl. apply orb_true_r.
Qed.

(** A directive removes no column but the legacy one it renames. *)
Lemma reconcile_cols_keeps (c o n def : string) (cols : list Column) :
  (c = o -> o = n) ->
  has_col c cols = true -> has_col c (reconcile_cols o n def cols) = true.
Proof.
  intros Hc H. unfold reconcile_cols.
  destruct (has_col o cols && negb (has_col n cols) && negb (String.eqb o n))
    eqn:Hren.
  - apply andb_true_iff in Hren as [_ Hne]. apply negb_true_iff in Hne.
    apply String.eqb_neq in Hne.
    apply has_col_rename_other; [|exact H]. intros ->. auto.
  - destruct (negb (has_col o cols) && negb (has_col n cols)).
    + rewrite has_col_add, H. reflexivity.
    + exact H.
Qed.

(** With the current column there, a directive changes nothing. *)
Lemma reconcile_cols_noop (o n def : string) (cols : list Column) :
  has_col n cols = true -> reconcile_cols o n def cols = cols.
Proof.
  intros H. unfold reconcile_cols. rewrite H.
  now destruct (has_col o cols).
Qed.

Lemma reconcile_alters_noop (t o n def : string) (cols : list Column) :
  has_col n cols = true -> reconcile_alters t o n def cols = [].
Proof.
  intros H. unfold reconcile_alters. rewrite H.
  now destruct (has_col o cols).
Qed.

(** *** [ensureColumn], computed *)

Lemma ensureColumn_run (t o n def : string) (c : Conn) (cols : list Column) :
  schema c !! t = Some cols ->
  ensureColumn t o n def c
  = (Normal tt,
     {| schema := <[t := reconcile_cols o n def cols]> (schema c);
        issued := (issued c ++ [ShowColumnsLike t o; ShowColumnsLike t n]
                   ++ reconcile_alters t o n def cols)%list |}).
Proof.
  intros Ht. destruct c as [db log]. simpl in Ht.
  unfold ensureColumn, dbind, conn_query, reconcile_cols, reconcile_alters.
  simpl. rewrite Ht. simpl. rewrite Ht. rewrite !show_columns_has_col.
  destruct (has_col o cols) eqn:Ho, (has_col n cols) eqn:Hn,
           (String.eqb o n) eqn:Eon; simpl;
    unfold dtry, dbind, conn_query, dret; simpl; rewrite ?Ht; simpl;
    rewrite ?Ho, ?Hn, ?Eon; simpl;
    rewrite <- ?app_assoc; simpl;
    try (rewrite (insert_id db t cols Ht)); try reflexivity.
Qed.

(** *** Cells under a column name *)

Lemma data_of_cons (c : string) (x : Column) (cols : list Column) :
  data_of c (x :: cols)
  = if String.eqb (col_name x) c then Some (col_data x) else data_of c cols.
Proof. unfold data_of. simpl. now destruct (String.eqb (col_name x) c). Qed.

Lemma has_col_cons (c : string) (x : Column) (cols : list Column) :
  has_col c (x :: cols) = String.eqb (col_name x) c || has_col c cols.
Proof. reflexivity. Qed.

Lemma data_of_has_col (c : string) (cols : list Column) :
  has_col c cols = false -> data_of c cols = None.
Proof.
  induction cols as [|x cols IH]; [reflexivity|].
  rewrite has_col_cons, data_of_cons.
  destruct (String.eqb (col_name x) c); simpl; [discriminate | exact IH].
Qed.

Lemma has_col_data_of (c : string) (cols : list Column) (data : ColData) :
  data_of c cols = Some data -> has_col c cols = true.
Proof.
  intros H. destruct (has_col c cols) eqn:E; [reflexivity|].
  rewrite (data_of_has_col _ _ E) in H. discriminate.
Qed.

Lemma data_of_rename (c o n def : string) (cols : list Column) :
  has_col n cols = false -> o <> n ->
  data_of c (rename_col o n def cols)
  = if String.eqb c n then data_of o cols
    else if String.eqb c o then None
    else data_of c cols.
Proof.
  intros Hn Hon. induction cols as [|x cols IH].
  - simpl. now destruct (String.eqb c n), (String.eqb c o).
  - rewrite has_col_cons in Hn. apply orb_false_iff in Hn as [Hxn Hn].
    specialize (IH Hn). apply String.eqb_neq in Hxn.
    simpl rename_col. rewrite !data_of_cons.
    destruct (String.eqb_spec (col_name x) o) as [Hxo|Hxo]; simpl.
    + destruct (String.eqb_spec n c) as [<-|Hnc].
      * now rewrite String.eqb_refl.
      * rewrite IH. destruct (String.eqb_spec c n); [congruence|].
        destruct (String.eqb_spec c o) as [->|Hco]; [reflexivity|].
        destruct (String.eqb_spec (col_name x) c); [congruence | reflexivity].
    + rewrite IH.
      destruct (String.eqb_spec (col_name x) c) as [Hxc|Hxc].
      * subst c. destruct (String.eqb_spec (col_name x) n); [congruence|].
        destruct (String.eqb_spec (col_name x) o); [congruence | reflexivity].
      * reflexivity.
Qed.

Lemma data_of_add (c n def : string) (cols : list Column) :
  data_of c (add_col n def cols)
  = match data_of c cols with
    | Some data => Some data
    | None => if String.eqb n c then Some DefaultCells else None
    end.
Proof.
  unfold add_col. induction cols as [|x cols IH].
  - simpl. rewrite data_of_cons. reflexivity.
  - simpl. rewrite !data_of_cons.
    destruct (String.eqb (col_name x) c); [reflexivity | exact IH].
Qed.

(** A directive leaves the cells of the columns it does not name. *)
Lemma reconcile_cols_untouched (c o n def : string) (cols : list Column) :
  c <> o -> c <> n ->
  data_of c (reconcile_cols o n def cols) = data_of c cols.
Proof.
  intros Hco Hcn. unfold reconcile_cols.
  destruct (has_col o cols) eqn:Ho, (has_col n cols) eqn:Hn,
           (String.eqb_spec o n) as [Hon|Hon]; simpl; try reflexivity.
  - rewrite data_of_rename by assumption.
    destruct (String.eqb_spec c n); [congruence|].
    destruct (String.eqb_spec c o); [congruence | reflexivity].
  - rewrite data_of_add. destruct (data_of c cols); [reflexivity|].
    destruct (String.eqb_spec n c); [congruence | reflexivity].
  - rewrite data_of_add. destruct (data_of c cols); [reflexivity|].
    destruct (String.eqb_spec n c); [congruence | reflexivity].
Qed.

(** The rename moves the cells of the legacy column under the current name. *)
Lemma reconcile_cols_moves (o n def : string) (cols : list Column) :
  has_col n cols = false -> o <> n -> has_col o cols = true ->
  data_of n (reconcile_cols o n def cols) = data_of o cols.
Proof.
  intros Hn Hon Ho. unfold reconcile_cols. rewrite Ho, Hn.
  destruct (String.eqb_spec o n); [congruence|]. simpl.
  rewrite data_of_rename by assumption. now rewrite String.eqb_refl.
Qed.

(** No directive loses cells: what a column held is held by some column. *)
Lemma reconcile_cols_no_loss (c o n def : string) (cols : list Column)
      (data : ColData) :
  data_of c cols = Some data ->
  exists c', data_of c' (reconcile_cols o n def cols) = Some data.
Proof.
  intros H. unfold reconcile_cols.
  destruct (has_col o cols) eqn:Ho, (has_col n cols) eqn:Hn,
           (String.eqb_spec o n) as [Hon|Hon]; simpl; eauto.
  - destruct (String.eqb_spec c o) as [->|Hco].
    + exists n. rewrite data_of_rename by assumption.
      now rewrite String.eqb_refl.
    + exists c. rewrite data_of_rename by assumption.
      destruct (String.eqb_spec c n) as [->|Hcn].
      * rewrite (data_of_has_col _ _ Hn) in H. discriminate.
      * destruct (String.eqb_spec c o); [congruence | exact H].
  - exists c. rewrite data_of_add, H. reflexivity.
  - exists c. rewrite data_of_add, H. reflexivity.
Qed.

(** *** Runs of directives *)

Lemma columns_of_lookup (db : Schema) (t : string) (cols : list Column) :
  db !! t = Some cols -> columns_of db t = cols.
Proof. unfold columns_of. now intros ->. Qed.

Lemma columns_of_step_same (d : Directive) (db : Schema) :
  columns_of (step d db) (d_table d)
  = reconcile_cols (d_old d) (d_new d) (d_def d) (columns_of db (d_table d)).
Proof. unfold step, columns_of at 1. now rewrite lookup_insert_eq. Qed.

Lemma columns_of_step_other (d : Directive) (db : Schema) (t : string) :
  t <> d_table d -> columns_of (step d db) t = columns_of db t.
Proof.
  intros Hne. unfold step, columns_of at 1 3.
  rewrite lookup_insert_ne by congruence. reflexivity.
Qed.

Lemma step_is_Some (d : Directive) (db : Schema) (t : string) :
  is_Some (db !! t) -> is_Some (step d db !! t).
Proof.
  intros H. unfold step. destruct (decide (d_table d = t)) as [->|Hne].
  - rewrite lookup_insert_eq. eauto.
  - now rewrite lookup_insert_ne.
Qed.

Lemma steps_is_Some (ds : list Directive) (db : Schema) (t : string) :
  is_Some (db !! t) -> is_Some (steps ds db !! t).
Proof.
  revert db. induction ds as [|d ds IH]; intros db H; simpl; [exact H|].
  apply IH. now apply step_is_Some.
Qed.

Lemma step_noop (d : Directive) (db : Schema) :
  is_Some (db !! d_table d) ->
  has_col (d_new d) (columns_of db (d_table d)) = true ->
  step d db = db.
Proof.
  intros [cols Hcols] Hnew. unfold step.
  rewrite (columns_of_lookup _ _ _ Hcols) in *.
  rewrite reconcile_cols_noop by exact Hnew. now apply insert_id.
Qed.

Lemma ensureColumns_run (ds : list Directive) (c : Conn) :
  (forall d, In d ds -> is_Some (schema c !! d_table d)) ->
  exists c',
    ensureColumns ds c = (Normal tt, c')
    /\ schema c' = steps ds (schema c)
    /\ alters c' = (alters c ++ steps_alters ds (schema c))%list.
Proof.
  revert c. induction ds as [|d ds IH]; intros c Htables.
  - exists c. simpl. rewrite app_nil_r. auto.
  - destruct (Htables d (or_introl eq_refl)) as [cols Hcols].
    simpl ensureColumns. unfold dbind at 1.
    rewrite (ensureColumn_run _ _ _ _ _ _ Hcols).
    set (c1 := {| schema := _; issued := _ |}).
    assert (Hs1 : schema c1 = step d (schema c)).
    { unfold step. now rewrite (columns_of_lookup _ _ _ Hcols). }
    destruct (IH c1) as (c' & Hrun & Hschema & Halters).
    { intros d' Hd'. rewrite Hs1. apply step_is_Some. apply Htables. now right. }
    exists c'. split; [exact Hrun|]. split.
    + rewrite Hschema, Hs1. reflexivity.
    + rewrite Halters, Hs1. unfold alters at 1. simpl issued.
      rewrite !List.filter_app. simpl.
      rewrite (columns_of_lookup _ _ _ Hcols).
      assert (Hf : List.filter schema_altering
                     (reconcile_alters (d_table d) (d_old d) (d_new d) (d_def d) cols)
                   = reconcile_alters (d_table d) (d_old d) (d_new d) (d_def d) cols).
      { unfold reconcile_alters.
        destruct (_ && _ && _); [reflexivity|]. now destruct (_ && _). }
      rewrite Hf. unfold alters. now rewrite <- app_assoc.
Qed.

Lemma data_of_None_has_col (c : string) (cols : list Column) :
  data_of c cols = None -> has_col c cols = false.
Proof.
  induction cols as [|x cols IH]; [reflexivity|].
  rewrite has_col_cons, data_of_cons.
  destruct (String.eqb (col_name x) c); simpl; [discriminate | exact IH].
Qed.

Lemma step_keeps (d : Directive) (db : Schema) (t c : string) :
  ~ (t = d_table d /\ c = d_old d /\ d_old d <> d_new d) ->
  has_col c (columns_of db t) = true ->
  has_col c (columns_of (step d db) t) = true.
Proof.
  intros Hnot H. destruct (decide (t = d_table d)) as [->|Hne].
  - rewrite columns_of_step_same. apply reconcile_cols_keeps; [|exact H].
    intros ->. destruct (decide (d_old d = d_new d)); [assumption|].
    exfalso. apply Hnot. auto.
  - now rewrite columns_of_step_other.
Qed.

Lemma steps_keep (ds : list Directive) (db : Schema) (t c : string) :
  (forall d, In d ds -> ~ (t = d_table d /\ c = d_old d /\ d_old d <> d_new d)) ->
  has_col c (columns_of db t) = true ->
  has_col c (columns_of (steps ds db) t) = true.
Proof.
  revert db. induction ds as [|d ds IH]; intros db Hds H; simpl; [exact H|].
  apply IH.
  - intros d' Hd'. apply Hds. now right.
  - apply step_keeps; [|exact H]. apply Hds. now left.
Qed.

Lemma chain_free_spec (ds : list Directive) :
  chain_free ds = true ->
  forall d1 d2, In d1 ds -> In d2 ds ->
    d_table d1 = d_table d2 -> d_old d2 = d_new d1 -> d_old d2 = d_new d2.
Proof.
  unfold chain_free. intros H d1 d2 H1 H2 Ht Ho.
  rewrite forallb_forall in H. specialize (H d2 H2).
  rewrite forallb_forall in H. specialize (H d1 H1).
  rewrite Ht, Ho, !String.eqb_refl in H. simpl in H.
  apply String.eqb_eq in H. congruence.
Qed.

(** After a run of a chain-free list, every current column is there. *)
Lemma steps_new_present (ds : list Directive) (db : Schema) :
  (forall d1 d2, In d1 ds -> In d2 ds ->
     d_table d1 = d_table d2 -> d_old d2 = d_new d1 -> d_old d2 = d_new d2) ->
  forall d, In d ds ->
    has_col (d_new d) (columns_of (steps ds db) (d_table d)) = true.
Proof.
  revert db. induction ds as [|d0 ds IH]; intros db Hfree d Hd; [destruct Hd|].
  simpl. destruct Hd as [<-|Hd].
  - apply steps_keep.
    + intros d' Hd' (Ht & Hc & Hne). apply Hne.
      apply (Hfree d0 d'); [now left | now right | exact Ht | now symmetry].
    + rewrite columns_of_step_same. apply reconcile_cols_new.
  - apply IH; [|exact Hd].
    intros d1 d2 H1 H2. apply Hfree; now right.
Qed.

Lemma steps_noop (ds : list Directive) (db : Schema) :
  (forall d, In d ds -> is_Some (db !! d_table d)) ->
  (forall d, In d ds -> has_col (d_new d) (columns_of db (d_table d)) = true) ->
  steps ds db = db /\ steps_alters ds db = [].
Proof.
  induction ds as [|d ds IH]; intros Htables Hnew; [split; reflexivity|].
  simpl.
  rewrite (step_noop d db) by (first [apply Htables | apply Hnew]; now left).
  rewrite reconcile_alters_noop by (apply Hnew; now left).
  apply IH; intros d' Hd'; [apply Htables | apply Hnew]; now right.
Qed.

Lemma step_no_loss (d : Directive) (db : Schema) (t c : string) (data : ColData) :
  data_of c (columns_of db t) = Some data ->
  exists c', data_of c' (columns_of (step d db) t) = Some data.
Proof.
  intros H. destruct (decide (t = d_table d)) as [->|Hne].
  - rewrite columns_of_step_same. eapply reconcile_cols_no_loss. exact H.
  - exists c. now rewrite columns_of_step_other.
Qed.

Lemma steps_no_loss (ds : list Directive) (db : Schema) (t c : string)
      (data : ColData) :
  data_of c (columns_of db t) = Some data ->
  exists c', data_of c' (columns_of (steps ds db) t) = Some data.
Proof.
  revert db c. induction ds as [|d ds IH]; intros db c H; simpl; [eauto|].
  destruct (step_no_loss d db t c data H) as [c1 H1]. eapply IH. exact H1.
Qed.

Lemma step_untouched (d : Directive) (db : Schema) (t c : string) :
  names_column d t c = false ->
  data_of c (columns_of (step d db) t) = data_of c (columns_of db t).
Proof.
  unfold names_column. intros H.
  destruct (decide (t = d_table d)) as [->|Hne].
  - rewrite String.eqb_refl in H. simpl in H.
    apply orb_false_iff in H as [Ho Hn].
    apply String.eqb_neq in Ho, Hn.
    rewrite columns_of_step_same. apply reconcile_cols_untouched; congruence.
  - now rewrite columns_of_step_other.
Qed.

Lemma steps_untouched (ds : list Directive) (db : Schema) (t c : string) :
  (forall d, In d ds -> names_column d t c = false) ->
  data_of c (columns_of (steps ds db) t) = data_of c (columns_of db t).
Proof.
  revert db. induction ds as [|d ds IH]; intros db H; simpl; [reflexivity|].
  rewrite IH by (intros d' Hd'; apply H; now right).
  apply step_untouched. apply H. now left.
Qed.

(** A legacy column that is the only source, named by no other directive of
    the list, ends up under the current name. *)
Lemma steps_move (pre post : list Directive) (d : Directive) (db : Schema)
      (data : ColData) :
  (forall d', In d' (pre ++ post) ->
     names_column d' (d_table d) (d_old d) = false
     /\ names_column d' (d_table d) (d_new d) = false) ->
  d_old d <> d_new d ->
  has_col (d_new d) (columns_of db (d_table d)) = false ->
  data_of (d_old d) (columns_of db (d_table d)) = Some data ->
  data_of (d_new d) (columns_of (steps (pre ++ d :: post) db) (d_table d))
  = Some data.
Proof.
  intros Hothers Hne Hnew Hold.
  unfold steps. rewrite fold_left_app. simpl. fold (steps pre db).
  fold (steps post (step d (steps pre db))).
  rewrite steps_untouched
    by (intros d' Hd'; apply Hothers; apply in_or_app; now right).
  rewrite columns_of_step_same.
  assert (Hold' : data_of (d_old d) (columns_of (steps pre db) (d_table d))
                  = Some data).
  { rewrite steps_untouched; [exact Hold|].
    intros d' Hd'. apply Hothers. apply in_or_app. now left. }
  assert (Hnew' : has_col (d_new d) (columns_of (steps pre db) (d_table d))
                  = false).
  { apply data_of_None_has_col. rewrite steps_untouched.
    - now apply data_of_has_col.
    - intros d' Hd'. apply Hothers. apply in_or_app. now left. }
  rewrite reconcile_cols_moves; try assumption.
  eapply has_col_data_of. exact Hold'.
Qed.

(** A column that is there and is not renamed away keeps its cells. *)
Lemma reconcile_cols_stays (c o n def : string) (cols : list Column) :
  has_col c cols = true -> ~ (c = o /\ o <> n) ->
  data_of c (reconcile_cols o n def cols) = data_of c cols.
Proof.
  intros Hc Hnot. unfold reconcile_cols.
  destruct (has_col o cols) eqn:Ho, (has_col n cols) eqn:Hn,
           (String.eqb_spec o n) as [Hon|Hon]; simpl; try reflexivity.
  - rewrite data_of_rename by assumption.
    destruct (String.eqb_spec c n) as [->|Hcn]; [congruence|].
    destruct (String.eqb_spec c o) as [->|Hco]; [|reflexivity].
    exfalso. apply Hnot. auto.
  - rewrite data_of_add. destruct (data_of c cols) eqn:E; [reflexivity|].
    apply data_of_None_has_col in E. congruence.
  - rewrite data_of_add. destruct (data_of c cols) eqn:E; [reflexivity|].
    apply data_of_None_has_col in E. congruence.
Qed.

Lemma step_stays (d : Directive) (db : Schema) (t c : string) :
  ~ (t = d_table d /\ c = d_old d /\ d_old d <> d_new d) ->
  has_col c (columns_of db t) = true ->
  data_of c (columns_of (step d db) t) = data_of c (columns_of db t).
Proof.
  intros Hnot H. destruct (decide (t = d_table d)) as [->|Hne].
  - rewrite columns_of_step_same. apply reconcile_cols_stays; [exact H|].
    intros [-> Hon]. apply Hnot. auto.
  - now rewrite columns_of_step_other.
Qed.

Lemma steps_stay (ds : list Directive) (db : Schema) (t c : string) :
  (forall d, In d ds -> ~ (t = d_table d /\ c = d_old d /\ d_old d <> d_new d)) ->
  has_col c (columns_of db t) = true ->
  data_of c (columns_of (steps ds db) t) = data_of c (columns_of db t).
Proof.
  revert db. induction ds as [|d ds IH]; intros db Hds H; simpl; [reflexivity|].
  rewrite IH.
  - apply step_stays; [|exact H]. apply Hds. now left.
  - intros d' Hd'. apply Hds. now right.
  - apply step_keeps; [|exact H]. apply Hds. now left.
Qed.

(** In a chain-free list, the first directive to name a legacy column and
    its current column moves the cells under the current name, and the
    directives after it leave them there. *)
Lemma steps_move_first (pre post : list Directive) (d : Directive) (db : Schema)
      (data : ColData) :
  (forall d1 d2, In d1 (pre ++ d :: post) -> In d2 (pre ++ d :: post) ->
     d_table d1 = d_table d2 -> d_old d2 = d_new d1 -> d_old d2 = d_new d2) ->
  (forall d', In d' pre ->
     names_column d' (d_table d) (d_old d) = false
     /\ names_column d' (d_table d) (d_new d) = false) ->
  d_old d <> d_new d ->
  has_col (d_new d) (columns_of db (d_table d)) = false ->
  data_of (d_old d) (columns_of db (d_table d)) = Some data ->
  data_of (d_new d) (columns_of (steps (pre ++ d :: post) db) (d_table d))
  = Some data.
Proof.
  intros Hfree Hpre Hne Hnew Hold.
  unfold steps. rewrite fold_left_app. simpl. fold (steps pre db).
  fold (steps post (step d (steps pre db))).
  assert (Hold' : data_of (d_old d) (columns_of (steps pre db) (d_table d))
                  = Some data).
  { rewrite steps_untouched; [exact Hold|]. intros d' Hd'. now apply Hpre. }
  assert (Hnew' : has_col (d_new d) (columns_of (steps pre db) (d_table d))
                  = false).
  { apply data_of_None_has_col. rewrite steps_untouched.
    - now apply data_of_has_col.
    - intros d' Hd'. now apply Hpre. }
  assert (Hmoved : data_of (d_new d)
                     (columns_of (step d (steps pre db)) (d_table d))
                   = Some data).
  { rewrite columns_of_step_same, reconcile_cols_moves; try assumption.
    eapply has_col_data_of. exact Hold'. }
  rewrite steps_stay; [exact Hmoved | | eapply has_col_data_of; exact Hmoved].
  intros d' Hd' (Ht & Ho & Hon). apply Hon. symmetry in Ho.
  apply (Hfree d d').
  - apply in_or_app. right. now left.
  - apply in_or_app. right. now right.
  - exact Ht.
  - exact Ho.
Qed.

(** ** [ensureColumn] and its directives *)

Example seedDirectives_chain_free : chain_free seedDirectives = true.
Proof. vm_compute. reflexivity. Qed.

(** C1: on an existing table, [ensureColumn] sends the rename of the legacy
    column to the current one exactly when the legacy column exists, the
    current one does not and the two names differ; when neither exists it
    adds the current column with the supplied definition; when the current
    column exists, with or without the legacy one, it changes nothing. *)
Theorem ensureColumn_cases (db : Schema) (t o n def : string)
        (cols : list Column) :
  db !! t = Some cols ->
  exists c,
    run (ensureColumn t o n def) db = (Normal tt, c)
    /\ (alters c = [AlterChangeColumn t o n def]
        <-> has_col o cols = true /\ has_col n cols = false /\ o <> n)
    /\ (alters c = [AlterChangeColumn t o n def] ->
        schema c = <[t := rename_col o n def cols]> db)
    /\ (has_col o cols = false -> has_col n cols = false ->
        alters c = [AlterAddColumn t n def]
        /\ schema c = <[t := add_col n def cols]> db)
    /\ (has_col n cols = true -> alters c = [] /\ schema c = db).
Proof.
  intros Ht. eexists. split.
  { unfold run. apply (ensureColumn_run t o n def _ cols). exact Ht. }
  unfold alters, reconcile_alters, reconcile_cols. simpl.
  destruct (has_col o cols) eqn:Ho, (has_col n cols) eqn:Hn,
           (String.eqb_spec o n) as [Hon|Hon]; simpl;
    rewrite ?(insert_id db t cols Ht);
    repeat split; intros; try congruence; try discriminate;
    try tauto; try (exfalso; tauto);
    match goal with
    | H : _ /\ _ /\ _ |- _ => destruct H as (? & ? & ?); congruence
    end.
Qed.

(** The [users] table that still has [avatarUrl]: the column is renamed to
    [avatar_url] and keeps its cells. *)
Lemma ensureColumn_cases_witness :
  exists c,
    run (ensureColumn "users" "avatarUrl" "avatar_url" "VARCHAR(255)") legacy_db
    = (Normal tt, c)
    /\ alters c
       = [AlterChangeColumn "users" "avatarUrl" "avatar_url" "VARCHAR(255)"]
    /\ data_of "avatar_url" (columns_of (schema c) "users")
       = Some (Cells [JStr "x"]).
Proof.
  destruct (ensureColumn_cases legacy_db "users" "avatarUrl" "avatar_url"
              "VARCHAR(255)" legacy_users)
    as (c & Hrun & Hiff & Hschema & _).
  - reflexivity.
  - exists c. split; [exact Hrun|].
    assert (Ha : alters c
                 = [AlterChangeColumn "users" "avatarUrl" "avatar_url" "VARCHAR(255)"]).
    { apply Hiff. split; [reflexivity|]. split; [reflexivity | discriminate]. }
    split; [exact Ha|].
    rewrite (Hschema Ha). unfold columns_of. rewrite lookup_insert_eq.
    reflexivity.
Defined.

(** C2, as stated, fails for directive lists in which one directive renames
    away the current column of another.  With the chain
    [image_url -> imageUrl], [imageUrl -> cover_image_url] the first run
    leaves no [imageUrl] and the second run adds it again.  With two
    directives that undo each other a run sends two renames and ends in the
    schema it started from, without the current column of the first
    directive: no number of runs settles. *)
Lemma chained_directives_rerun_alters :
  alters (snd (run (ensureColumns chained_directives)
                 (schema (snd (run (ensureColumns chained_directives)
                                 legacy_articles)))))
  = [AlterAddColumn "articles" "imageUrl" "VARCHAR(255)"]
  /\ schema (snd (run (ensureColumns cyclic_directives) legacy_gallery))
     = legacy_gallery
  /\ alters (snd (run (ensureColumns cyclic_directives) legacy_gallery))
     = [AlterChangeColumn "gallery" "album" "title" "VARCHAR(255)";
        AlterChangeColumn "gallery" "title" "album" "VARCHAR(255)"]
  /\ has_col "title"
       (columns_of (schema (snd (run (ensureColumns cyclic_directives)
                                   legacy_gallery))) "gallery")
     = false.
Proof. repeat split; vm_compute; reflexivity. Qed.

(** C2 (amended): for every list of directives in which no directive renames
    away the current column of a directive on the same table, and every
    schema that has the tables, one run returns normally and leaves every
    current column in place; the cells of every column are still held by
    some column of its table; when a legacy column exists without its
    current column and no directive earlier in the list names either of
    the two, its cells are under the current name after the run, whatever
    the later directives are; and a second run sends no schema-altering
    statement and leaves the schema as it is. *)
Theorem reconcile_converges (ds : list Directive) (db : Schema) :
  chain_free ds = true ->
  (forall d, In d ds -> is_Some (db !! d_table d)) ->
  exists c1 c2,
    run (ensureColumns ds) db = (Normal tt, c1)
    /\ (forall d, In d ds ->
          has_col (d_new d) (columns_of (schema c1) (d_table d)) = true)
    /\ (forall t c data,
          data_of c (columns_of db t) = Some data ->
          exists c', data_of c' (columns_of (schema c1) t) = Some data)
    /\ (forall pre d post data,
          ds = (pre ++ d :: post)%list ->
          (forall d', In d' pre ->
             names_column d' (d_table d) (d_old d) = false
             /\ names_column d' (d_table d) (d_new d) = false) ->
          d_old d <> d_new d ->
          has_col (d_new d) (columns_of db (d_table d)) = false ->
          data_of (d_old d) (columns_of db (d_table d)) = Some data ->
          data_of (d_new d) (columns_of (schema c1) (d_table d)) = Some data)
    /\ run (ensureColumns ds) (schema c1) = (Normal tt, c2)
    /\ alters c2 = []
    /\ schema c2 = schema c1.
Proof.
  intros Hfree Htables.
  destruct (ensureColumns_run ds {| schema := db; issued := [] |} Htables)
    as (c1 & Hrun1 & Hs1 & _).
  simpl in Hs1.
  assert (Htables1 : forall d, In d ds -> is_Some (schema c1 !! d_table d)).
  { intros d Hd. rewrite Hs1. apply steps_is_Some. now apply Htables. }
  assert (Hnew : forall d, In d ds ->
            has_col (d_new d) (columns_of (schema c1) (d_table d)) = true).
  { intros d Hd. rewrite Hs1.
    apply steps_new_present; [|exact Hd]. now apply chain_free_spec. }
  destruct (ensureColumns_run ds {| schema := schema c1; issued := [] |} Htables1)
    as (c2 & Hrun2 & Hs2 & Ha2).
  simpl in Hs2, Ha2.
  destruct (steps_noop ds (schema c1) Htables1 Hnew) as [Hsteps Halters].
  exists c1, c2. split; [exact Hrun1|]. split; [exact Hnew|]. split.
  { intros t c data H. rewrite Hs1. now apply steps_no_loss with (c := c). }
  split.
  { intros pre d post data -> Hpre Hne Hn Ho. rewrite Hs1.
    apply steps_move_first; try assumption. now apply chain_free_spec. }
  split; [exact Hrun2|]. split.
  - rewrite Ha2, Halters. reflexivity.
  - rewrite Hs2, Hsteps. reflexivity.
Qed.

(** The compatibility block of [seedDatabase] on a database from before the
    renames: the cells of [avatarUrl] end up under [avatar_url], and the
    second run changes nothing. *)
Lemma reconcile_converges_witness :
  exists c1 c2,
    run (ensureColumns seedDirectives) legacy_db = (Normal tt, c1)
    /\ data_of "avatar_url" (columns_of (schema c1) "users")
       = Some (Cells [JStr "x"])
    /\ run (ensureColumns seedDirectives) (schema c1) = (Normal tt, c2)
    /\ alters c2 = []
    /\ schema c2 = schema c1.
Proof.
  destruct (reconcile_converges seedDirectives legacy_db)
    as (c1 & c2 & Hrun1 & _ & _ & Hmove & Hrun2 & Ha2 & Hs2).
  - vm_compute. reflexivity.
  - apply (proj1 (List.Forall_forall _ _)).
    repeat (constructor; [eexists; reflexivity|]). constructor.
  - exists c1, c2. split; [exact Hrun1|]. split.
    + apply (Hmove [] (directive "users" "avatarUrl" "avatar_url" "VARCHAR(255)")
               (skipn 1 seedDirectives)).
      * reflexivity.
      * intros d' [].
      * discriminate.
      * reflexivity.
      * reflexivity.
    + auto.
Defined.

(** The condition on the earlier directives is needed.  In the compatibility
    block [image_url -> cover_image_url] comes before
    [imageUrl -> cover_image_url]: on a table that has [imageUrl] only, the
    first adds an empty [cover_image_url], the second then finds both
    columns and does nothing, and the cells stay under [imageUrl]. *)
Example later_legacy_not_moved :
  exists c1,
    run (ensureColumns seedDirectives) legacy_cover_db = (Normal tt, c1)
    /\ data_of "cover_image_url" (columns_of (schema c1) "articles")
       = Some DefaultCells
    /\ data_of "imageUrl" (columns_of (schema c1) "articles")
       = Some (Cells [JStr "https://picsum.photos/seed/news2/1200/630"]).
Proof.
  destruct (ensureColumns_run seedDirectives
              {| schema := legacy_cover_db; issued := [] |})
    as (c1 & Hrun & Hs & _).
  - apply (proj1 (List.Forall_forall _ _)).
    repeat (constructor; [eexists; reflexivity|]). constructor.
  - exists c1. split; [exact Hrun|]. rewrite Hs. split; vm_compute; reflexivity.
Qed.

(** * Further properties of the mappers *)

Lemma has_key_absent (k : string) (o : Props) :
  has_key k o = false -> lookupProp k o = JUndefined.
Proof.
  induction o as [|[k0 v0] o IH]; simpl; [reflexivity|].
  destruct (String.eqb k k0); simpl; [discriminate | exact IH].
Qed.

Lemma lookupProp_setFlag (k : string) (v : JsVal) (o : Props) :
  lookupProp k (setFlag v o)
  = if String.eqb k "is_verified"
    then (if is_undefined v then lookupProp k o
          else JNum (if truthy v then num_one else num_zero))
    else lookupProp k o.
Proof.
  unfold setFlag. destruct (is_undefined v).
  - now destruct (String.eqb k "is_verified").
  - apply lookupProp_setProp.
Qed.

Lemma has_key_setFlag (k : string) (v : JsVal) (o : Props) :
  has_key k (setFlag v o)
  = (String.eqb k "is_verified" && negb (is_undefined v)) || has_key k o.
Proof.
  unfold setFlag. destruct (is_undefined v); simpl.
  - now rewrite andb_false_r.
  - rewrite has_key_setProp. now rewrite andb_true_r.
Qed.

Lemma apiUserToDb_obj (rt : Runtime) (payload : Props) :
  apiUserToDb rt (JObj payload) = Normal (JObj (user_db payload)).
Proof.
  unfold apiUserToDb, Number_, user_db, setFlag. js_eval.
  destruct (is_undefined (lookupProp "isVerified" payload)); reflexivity.
Qed.

Lemma apiArticleToDb_obj (payload : Props) :
  apiArticleToDb (JObj payload) = Normal (JObj (article_db payload)).
Proof. unfold apiArticleToDb, article_db. js_eval. reflexivity. Qed.

Lemma apiPartnerToDb_obj (item : Props) :
  apiPartnerToDb (JObj item) = Normal (JObj (partner_db item)).
Proof. unfold apiPartnerToDb, partner_db. js_eval. reflexivity. Qed.

Lemma apiStructureToDb_obj (item : Props) :
  apiStructureToDb (JObj item) = Normal (JObj (structure_db item)).
Proof. unfold apiStructureToDb, structure_db. js_eval. reflexivity. Qed.

(** A payload that is no object reads as the empty object: [payload || {}]
    is [{}] for a falsy payload, and the other values carry none of the
    fields. *)
Lemma getProp_orEmptyObject (payload : JsVal) (k : string) :
  (orEmptyObject payload).[k] = Normal (lookupProp k (payload_props payload)).
Proof.
  unfold orEmptyObject.
  destruct payload as [| |[|]|n|s|l|o]; try reflexivity.
  - now destruct n.
  - now destruct s.
Qed.

Lemma apiUserToDb_any (rt : Runtime) (payload : JsVal) :
  apiUserToDb rt payload = Normal (JObj (user_db (payload_props payload))).
Proof.
  rewrite <- (apiUserToDb_obj rt). unfold apiUserToDb.
  rewrite !getProp_orEmptyObject. reflexivity.
Qed.

Lemma apiArticleToDb_any (payload : JsVal) :
  apiArticleToDb payload = Normal (JObj (article_db (payload_props payload))).
Proof.
  rewrite <- apiArticleToDb_obj. unfold apiArticleToDb.
  rewrite !getProp_orEmptyObject. reflexivity.
Qed.

Lemma apiPartnerToDb_any (item : JsVal) :
  apiPartnerToDb item = Normal (JObj (partner_db (payload_props item))).
Proof.
  rewrite <- apiPartnerToDb_obj. unfold apiPartnerToDb.
  rewrite !getProp_orEmptyObject. reflexivity.
Qed.

Lemma apiStructureToDb_any (item : JsVal) :
  apiStructureToDb item = Normal (JObj (structure_db (payload_props item))).
Proof.
  rewrite <- apiStructureToDb_obj. unfold apiStructureToDb.
  rewrite !getProp_orEmptyObject. reflexivity.
Qed.

Lemma all_defined_setProp (k : string) (v : JsVal) (o : Props) :
  is_undefined v = false -> all_defined o = true ->
  all_defined (setProp k v o) = true.
Proof.
  intros Hv. unfold all_defined. induction o as [|[k0 v0] o IH]; simpl.
  - now rewrite Hv.
  - intros H. apply andb_true_iff in H as [H0 H].
    destruct (String.eqb k k0); simpl.
    + now rewrite Hv, H.
    + now rewrite H0, IH.
Qed.

Lemma all_defined_setIfDefined (k : string) (v : JsVal) (o : Props) :
  all_defined o = true -> all_defined (setIfDefined k v o) = true.
Proof.
  intros H. unfold setIfDefined. destruct (is_undefined v) eqn:Hv; [exact H|].
  now apply all_defined_setProp.
Qed.

Lemma all_defined_setFlag (v : JsVal) (o : Props) :
  all_defined o = true -> all_defined (setFlag v o) = true.
Proof.
  intros H. unfold setFlag. destruct (is_undefined v); [exact H|].
  now apply all_defined_setProp.
Qed.

Lemma resolve_defined (row : Props) (names : list string) (d : JsVal) :
  is_undefined d = false -> is_undefined (resolve row names d) = false.
Proof.
  intros Hd. induction names as [|n names IH]; simpl; [exact Hd|].
  destruct (lookupProp n row); simpl; auto.
Qed.

Ltac db_lookup :=
  repeat (first [rewrite lookupProp_setIfDefined | rewrite lookupProp_setProp
                | rewrite lookupProp_setFlag];
          eqb_eval);
  repeat (progress (cbn [lookupProp]; eqb_eval));
  rewrite ?undefined_or_self.

(** X1: the four payload mappers return an object for every payload, [null]
    and [undefined] included; on a falsy payload the article and user
    mappers return the empty object, and the partner and structure mappers
    return their three columns, each [undefined]. *)
Theorem payload_mappers_never_throw (rt : Runtime) (payload : JsVal) :
  (exists o, apiArticleToDb payload = Normal (JObj o))
  /\ (exists o, apiUserToDb rt payload = Normal (JObj o))
  /\ (exists o, apiPartnerToDb payload = Normal (JObj o))
  /\ (exists o, apiStructureToDb payload = Normal (JObj o))
  /\ (truthy payload = false ->
      apiArticleToDb payload = Normal (JObj [])
      /\ apiUserToDb rt payload = Normal (JObj [])
      /\ apiPartnerToDb payload
         = Normal (JObj [("name", JUndefined); ("logo_url", JUndefined);
                         ("link", JUndefined)])
      /\ apiStructureToDb payload
         = Normal (JObj [("name", JUndefined); ("position", JUndefined);
                         ("photo_url", JUndefined)])).
Proof.
  rewrite apiArticleToDb_any, (apiUserToDb_any rt), apiPartnerToDb_any,
    apiStructureToDb_any.
  repeat split; eauto;
    destruct payload as [| |[|]|n|s|l|o]; try discriminate; reflexivity.
Qed.

(** X2: [apiArticleToDb] writes a column only for a field the payload
    carries (for [cover_image_url], one of [coverImageUrl] and [imageUrl]),
    and never writes [undefined]. *)
Theorem apiArticleToDb_partial_update (payload : JsVal) :
  exists dbObj,
    apiArticleToDb payload = Normal (JObj dbObj)
    /\ all_defined dbObj = true
    /\ forall k, has_key k dbObj = true ->
         some_present (payload_props payload) (article_sources k) = true.
Proof.
  exists (article_db (payload_props payload)).
  split; [apply apiArticleToDb_any|]. split.
  - unfold article_db. repeat apply all_defined_setIfDefined. reflexivity.
  - destruct (apiArticleToDb_keys (payload_props payload)) as [o [Ho Hkeys]].
    rewrite apiArticleToDb_obj in Ho. injection Ho as <-. exact Hkeys.
Qed.

(** X3: [apiArticleToDb] passes each field through under its column name:
    [title], [content], [snippet], [status], [authorId] and [id] unchanged,
    [editorFeedback] as [editor_feedback], and as [cover_image_url] the
    explicit [coverImageUrl], or [imageUrl] when [coverImageUrl] is [null]
    or absent. *)
Theorem apiArticleToDb_values (payload : Props) :
  exists dbObj,
    apiArticleToDb (JObj payload) = Normal (JObj dbObj)
    /\ (forall f, In f ["title"; "content"; "snippet"; "status"; "authorId"; "id"] ->
          lookupProp f dbObj = lookupProp f payload)
    /\ lookupProp "editor_feedback" dbObj = lookupProp "editorFeedback" payload
    /\ lookupProp "cover_image_url" dbObj
       = resolve payload ["coverImageUrl"]
           (lookupProp "imageUrl" payload).
Proof.
  exists (article_db payload). split; [apply apiArticleToDb_obj|].
  unfold article_db. split; [|split].
  - intros f Hf. simpl in Hf.
    destruct Hf as [<-|[<-|[<-|[<-|[<-|[<-|[]]]]]]]; lookup_eval; reflexivity.
  - lookup_eval. reflexivity.
  - lookup_eval. reflexivity.
Qed.

(** X4: [apiUserToDb] writes a column only for a field the payload carries
    (for [avatar_url], one of [formalPhotoUrl] and [avatarUrl]), never
    writes [undefined], and never writes [id]. *)
Theorem apiUserToDb_partial_update (rt : Runtime) (payload : JsVal) :
  exists dbObj,
    apiUserToDb rt payload = Normal (JObj dbObj)
    /\ all_defined dbObj = true
    /\ has_key "id" dbObj = false
    /\ forall k, has_key k dbObj = true ->
         some_present (payload_props payload) (user_sources k) = true.
Proof.
  exists (user_db (payload_props payload)).
  split; [apply apiUserToDb_any|]. split; [|split].
  - unfold user_db.
    repeat first [apply all_defined_setIfDefined | apply all_defined_setFlag].
    reflexivity.
  - unfold user_db.
    repeat first [rewrite has_key_setIfDefined | rewrite has_key_setFlag].
    reflexivity.
  - destruct (apiUserToDb_keys rt (payload_props payload)) as [o [Ho Hkeys]].
    rewrite apiUserToDb_obj in Ho. injection Ho as <-. exact Hkeys.
Qed.

(** X5: [apiUserToDb] passes [name], [email], [password], [role],
    [phoneNumber], [mediaName], [position] and [ukwCertification] through
    under their column names; [avatar_url] is [formalPhotoUrl], or
    [avatarUrl] when [formalPhotoUrl] is [null] or absent; [is_verified] is
    absent when the payload has no [isVerified], and else the number 1 for
    a truthy flag and 0 for a falsy one. *)
Theorem apiUserToDb_values (rt : Runtime) (payload : Props) :
  exists dbObj,
    apiUserToDb rt (JObj payload) = Normal (JObj dbObj)
    /\ (forall f, In f ["name"; "email"; "password"; "role"; "position"] ->
          lookupProp f dbObj = lookupProp f payload)
    /\ lookupProp "phone_number" dbObj = lookupProp "phoneNumber" payload
    /\ lookupProp "media_name" dbObj = lookupProp "mediaName" payload
    /\ lookupProp "ukw_certification" dbObj = lookupProp "ukwCertification" payload
    /\ lookupProp "avatar_url" dbObj
       = resolve payload ["formalPhotoUrl"] (lookupProp "avatarUrl" payload)
    /\ (is_undefined (lookupProp "isVerified" payload) = true ->
        has_key "is_verified" dbObj = false)
    /\ (is_undefined (lookupProp "isVerified" payload) = false ->
        lookupProp "is_verified" dbObj
        = JNum (if truthy (lookupProp "isVerified" payload)
                then num_one else num_zero)).
Proof.
  exists (user_db payload). split; [apply apiUserToDb_obj|].
  unfold user_db.
  split; [|split; [|split; [|split; [|split; [|split]]]]].
  - intros f Hf. simpl in Hf.
    destruct Hf as [<-|[<-|[<-|[<-|[<-|[]]]]]]; db_lookup; reflexivity.
  - db_lookup. reflexivity.
  - db_lookup. reflexivity.
  - db_lookup. reflexivity.
  - db_lookup. reflexivity.
  - intros Hv.
    repeat first [rewrite has_key_setIfDefined | rewrite has_key_setFlag].
    rewrite Hv. reflexivity.
  - intros Hv. db_lookup. rewrite Hv. reflexivity.
Qed.

(** X6: [apiPartnerToDb] and [apiStructureToDb] pass their three fields
    through under the column names, whatever they hold, and write [id]
    exactly when the payload carries one. *)
Theorem partner_structure_values (item : Props) :
  (exists dbObj,
     apiPartnerToDb (JObj item) = Normal (JObj dbObj)
     /\ lookupProp "name" dbObj = lookupProp "name" item
     /\ lookupProp "logo_url" dbObj = lookupProp "logoUrl" item
     /\ lookupProp "link" dbObj = lookupProp "link" item
     /\ lookupProp "id" dbObj = lookupProp "id" item
     /\ has_key "id" dbObj = negb (is_undefined (lookupProp "id" item)))
  /\ (exists dbObj,
        apiStructureToDb (JObj item) = Normal (JObj dbObj)
        /\ lookupProp "name" dbObj = lookupProp "name" item
        /\ lookupProp "position" dbObj = lookupProp "position" item
        /\ lookupProp "photo_url" dbObj = lookupProp "photoUrl" item
        /\ lookupProp "id" dbObj = lookupProp "id" item
        /\ has_key "id" dbObj = negb (is_undefined (lookupProp "id" item))).
Proof.
  split.
  - exists (partner_db item). split; [apply apiPartnerToDb_obj|].
    unfold partner_db. repeat split; try (db_lookup; reflexivity).
    rewrite has_key_setIfDefined. simpl. now rewrite orb_false_r.
  - exists (structure_db item). split; [apply apiStructureToDb_obj|].
    unfold structure_db. repeat split; try (db_lookup; reflexivity).
    rewrite has_key_setIfDefined. simpl. now rewrite orb_false_r.
Qed.

(** X7: in the API shape of every row the fields read through a fallback
    chain are never [undefined] (a missing one is [null], and [isVerified]
    is a number), and the two cover fields of an article hold the same
    value. *)
Theorem api_rows_optional_fields (rt : Runtime) (row : Props) :
  (forall k, In k ["avatarUrl"; "isVerified"; "phoneNumber"; "mediaName";
                   "position"; "ukwCertification"] ->
     exists v, field k (dbUserToApi rt (JObj row)) = Normal v
               /\ is_undefined v = false)
  /\ (forall k, In k ["logoUrl"; "link"] ->
        exists v, field k (dbPartnerToApi (JObj row)) = Normal v
                  /\ is_undefined v = false)
  /\ (exists v, field "photoUrl" (dbStructureToApi (JObj row)) = Normal v
                /\ is_undefined v = false)
  /\ (forall k, In k ["editorFeedback"; "coverImageUrl"; "imageUrl"] ->
        exists v, field k (dbArticleToApi (JObj row)) = Normal v
                  /\ is_undefined v = false)
  /\ field "coverImageUrl" (dbArticleToApi (JObj row))
     = field "imageUrl" (dbArticleToApi (JObj row)).
Proof.
  rewrite dbUserToApi_obj, dbPartnerToApi_obj, dbStructureToApi_obj,
    dbArticleToApi_obj.
  split; [|split; [|split; [|split]]].
  - intros k Hk. simpl in Hk.
    destruct Hk as [<-|[<-|[<-|[<-|[<-|[<-|[]]]]]]]; eexists;
      (split; [reflexivity|]); try reflexivity; now apply resolve_defined.
  - intros k Hk. simpl in Hk.
    destruct Hk as [<-|[<-|[]]]; eexists;
      (split; [reflexivity|]); now apply resolve_defined.
  - eexists. split; [reflexivity|]. now apply resolve_defined.
  - intros k Hk. simpl in Hk.
    destruct Hk as [<-|[<-|[<-|[]]]]; eexists;
      (split; [reflexivity|]); now apply resolve_defined.
  - reflexivity.
Qed.

Lemma or_empty_not_nullish (v : JsVal) : is_nullish (or_empty v) = false.
Proof. unfold or_empty. destruct v as [| |[|]|n|s|l|o]; try reflexivity.
  - now destruct n.
  - now destruct s.
Qed.

(** X8: the contact projection of every row has its six text fields
    neither [null] nor [undefined], each the empty string when the column is
    falsy; [socials] is the empty object when the column is [null] or
    absent or holds text that does not parse, the column itself when the
    driver already hands an object, and else the parsed text. *)
Theorem contact_projection_defaults (rt : Runtime) (row : Props) :
  exists o,
    formatContactFromRow rt (JObj row) = Normal (JObj o)
    /\ (forall k col,
          In (k, col) [("organizationName", "organizationName");
                       ("address", "address"); ("email", "email");
                       ("phone", "phone"); ("siteLogo", "logo_url");
                       ("faviconUrl", "favicon_url")] ->
          is_nullish (lookupProp k o) = false
          /\ (truthy (lookupProp col row) = false -> lookupProp k o = JStr "")
          /\ (truthy (lookupProp col row) = true ->
              lookupProp k o = lookupProp col row))
    /\ lookupProp "socials" o
       = match lookupProp "socials" row with
         | JUndefined | JNull => JObj []
         | JObj props => JObj props
         | JArr elems => JArr elems
         | v => match JSON_parse rt (ToString rt v) with
                | Some j => j
                | None => JObj []
                end
         end.
Proof.
  eexists. split; [apply formatContactFromRow_obj|]. split.
  - intros k col Hk. simpl in Hk.
    destruct Hk as [Hk|[Hk|[Hk|[Hk|[Hk|[Hk|[]]]]]]];
      injection Hk as <- <-; cbn [lookupProp]; eqb_eval;
      (split; [apply or_empty_not_nullish|]);
      unfold or_empty; split; intros ->; reflexivity.
  - cbn [lookupProp]. eqb_eval.
    unfold safeJsonParse, JSON_parse_val.
    destruct (lookupProp "socials" row) as [| |b|n|s|l|p]; simpl; try reflexivity.
    + now destruct (JSON_parse rt _).
    + now destruct (JSON_parse rt _).
    + now destruct (JSON_parse rt _).
Qed.

(** * Further properties of the aggregate fetch *)

Section AllDataValues.
Context (rt : Runtime) (pool : string -> Completion RowSet).

Lemma missionOf_value (row : Props) :
  missionOf rt (JObj row) = Normal (mission_value rt row).
Proof.
  unfold missionOf, mission_value, JSON_parse_val. simpl.
  destruct (lookupProp "mission" row) as [| |[|]|n|s|l|o]; simpl;
    rewrite ?or_else_Normal; simpl; try reflexivity.
  now destruct (JSON_parse rt s).
Qed.

Lemma formatProfile_value (rows : RowSet) :
  formatProfile rt rows = Normal (first_or_null (profile_api rt) rows).
Proof.
  destruct rows as [|row rest]; [reflexivity|].
  unfold formatProfile. rewrite missionOf_value. js_eval. reflexivity.
Qed.

Lemma formatContact_value (rows : RowSet) :
  formatContact rt rows = Normal (first_or_null (contact_api rt) rows).
Proof.
  destruct rows as [|row rest]; [reflexivity|].
  simpl. apply formatContactFromRow_obj.
Qed.

(** The response of the handler, field by field. *)
Lemma allData_full :
  allData rt pool
  = {| status := 200;
       body := JObj
         [("users", JArr (List.map (user_api rt)
                            (safe_rows pool "SELECT * FROM users")));
          ("articles", JArr (List.map article_api
                               (safe_rows pool "SELECT * FROM articles")));
          ("profileContent",
             first_or_null (profile_api rt)
               (safe_rows pool "SELECT * FROM site_profile LIMIT 1"));
          ("contactInfo",
             first_or_null (contact_api rt)
               (safe_rows pool "SELECT * FROM contact_info LIMIT 1"));
          ("programs", rows_json (safe_rows pool "SELECT * FROM programs"));
          ("structure", JArr (List.map structure_api
                                (safe_rows pool "SELECT * FROM structure")));
          ("announcements",
             rows_json (safe_rows pool "SELECT * FROM announcements"));
          ("galleryImages", rows_json (safe_rows pool "SELECT * FROM gallery"));
          ("comments", rows_json (safe_rows pool "SELECT * FROM comments"));
          ("notifications",
             rows_json (safe_rows pool "SELECT * FROM notifications"));
          ("inspirationNotes",
             rows_json (safe_rows pool "SELECT * FROM inspiration_notes"));
          ("partners", JArr (List.map partner_api
                               (safe_rows pool "SELECT * FROM partners")));
          ("legalContent",
             JObj (formatLegalContent rt
                     (safe_rows pool "SELECT * FROM legal_content")))] |}.
Proof.
  unfold allData, allDataBody. rewrite fetchAll_safe_rows.
  unfold allDataQueries. cbn [List.map cbind].
  rewrite formatProfile_value, formatContact_value. cbn [cbind].
  rewrite (map_rows_total _ (user_api rt) _ (dbUserToApi_obj rt)). cbn [cbind].
  rewrite (map_rows_total _ partner_api _ dbPartnerToApi_obj). cbn [cbind].
  rewrite (map_rows_total _ structure_api _ dbStructureToApi_obj). cbn [cbind].
  rewrite (map_rows_total _ article_api _ dbArticleToApi_obj). cbn [cbind].
  reflexivity.
Qed.

End AllDataValues.

(** X9: when every read fails, the handler still answers 200, with every
    collection empty, [profileContent] and [contactInfo] [null] and
    [legalContent] the empty object: an unreachable table is not told apart
    from an empty one. *)
Theorem allData_outage (rt : Runtime) (pool : string -> Completion RowSet) :
  (forall query, exists e, pool query = Throw e) ->
  allData rt pool = {| status := 200; body := empty_payload |}.
Proof.
  intros Hfail. rewrite allData_full.
  assert (Hrows : forall q, safe_rows pool q = []).
  { intros q. unfold safe_rows. destruct (Hfail q) as [e ->]. reflexivity. }
  rewrite !Hrows. reflexivity.
Qed.

Lemma allData_outage_witness :
  allData bare_host failing_pool = {| status := 200; body := empty_payload |}.
Proof.
  apply (allData_outage bare_host failing_pool).
  intros query. eexists. reflexivity.
Defined.

(** X10: each field of the aggregate payload depends on the read that feeds
    it and on no other: two stores that answer that read alike give the
    same field, whatever the other reads do. *)
Theorem allData_field_isolation (rt : Runtime)
        (pool1 pool2 : string -> Completion RowSet) (k query : string) :
  In (k, query) allData_sources ->
  safe_rows pool1 query = safe_rows pool2 query ->
  body_field k (allData rt pool1) = body_field k (allData rt pool2).
Proof.
  intros Hin Hsame. rewrite !allData_full. unfold body_field.
  cbn [body getProp]. unfold allData_sources in Hin. simpl in Hin.
  repeat (destruct Hin as [Hin|Hin];
          [injection Hin as <- <-; cbn [lookupProp]; eqb_eval;
           rewrite Hsame; reflexivity|]).
  destruct Hin.
Qed.

(** The articles of the response do not change when the [users] table
    goes missing. *)
Lemma allData_field_isolation_witness :
  body_field "articles" (allData bare_host sample_pool)
  = body_field "articles" (allData bare_host sample_pool_no_users).
Proof.
  apply (allData_field_isolation bare_host sample_pool sample_pool_no_users
           "articles" "SELECT * FROM articles").
  - right. left. reflexivity.
  - reflexivity.
Defined.
Lemma formatLegalContent_snoc (rt : Runtime) (rows : RowSet) (row : Props) :
  formatLegalContent rt (rows ++ [row])
  = if String.eqb (ToString rt (lookupProp "page_key" row)) "__proto__"
    then formatLegalContent rt rows
    else setProp (ToString rt (lookupProp "page_key" row)) (legal_entry row)
                 (formatLegalContent rt rows).
Proof. unfold formatLegalContent. rewrite fold_left_app. reflexivity. Qed.

Lemma formatLegalContent_lookup (rt : Runtime) (rows : RowSet) (k : string) :
  k <> "__proto__" ->
  lookupProp k (formatLegalContent rt rows)
  = match last_legal_row rt k rows with
    | Some row => legal_entry row
    | None => JUndefined
    end.
Proof.
  intros Hk. induction rows as [|row rows IH] using rev_ind; [reflexivity|].
  rewrite formatLegalContent_snoc.
  unfold last_legal_row. rewrite rev_app_distr. simpl.
  destruct (String.eqb_spec (ToString rt (lookupProp "page_key" row)) "__proto__")
    as [Hp|Hp].
  - rewrite Hp. destruct (String.eqb_spec k "__proto__"); [congruence | exact IH].
  - rewrite lookupProp_setProp.
    destruct (String.eqb k (ToString rt (lookupProp "page_key" row)));
      [reflexivity | exact IH].
Qed.

Lemma keys_setProp (k : string) (v : JsVal) (o : Props) :
  List.map fst (setProp k v o)
  = if has_key k o then List.map fst o else (List.map fst o ++ [k])%list.
Proof.
  induction o as [|[k0 v0] o IH]; simpl; [reflexivity|].
  destruct (String.eqb_spec k k0) as [->|Hne]; simpl; [reflexivity|].
  rewrite IH. now destruct (has_key k o).
Qed.

Lemma has_key_In (k : string) (o : Props) :
  has_key k o = false -> ~ In k (List.map fst o).
Proof.
  induction o as [|[k0 v0] o IH]; simpl; [tauto|].
  intros H. apply orb_false_iff in H as [Hk H].
  apply String.eqb_neq in Hk. intros [->|Hin]; [congruence|]. now apply IH.
Qed.

Lemma formatLegalContent_NoDup (rt : Runtime) (rows : RowSet) :
  List.NoDup (List.map fst (formatLegalContent rt rows)).
Proof.
  induction rows as [|row rows IH] using rev_ind; [constructor|].
  rewrite formatLegalContent_snoc.
  destruct (String.eqb _ "__proto__"); [exact IH|].
  rewrite keys_setProp.
  destruct (has_key _ _) eqn:Hk; [exact IH|].
  apply List.NoDup_app; [exact IH | |].
  - constructor; [simpl; tauto | constructor].
  - intros x Hx [<-|[]]. now apply (has_key_In _ _ Hk).
Qed.

Lemma formatLegalContent_proto (rt : Runtime) (rows : RowSet) :
  has_key "__proto__" (formatLegalContent rt rows) = false.
Proof.
  induction rows as [|row rows IH] using rev_ind; [reflexivity|].
  rewrite formatLegalContent_snoc.
  destruct (String.eqb_spec (ToString rt (lookupProp "page_key" row)) "__proto__")
    as [Hp|Hp]; [exact IH|].
  rewrite has_key_setProp, IH.
  destruct (String.eqb_spec "__proto__" (ToString rt (lookupProp "page_key" row)));
    [congruence | reflexivity].
Qed.

(** X11: [legalContent] has one entry per page key, and the entry of a key
    (other than [__proto__], which the host does not store as a property)
    is the title and content of the last row filed under it: a later row
    replaces an earlier one with the same key. *)
Theorem legalContent_last_wins (rt : Runtime)
        (pool : string -> Completion RowSet) :
  exists o,
    body_field "legalContent" (allData rt pool) = Normal (JObj o)
    /\ List.NoDup (List.map fst o)
    /\ forall k,
         k <> "__proto__" ->
         lookupProp k o
         = match last_legal_row rt k
                   (safe_rows pool "SELECT * FROM legal_content") with
           | Some row => legal_entry row
           | None => JUndefined
           end.
Proof.
  eexists. split; [|split].
  - rewrite allData_full. reflexivity.
  - apply formatLegalContent_NoDup.
  - intros k Hk. now apply formatLegalContent_lookup.
Qed.

Example legalContent_duplicate_key :
  field "title" (field "kodeEtik"
                   (body_field "legalContent" (allData bare_host legal_pool)))
  = Normal (JStr "Kode Etik Jurnalistik").
Proof. vm_compute. reflexivity. Qed.

(** X12: [profileContent] is [null] when the profile read gives no row
    (none stored, or the read failed); for a row, its text fields and the
    two fields of [legality] are never [null] nor [undefined] (the empty
    string stands in for a falsy column), and [mission] is whatever the text
    parses to when it parses, list or not, and the stored value itself when
    it is a truthy value that is no text. *)
Theorem profileContent_projection (rt : Runtime)
        (pool : string -> Completion RowSet) :
  (safe_rows pool "SELECT * FROM site_profile LIMIT 1" = [] ->
   body_field "profileContent" (allData rt pool) = Normal JNull)
  /\ (forall row rest,
        safe_rows pool "SELECT * FROM site_profile LIMIT 1" = row :: rest ->
        exists o legality,
          body_field "profileContent" (allData rt pool) = Normal (JObj o)
          /\ (forall k col,
                In (k, col) [("about", "about"); ("vision", "vision");
                             ("purpose", "purpose"); ("adArt", "ad_art")] ->
                lookupProp k o = or_empty (lookupProp col row)
                /\ is_nullish (lookupProp k o) = false)
          /\ lookupProp "legality" o = JObj legality
          /\ lookupProp "text" legality = or_empty (lookupProp "legality_text" row)
          /\ lookupProp "sk" legality = or_empty (lookupProp "legality_sk" row)
          /\ (forall s j, lookupProp "mission" row = JStr s ->
                JSON_parse rt s = Some j -> lookupProp "mission" o = j)
          /\ (typeof_string (lookupProp "mission" row) = false ->
              truthy (lookupProp "mission" row) = true ->
              lookupProp "mission" o = lookupProp "mission" row)).
Proof.
  rewrite allData_full. unfold body_field. cbn [body getProp lookupProp].
  eqb_eval. split.
  - intros ->. reflexivity.
  - intros row rest ->. cbn [first_or_null]. unfold profile_api.
    eexists _, _. split; [reflexivity|]. split; [|split; [reflexivity|]].
    + intros k col Hk. simpl in Hk.
      destruct Hk as [Hk|[Hk|[Hk|[Hk|[]]]]]; injection Hk as <- <-;
        cbn [lookupProp]; eqb_eval;
        (split; [reflexivity | apply or_empty_not_nullish]).
    + cbn [lookupProp]. eqb_eval. split; [reflexivity|]. split; [reflexivity|].
      unfold mission_value. split.
      * intros s j -> ->. reflexivity.
      * destruct (lookupProp "mission" row); simpl; try discriminate;
          intros _ Ht; try rewrite Ht; reflexivity.
Qed.

(** * Further properties of [ensureColumn] *)

Lemma step_lookup_other (d : Directive) (db : Schema) (t : string) :
  t <> d_table d -> step d db !! t = db !! t.
Proof. intros Hne. unfold step. now rewrite lookup_insert_ne by congruence. Qed.

Lemma steps_lookup_None (ds : list Directive) (db : Schema) (t : string) :
  (forall d, In d ds -> is_Some (db !! d_table d)) ->
  db !! t = None -> steps ds db !! t = None.
Proof.
  revert db. induction ds as [|d ds IH]; intros db Htables Ht; [exact Ht|].
  simpl. apply IH.
  - intros d' Hd'. apply step_is_Some. apply Htables. now right.
  - rewrite step_lookup_other; [exact Ht|].
    intros ->. destruct (Htables d (or_introl eq_refl)) as [cols Hcols].
    congruence.
Qed.

Lemma ensureColumn_no_table (t o n def : string) (c : Conn) :
  schema c !! t = None ->
  ensureColumn t o n def c
  = (Throw (QueryError "ER_NO_SUCH_TABLE"),
     {| schema := schema c;
        issued := (issued c ++ [ShowColumnsLike t o])%list |}).
Proof.
  intros Ht. unfold ensureColumn, dbind, conn_query. simpl. now rewrite Ht.
Qed.

Lemma ensureColumns_app (pre post : list Directive) (c : Conn) :
  ensureColumns (pre ++ post) c
  = match ensureColumns pre c with
    | (Normal _, c') => ensureColumns post c'
    | (Throw e, c') => (Throw e, c')
    end.
Proof.
  revert c. induction pre as [|d pre IH]; intros c; [reflexivity|].
  simpl. unfold dbind.
  destruct (ensureColumn _ _ _ _ c) as [[[]|e] c1]; [apply IH | reflexivity].
Qed.

(** X13: on a table that does not exist, [ensureColumn] rejects with the
    error of its first existence check (the checks are outside its [try]),
    having sent that one statement and no [ALTER]. *)
Theorem ensureColumn_missing_table (db : Schema) (t o n def : string) :
  db !! t = None ->
  run (ensureColumn t o n def) db
  = (Throw (QueryError "ER_NO_SUCH_TABLE"),
     {| schema := db; issued := [ShowColumnsLike t o] |}).
Proof. intros Ht. unfold run. now rewrite ensureColumn_no_table. Qed.

Lemma ensureColumn_missing_table_witness :
  run (ensureColumn "legal_content" "pageKey" "page_key" "VARCHAR(50)") legacy_db
  = (Throw (QueryError "ER_NO_SUCH_TABLE"),
     {| schema := legacy_db;
        issued := [ShowColumnsLike "legal_content" "pageKey"] |}).
Proof.
  apply (ensureColumn_missing_table legacy_db "legal_content" "pageKey"
           "page_key" "VARCHAR(50)").
  reflexivity.
Defined.

(** X14: a run of directives stops at the first one whose table is missing:
    the directives before it are applied and stay applied, the run rejects,
    and nothing is sent for the directives after it. *)
Theorem ensureColumns_stops_at_missing_table
        (pre post : list Directive) (d : Directive) (db : Schema) :
  (forall d', In d' pre -> is_Some (db !! d_table d')) ->
  db !! d_table d = None ->
  exists c_pre,
    run (ensureColumns pre) db = (Normal tt, c_pre)
    /\ run (ensureColumns (pre ++ d :: post)) db
       = (Throw (QueryError "ER_NO_SUCH_TABLE"),
          {| schema := schema c_pre;
             issued := (issued c_pre
                        ++ [ShowColumnsLike (d_table d) (d_old d)])%list |}).
Proof.
  intros Hpre Hd.
  destruct (ensureColumns_run pre {| schema := db; issued := [] |} Hpre)
    as (c_pre & Hrun & Hschema & _).
  exists c_pre. split; [exact Hrun|].
  unfold run. rewrite ensureColumns_app, Hrun. simpl ensureColumns.
  unfold dbind. rewrite ensureColumn_no_table; [reflexivity|].
  rewrite Hschema. simpl. now apply steps_lookup_None.
Qed.

Lemma ensureColumns_stops_at_missing_table_witness :
  exists c_pre,
    run (ensureColumns (firstn 5 seedDirectives)) legacy_users_only
    = (Normal tt, c_pre)
    /\ run (ensureColumns seedDirectives) legacy_users_only
       = (Throw (QueryError "ER_NO_SUCH_TABLE"),
          {| schema := schema c_pre;
             issued := (issued c_pre
                        ++ [ShowColumnsLike "contact_info" "site_logo"])%list |}).
Proof.
  apply (ensureColumns_stops_at_missing_table (firstn 5 seedDirectives)
           (skipn 6 seedDirectives)
           (directive "contact_info" "site_logo" "logo_url" "VARCHAR(255)")
           legacy_users_only).
  - apply (proj1 (List.Forall_forall _ _)).
    repeat (constructor; [eexists; reflexivity|]). constructor.
  - reflexivity.
Defined.



Lemma columns_of_step_directive (t o n def : string) (db : Schema) :
  columns_of (step (directive t o n def) db) t
  = reconcile_cols o n def (columns_of db t).
Proof. apply (columns_of_step_same (directive t o n def) db). Qed.

(** X16: when two directives of a table rename different legacy columns to
    the same current column and both legacy columns exist without the
    current one, the first directive renames its legacy column and the
    second does nothing: the current column holds the cells of the first
    legacy column, the second legacy column keeps its own, and the two are
    neither merged nor dropped. *)
Theorem two_legacy_first_wins (db : Schema) (t o1 o2 n def1 def2 : string)
        (cols : list Column) (data1 data2 : ColData) :
  db !! t = Some cols ->
  o1 <> n -> o2 <> n -> o1 <> o2 ->
  data_of o1 cols = Some data1 ->
  data_of o2 cols = Some data2 ->
  has_col n cols = false ->
  exists c,
    run (ensureColumns [directive t o1 n def1; directive t o2 n def2]) db
    = (Normal tt, c)
    /\ alters c = [AlterChangeColumn t o1 n def1]
    /\ data_of n (columns_of (schema c) t) = Some data1
    /\ data_of o2 (columns_of (schema c) t) = Some data2
    /\ has_col o1 (columns_of (schema c) t) = false.
Proof.
  intros Ht Hn1 Hn2 Ho Hd1 Hd2 Hn.
  assert (Ho1 : has_col o1 cols = true) by (eapply has_col_data_of; eauto).
  destruct (ensureColumns_run [directive t o1 n def1; directive t o2 n def2]
              {| schema := db; issued := [] |})
    as (c & Hrun & Hschema & Halters).
  { intros d [<-|[<-|[]]]; simpl; eauto. }
  exists c. split; [exact Hrun|].
  cbn [schema steps fold_left] in Hschema. cbn [schema alters issued] in Halters.
  cbn [steps_alters d_table d_old d_new d_def directive List.filter app] in Halters.
  rewrite columns_of_step_directive, (columns_of_lookup _ _ _ Ht) in Halters.
  assert (Hcols1 : columns_of (schema c) t = reconcile_cols o1 n def1 cols).
  { rewrite Hschema, !columns_of_step_directive, (columns_of_lookup _ _ _ Ht).
    apply reconcile_cols_noop. apply reconcile_cols_new. }
  rewrite Hcols1. split; [|split; [|split]].
  - rewrite Halters.
    rewrite (reconcile_alters_noop t o2 n def2) by apply reconcile_cols_new.
    unfold reconcile_alters. rewrite Ho1, Hn.
    destruct (String.eqb_spec o1 n); [congruence | reflexivity].
  - rewrite reconcile_cols_moves by assumption. exact Hd1.
  - rewrite reconcile_cols_untouched by congruence. exact Hd2.
  - apply data_of_None_has_col. unfold reconcile_cols. rewrite Ho1, Hn.
    destruct (String.eqb_spec o1 n); [congruence|]. simpl.
    rewrite data_of_rename by assumption.
    destruct (String.eqb_spec o1 n); [congruence|]. now rewrite String.eqb_refl.
Qed.

(** The two legacy names of the article cover in the seed's own block. *)
Lemma two_legacy_first_wins_witness :
  exists c,
    run (ensureColumns
           [directive "articles" "image_url" "cover_image_url" "VARCHAR(255)";
            directive "articles" "imageUrl" "cover_image_url" "VARCHAR(255)"])
        two_legacy_articles
    = (Normal tt, c)
    /\ alters c
       = [AlterChangeColumn "articles" "image_url" "cover_image_url" "VARCHAR(255)"]
    /\ data_of "cover_image_url" (columns_of (schema c) "articles")
       = Some (Cells [JStr "https://picsum.photos/seed/news1/1200/630"])
    /\ data_of "imageUrl" (columns_of (schema c) "articles")
       = Some (Cells [JStr "https://picsum.photos/seed/news2/1200/630"])
    /\ has_col "image_url" (columns_of (schema c) "articles") = false.
Proof.
  eapply (two_legacy_first_wins two_legacy_articles "articles" "image_url"
            "imageUrl" "cover_image_url" "VARCHAR(255)" "VARCHAR(255)");
    try reflexivity; discriminate.
Defined.

(** * Properties of the write handlers *)

Lemma nullish_or_default_defined (a d : JsVal) :
  is_undefined d = false -> is_undefined (nullish_or a d) = false.
Proof. intros Hd. unfold nullish_or. now destruct a. Qed.

Lemma register_values_obj (o : Props) :
  register_values (JObj o)
  = Normal [nullish_or (lookupProp "name" o) JNull;
            nullish_or (lookupProp "email" o) JNull;
            nullish_or (lookupProp "password" o) JNull;
            nullish_or (lookupProp "role" o) (JStr "Jurnalis");
            nullish_or (lookupProp "avatar_url" o) JNull;
            nullish_or (lookupProp "is_verified" o) (JNum num_zero);
            nullish_or (lookupProp "phone_number" o) JNull;
            nullish_or (lookupProp "media_name" o) JNull;
            nullish_or (lookupProp "position" o) JNull;
            nullish_or (lookupProp "ukw_certification" o) JNull].
Proof. unfold register_values. js_eval. reflexivity. Qed.

Lemma removeUndefined_all_defined (o : Props) :
  all_defined o = true -> removeUndefined o = o.
Proof.
  unfold all_defined, removeUndefined. induction o as [|kv o IH]; simpl; auto.
  intros H. apply andb_true_iff in H as [H0 H]. rewrite H0, IH by exact H.
  reflexivity.
Qed.

Lemma has_key_deleteProp (k : string) (o : Props) :
  has_key k (deleteProp k o) = false.
Proof.
  unfold deleteProp. induction o as [|[k0 v0] o IH]; simpl; [reflexivity|].
  destruct (String.eqb k k0) eqn:E; simpl; [exact IH|]. now rewrite E.
Qed.

Lemma lookupProp_deleteProp (k k' : string) (o : Props) :
  k' <> k -> lookupProp k' (deleteProp k o) = lookupProp k' o.
Proof.
  intros Hne. unfold deleteProp. induction o as [|[k0 v0] o IH]; simpl;
    [reflexivity|].
  destruct (String.eqb_spec k k0) as [<-|Hk]; simpl.
  - destruct (String.eqb_spec k' k); [congruence | exact IH].
  - now rewrite IH.
Qed.

Section HandlerFacts.
Context {S : Type} (rt : Runtime).
Context (pool_query : Query -> S -> Completion QueryResult * S).

(** X17: whatever the body of a registration, the first statement sent is
    the [INSERT] into [users] with ten values, none of them [undefined]:
    the role is ['Jurnalis'] even when the body asks for another one, and
    the verified flag is the number 0 or 1. *)
Theorem register_inserts_journalist (body : JsVal) (s : S) :
  exists values,
    List.hd_error (sent (snd (serve (post_register rt pool_query body) s)))
    = Some {| q_sql := "INSERT INTO users (name, email, password, role, avatar_url, is_verified, phone_number, media_name, position, ukw_certification) VALUES (?, ?, ?, ?, ?, ?, ?, ?, ?, ?)";
              q_values := JArr values |}
    /\ length values = 10
    /\ List.nth_error values 3 = Some (JStr "Jurnalis")
    /\ forallb (fun v => negb (is_undefined v)) values = true
    /\ (List.nth_error values 5 = Some (JNum num_zero)
        \/ List.nth_error values 5 = Some (JNum num_one)).
Proof.
  eexists. split.
  - unfold serve, post_register, ptry, pbind, plift.
    rewrite apiUserToDb_obj, register_values_obj.
    unfold query. cbn [pool_state sent app].
    destruct (pool_query _ s) as [[r|e] s1]; cbn [pool_state sent app].
    + destruct (pool_query _ s1) as [[r2|e2] s2]; cbn [pool_state sent app];
        [destruct (dbUserToApi rt (first_row r2))|]; reflexivity.
    + reflexivity.
  - split; [reflexivity|]. unfold user_db. split; [|split].
    + cbn [List.nth_error]. db_lookup. reflexivity.
    + cbn [forallb]. rewrite !nullish_or_default_defined by reflexivity.
      reflexivity.
    + cbn [List.nth_error]. db_lookup.
      destruct (is_undefined (lookupProp "isVerified" _)); [left; reflexivity|].
      destruct (truthy (lookupProp "isVerified" _)); [right | left]; reflexivity.
Qed.

(** X18: a registration never throws.  A rejected [INSERT] is answered with
    500 and is not followed by the read; otherwise the row is read back
    under the [insertId] the pool reported, and the answer is 201 with that
    row mapped by [dbUserToApi] ([null] when no row comes back), or 500 when
    the read is rejected. *)
Theorem register_outcomes (body : JsVal) (s : S) :
  let failed := {| status := 500;
                   body := JObj [("message", JStr "Gagal mendaftarkan pengguna")] |} in
  exists ins r st,
    serve (post_register rt pool_query body) s = (Normal r, st)
    /\ List.hd_error (sent st) = Some ins
    /\ match pool_query ins s with
       | (Throw _, _) => r = failed /\ sent st = [ins]
       | (Normal result, s1) =>
           let sel := {| q_sql := "SELECT * FROM users WHERE id = ?";
                         q_values := JArr [insertId_of result] |} in
           sent st = [ins; sel]
           /\ match pool_query sel s1 with
              | (Throw _, _) => r = failed
              | (Normal (ResultRows (row :: _)), _) =>
                  r = {| status := 201;
                         body := JObj [("user", user_api rt row)] |}
              | (Normal _, _) =>
                  r = {| status := 201; body := JObj [("user", JNull)] |}
              end
       end.
Proof.
  intros failed.
  unfold serve, post_register, ptry, pbind, plift.
  rewrite apiUserToDb_obj, register_values_obj.
  unfold query. cbn [pool_state sent app].
  set (ins := {| q_sql := register_sql |}).
  exists ins.
  destruct (pool_query ins s) as [[result|e] s1]; cbn [pool_state sent app].
  - set (sel := {| q_sql := "SELECT * FROM users WHERE id = ?" |}).
    destruct (pool_query sel s1) as [[rows|e2] s2]; cbn [pool_state sent app].
    + destruct rows as [[|row rows]|header]; cbn [first_row];
        rewrite ?dbUserToApi_obj; eexists _, _; repeat split; reflexivity.
    + eexists _, _; repeat split; reflexivity.
  - eexists _, _; repeat split; reflexivity.
Qed.

Lemma put_user_run (id body : JsVal) (s : S) :
  let fields := user_db (payload_props body) in
  serve (put_user rt pool_query id body) s
  = ptry
      (if Nat.eqb (length fields) 0
       then pret {| status := 400;
                    body := JObj [("message", JStr "No valid fields to update")] |}
       else
         pbind (query pool_query "UPDATE users SET ? WHERE id = ?"
                      (JArr [JObj fields; id]))
           (fun _ =>
              pbind (query pool_query "SELECT * FROM users" JUndefined)
                (fun rows =>
                   pbind (plift (rows_map (dbUserToApi rt) rows))
                     (fun users =>
                        pret {| status := 200;
                                body := JObj [("users", users)] |}))))
      (fun _ => pret internal_error)
      {| pool_state := s; sent := [] |}.
Proof.
  intros fields. unfold serve, put_user.
  unfold ptry at 1. unfold pbind at 1. unfold plift at 1.
  rewrite apiUserToDb_any. cbn [props_of].
  rewrite removeUndefined_all_defined; [reflexivity|].
  unfold user_db.
  repeat first [apply all_defined_setIfDefined | apply all_defined_setFlag].
  reflexivity.
Qed.

(** X19: [PUT /api/users/:id] never throws and sends the object
    [apiUserToDb] built as it is: when that object is empty the answer is
    400 and nothing is sent to the pool; otherwise the first statement is
    the [UPDATE] of the row named in the URL with exactly that object, and
    the answer is 200 or 500. *)
Theorem put_user_update (id body : JsVal) (s : S) :
  exists fields r st,
    apiUserToDb rt body = Normal (JObj fields)
    /\ serve (put_user rt pool_query id body) s = (Normal r, st)
    /\ (fields = [] ->
        r = {| status := 400;
               body := JObj [("message", JStr "No valid fields to update")] |}
        /\ sent st = [])
    /\ (fields <> [] ->
        List.hd_error (sent st)
        = Some {| q_sql := "UPDATE users SET ? WHERE id = ?";
                  q_values := JArr [JObj fields; id] |}
        /\ (status r = 200%Z \/ r = internal_error)).
Proof.
  exists (user_db (payload_props body)).
  rewrite put_user_run. rewrite apiUserToDb_any.
  destruct (user_db (payload_props body)) as [|kv fields] eqn:E.
  - eexists _, _. split; [reflexivity|]. split; [reflexivity|].
    split; [intros _; split; reflexivity | intros H; now destruct H].
  - cbn [length Nat.eqb]. unfold ptry, pbind, plift, query.
    cbn [pool_state sent app].
    destruct (pool_query _ s) as [[r1|e1] s1]; cbn [pool_state sent app].
    + destruct (pool_query _ s1) as [[rows|e2] s2]; cbn [pool_state sent app].
      * destruct (rows_map (dbUserToApi rt) rows) as [users|e3];
          eexists _, _; (split; [reflexivity|]); (split; [reflexivity|]);
          (split; [discriminate|]); intros _; (split; [reflexivity|]);
          [left | right]; reflexivity.
      * eexists _, _. split; [reflexivity|]. split; [reflexivity|].
        split; [discriminate|]. intros _. split; [reflexivity|].
        right; reflexivity.
    + eexists _, _. split; [reflexivity|]. split; [reflexivity|].
      split; [discriminate|]. intros _. split; [reflexivity|].
      right; reflexivity.
Qed.

(** X20: a body that carries none of the eleven user fields (an empty
    object, a body with only an [id], a body that is not an object) is
    refused with 400 before anything is sent to the pool. *)
Theorem put_user_no_field (id body : JsVal) (s : S)
  (Hnone : forallb (fun k => is_undefined (lookupProp k (payload_props body)))
             user_payload_fields = true) :
  serve (put_user rt pool_query id body) s
  = (Normal {| status := 400;
               body := JObj [("message", JStr "No valid fields to update")] |},
     {| pool_state := s; sent := [] |}).
Proof.
  rewrite put_user_run. unfold user_db.
  unfold user_payload_fields in Hnone. cbn [forallb] in Hnone.
  repeat match type of Hnone with
         | (_ && _)%bool = true =>
             let H := fresh "Hk" in
             apply andb_true_iff in Hnone as [H Hnone];
             destruct (lookupProp _ (payload_props body)); try discriminate H;
             clear H
         end.
  reflexivity.
Qed.

(** A write followed by the read of the table, as most handlers do it. *)
Lemma write_then_read (sql1 sql2 : string) (v1 : JsVal)
    (f : QueryResult -> Completion JsVal) (resp : JsVal -> Response) (s : S) :
  exists r st,
    ptry
      (pbind (query pool_query sql1 v1)
         (fun _ =>
            pbind (query pool_query sql2 JUndefined)
              (fun rows => pbind (plift (f rows)) (fun x => pret (resp x)))))
      (fun _ => pret internal_error)
      {| pool_state := s; sent := [] |}
    = (Normal r, st)
    /\ List.hd_error (sent st) = Some {| q_sql := sql1; q_values := v1 |}
    /\ ((exists x, r = resp x) \/ r = internal_error).
Proof.
  unfold ptry, pbind, plift, query. cbn [pool_state sent app].
  destruct (pool_query _ s) as [[r1|e1] s1]; cbn [pool_state sent app].
  - destruct (pool_query _ s1) as [[rows|e2] s2]; cbn [pool_state sent app].
    + destruct (f rows) as [x|e3]; eexists _, _; repeat split; eauto.
    + eexists _, _; repeat split; eauto.
  - eexists _, _; repeat split; eauto.
Qed.

(** X21: the [UPDATE] of an article and of a gallery image never writes the
    primary key: an [id] in the body is dropped, every other column of the
    object (the one [apiArticleToDb] built, the copy of the body for the
    gallery) is sent unchanged, and the row is the one named in the URL. *)
Theorem updates_drop_id (id body : JsVal) (s : S) :
  (exists fields r st,
      serve (put_article pool_query id body) s = (Normal r, st)
      /\ List.hd_error (sent st)
         = Some {| q_sql := "UPDATE articles SET ? WHERE id = ?";
                   q_values := JArr [JObj fields; id] |}
      /\ has_key "id" fields = false
      /\ forall k, k <> "id" ->
           lookupProp k fields = lookupProp k (article_db (payload_props body)))
  /\ (exists fields r st,
      serve (put_gallery pool_query id body) s = (Normal r, st)
      /\ List.hd_error (sent st)
         = Some {| q_sql := "UPDATE gallery SET ? WHERE id = ?";
                   q_values := JArr [JObj fields; id] |}
      /\ has_key "id" fields = false
      /\ forall k, k <> "id" -> lookupProp k fields = lookupProp k (spread body)).
Proof.
  split.
  - exists (deleteProp "id" (article_db (payload_props body))).
    unfold serve, put_article. unfold pbind at 1. unfold plift at 1.
    rewrite apiArticleToDb_any. cbn [props_of].
    destruct (write_then_read "UPDATE articles SET ? WHERE id = ?"
                "SELECT * FROM articles"
                (JArr [JObj (deleteProp "id" (article_db (payload_props body))); id])
                (rows_map dbArticleToApi)
                (fun articles => {| status := 200;
                                    body := JObj [("articles", articles)] |}) s)
      as (r & st & Hrun & Hsent & _).
    exists r, st. split; [exact Hrun|]. split; [exact Hsent|].
    split; [apply has_key_deleteProp|].
    intros k Hk. now apply lookupProp_deleteProp.
  - exists (deleteProp "id" (spread body)).
    unfold serve, put_gallery.
    destruct (write_then_read "UPDATE gallery SET ? WHERE id = ?"
                "SELECT * FROM gallery"
                (JArr [JObj (deleteProp "id" (spread body)); id])
                (fun rows => Normal (result_json rows))
                (fun galleryImages =>
                   {| status := 200;
                      body := JObj [("galleryImages", galleryImages)] |}) s)
      as (r & st & Hrun & Hsent & _).
    exists r, st. split; [exact Hrun|]. split; [exact Hsent|].
    split; [apply has_key_deleteProp|].
    intros k Hk. now apply lookupProp_deleteProp.
Qed.

Lemma deleteProp_partner_db (item : Props) :
  deleteProp "id" (partner_db item)
  = [("name", lookupProp "name" item);
     ("logo_url", lookupProp "logoUrl" item);
     ("link", lookupProp "link" item)].
Proof.
  unfold partner_db, setIfDefined.
  destruct (is_undefined (lookupProp "id" item)); reflexivity.
Qed.

(** X22: on a body that is not a string (the JSON parser hands over objects
    and arrays; on a string [link] would name an inherited method),
    [PUT /api/partners/:id] never throws, and its [UPDATE] always carries
    the three columns [name], [logo_url] and [link] and nothing else: an
    [id] in the body is dropped, and a field the body leaves out is sent as
    [undefined] rather than left out. *)
Theorem put_partner_sends_three_columns (id body : JsVal) (s : S)
  (Hbody : typeof_string body = false) :
  exists r st,
    serve (put_partner pool_query id body) s = (Normal r, st)
    /\ List.hd_error (sent st)
       = Some {| q_sql := "UPDATE partners SET ? WHERE id = ?";
                 q_values :=
                   JArr [JObj [("name", lookupProp "name" (payload_props body));
                               ("logo_url", lookupProp "logoUrl" (payload_props body));
                               ("link", lookupProp "link" (payload_props body))];
                         id] |}
    /\ (status r = 200%Z \/ r = internal_error).
Proof.
  unfold serve, put_partner.
  destruct (write_then_read "UPDATE partners SET ? WHERE id = ?"
              "SELECT * FROM partners"
              (JArr [JObj (deleteProp "id" (partner_db (payload_props body))); id])
              (rows_map dbPartnerToApi)
              (fun partners => {| status := 200;
                                  body := JObj [("partners", partners)] |}) s)
    as (r & st & Hrun & Hsent & Hr).
  exists r, st. rewrite <- deleteProp_partner_db. split; [|split].
  - rewrite <- Hrun. unfold ptry. unfold pbind at 1. unfold plift at 1.
    rewrite apiPartnerToDb_any. reflexivity.
  - exact Hsent.
  - destruct Hr as [[x ->] | ->]; [left | right]; reflexivity.
Qed.

(** X23: on a body that is not a string, the creation handlers for
    articles and partners never throw; the first statement is the [INSERT]
    of the object the payload mapper built (so only the columns the payload
    carries, for an article), and the answer is 201 with the table read
    back, or 500. *)
Theorem create_inserts_mapped (body : JsVal) (s : S)
  (Hbody : typeof_string body = false) :
  (exists r st,
      serve (post_article pool_query body) s = (Normal r, st)
      /\ List.hd_error (sent st)
         = Some {| q_sql := "INSERT INTO articles SET ?";
                   q_values := JObj (article_db (payload_props body)) |}
      /\ (status r = 201%Z \/ r = internal_error))
  /\ (exists r st,
      serve (post_partner pool_query body) s = (Normal r, st)
      /\ List.hd_error (sent st)
         = Some {| q_sql := "INSERT INTO partners SET ?";
                   q_values := JObj (partner_db (payload_props body)) |}
      /\ (status r = 201%Z \/ r = internal_error)).
Proof.
  split.
  - destruct (write_then_read "INSERT INTO articles SET ?"
                "SELECT * FROM articles"
                (JObj (article_db (payload_props body)))
                (rows_map dbArticleToApi)
                (fun articles => {| status := 201;
                                    body := JObj [("articles", articles)] |}) s)
      as (r & st & Hrun & Hsent & Hr).
    exists r, st. split; [|split].
    + rewrite <- Hrun. unfold serve, post_article.
      unfold ptry. unfold pbind at 1. unfold plift at 1.
      rewrite apiArticleToDb_any. reflexivity.
    + exact Hsent.
    + destruct Hr as [[x ->] | ->]; [left | right]; reflexivity.
  - destruct (write_then_read "INSERT INTO partners SET ?"
                "SELECT * FROM partners"
                (JObj (partner_db (payload_props body)))
                (rows_map dbPartnerToApi)
                (fun partners => {| status := 201;
                                    body := JObj [("partners", partners)] |}) s)
      as (r & st & Hrun & Hsent & Hr).
    exists r, st. split; [|split].
    + rewrite <- Hrun. unfold serve, post_partner.
      unfold ptry. unfold pbind at 1. unfold plift at 1.
      rewrite apiPartnerToDb_any. reflexivity.
    + exact Hsent.
    + destruct Hr as [[x ->] | ->]; [left | right]; reflexivity.
Qed.

Lemma getProp_not_nullish (body : JsVal) (k : string) :
  is_nullish body = false ->
  getProp body k = Normal (lookupProp k (payload_props body)).
Proof. destruct body; intros H; try discriminate H; reflexivity. Qed.

Lemma getProp_nullish (body : JsVal) (k : string) :
  is_nullish body = true -> getProp body k = Throw TypeError.
Proof. destruct body; intros H; try discriminate H; reflexivity. Qed.

(** X24: the status update writes [title] and [snippet] only together, and
    only when both are truthy: with an empty or missing title or snippet the
    statement sets the status alone.  A [null] or [undefined] body makes the
    handler throw before its [try], with nothing sent and no answer. *)
Theorem status_update_statement (id body : JsVal) (s : S) :
  let status := lookupProp "status" (payload_props body) in
  let title := lookupProp "title" (payload_props body) in
  let snippet := lookupProp "snippet" (payload_props body) in
  if is_nullish body
  then serve (put_article_status pool_query id body) s
       = (Throw TypeError, {| pool_state := s; sent := [] |})
  else exists r st,
      serve (put_article_status pool_query id body) s = (Normal r, st)
      /\ List.hd_error (sent st)
         = Some (if truthy title && truthy snippet
                 then {| q_sql := "UPDATE articles SET status = ?, title = ?, snippet = ? WHERE id = ?";
                         q_values := JArr [status; title; snippet; id] |}
                 else {| q_sql := "UPDATE articles SET status = ? WHERE id = ?";
                         q_values := JArr [status; id] |}).
Proof.
  intros status title snippet. unfold serve, put_article_status.
  destruct (is_nullish body) eqn:Hb.
  - unfold pbind at 1. unfold plift at 1.
    now rewrite getProp_nullish.
  - unfold pbind at 1. unfold plift at 1. rewrite getProp_not_nullish by exact Hb.
    unfold pbind at 1. unfold plift at 1. rewrite getProp_not_nullish by exact Hb.
    unfold pbind at 1. unfold plift at 1. rewrite getProp_not_nullish by exact Hb.
    fold status title snippet.
    destruct (truthy title && truthy snippet).
    + destruct (write_then_read
                  "UPDATE articles SET status = ?, title = ?, snippet = ? WHERE id = ?"
                  "SELECT * FROM articles" (JArr [status; title; snippet; id])
                  (rows_map dbArticleToApi)
                  (fun articles => {| status := 200;
                                      body := JObj [("articles", articles)] |}) s)
        as (r & st & Hrun & Hsent & _).
      exists r, st. split; [exact Hrun | exact Hsent].
    + destruct (write_then_read
                  "UPDATE articles SET status = ? WHERE id = ?"
                  "SELECT * FROM articles" (JArr [status; id])
                  (rows_map dbArticleToApi)
                  (fun articles => {| status := 200;
                                      body := JObj [("articles", articles)] |}) s)
        as (r & st & Hrun & Hsent & _).
      exists r, st. split; [exact Hrun | exact Hsent].
Qed.

Lemma for_each_ext {A} (f g : A -> PoolM S unit) (l : list A) (st : PoolSt S) :
  (forall x st', f x st' = g x st') -> for_each f l st = for_each g l st.
Proof.
  intros Hfg. revert st. induction l as [|x l IH]; intros st; [reflexivity|].
  cbn [for_each]. unfold pbind. rewrite Hfg.
  destruct (g x st) as [[u|e] st']; [apply IH | reflexivity].
Qed.

(** A loop of inserts sends its statements as [send_until_rejected] does. *)
Lemma for_each_sent (sql : string) (g : JsVal -> JsVal) (elems : list JsVal)
    (st : PoolSt S) :
  for_each (fun item => pbind (query pool_query sql (g item)) (fun _ => pret tt))
    elems st
  = let '(qs, s', failure) :=
      send_until_rejected pool_query
        (List.map (fun item => {| q_sql := sql; q_values := g item |}) elems)
        (pool_state st) in
    (match failure with
     | None => Normal tt
     | Some e => Throw e
     end,
     {| pool_state := s'; sent := (sent st ++ qs)%list |}).
Proof.
  revert st. induction elems as [|item elems IH]; intros st.
  - cbn. rewrite app_nil_r. now destruct st.
  - cbn [for_each List.map send_until_rejected].
    unfold pbind at 1. unfold pbind at 1. unfold query at 1.
    destruct (pool_query _ (pool_state st)) as [[r|e] s1]; [|reflexivity].
    cbn [pret]. rewrite IH. cbn [pool_state sent].
    destruct (send_until_rejected _ _ s1) as [[qs s2] failure].
    now rewrite <- app_assoc.
Qed.

(** The tables that are replaced as a whole: a [DELETE], then the inserts. *)
Lemma replace_run (sql_delete sql_insert name : string) (g : JsVal -> JsVal)
    (items : JsVal) (s : S) :
  ptry
    (pbind (query pool_query sql_delete JUndefined)
       (fun _ =>
          pbind
            (if is_array items
             then for_each
                    (fun item =>
                       pbind (query pool_query sql_insert (g item))
                         (fun _ => pret tt))
                    (elements_of items)
             else pret tt)
            (fun _ =>
               pret {| status := 200;
                       body := JObj [(name, nullish_or items (JArr []))] |})))
    (fun _ => pret internal_error)
    {| pool_state := s; sent := [] |}
  = let '(qs, s', failure) :=
      send_until_rejected pool_query
        ({| q_sql := sql_delete; q_values := JUndefined |}
         :: List.map (fun item => {| q_sql := sql_insert; q_values := g item |})
              (elements_of items))
        s in
    (Normal match failure with
            | None => {| status := 200;
                         body := JObj [(name, nullish_or items (JArr []))] |}
            | Some _ => internal_error
            end,
     {| pool_state := s'; sent := qs |}).
Proof.
  unfold ptry. unfold pbind at 1. unfold query at 1.
  cbn [pool_state sent app send_until_rejected].
  destruct (pool_query _ s) as [[r1|e1] s1]; [|reflexivity].
  unfold pbind at 1. destruct (is_array items) eqn:Harr.
  - rewrite for_each_sent. cbn [pool_state sent].
    destruct (send_until_rejected _ _ s1) as [[qs s2] [e|]]; reflexivity.
  - destruct items; try discriminate Harr; reflexivity.
Qed.

(** X25: saving the programs or the announcements replaces the table
    without a transaction.  For a body that is an object or any other
    non-null value, the handler never throws; what it sends is the [DELETE]
    and then one [INSERT] per element of the array, in order, each to the
    pool as the statement before left it, up to and including the first
    statement the pool rejects; when the field is not an array, the
    [DELETE] is all there is to send.  The answer is 200 with the items as
    given ([[]] when missing) when no statement was rejected, and 500 when
    one was. *)
Theorem site_list_replace (table name : string) (body : JsVal) (s : S)
  (Hbody : is_nullish body = false) :
  let items := lookupProp name (payload_props body) in
  serve (put_site_list pool_query table name body) s
  = let '(qs, s', failure) :=
      send_until_rejected pool_query
        ({| q_sql := "DELETE FROM " ++ table; q_values := JUndefined |}
         :: List.map (fun item => {| q_sql := "INSERT INTO " ++ table ++ " SET ?";
                                     q_values := item |})
              (elements_of items))
        s in
    (Normal match failure with
            | None => {| status := 200;
                         body := JObj [(name, nullish_or items (JArr []))] |}
            | Some _ => internal_error
            end,
     {| pool_state := s'; sent := qs |}).
Proof.
  intros items. unfold serve, put_site_list.
  unfold pbind at 1. unfold plift at 1. rewrite getProp_not_nullish by exact Hbody.
  fold items.
  apply (replace_run ("DELETE FROM " ++ table) ("INSERT INTO " ++ table ++ " SET ?")
           name (fun item => item) items s).
Qed.

(** X26: saving the structure sends the [DELETE] and then one [INSERT] per
    official, in order, up to and including the first statement the pool
    rejects; each inserted object is the one [apiStructureToDb] builds,
    with the columns [name], [position] and [photo_url] whatever the
    element is, and the handler never throws on an element that is [null]
    or not an object.  The answer is 200 with the structure as given when
    no statement was rejected, and 500 when one was. *)
Theorem site_structure_replace (body : JsVal) (s : S)
  (Hbody : is_nullish body = false) :
  let structure := lookupProp "structure" (payload_props body) in
  serve (put_site_structure pool_query body) s
  = let '(qs, s', failure) :=
      send_until_rejected pool_query
        ({| q_sql := "DELETE FROM structure"; q_values := JUndefined |}
         :: List.map
              (fun official =>
                 {| q_sql := "INSERT INTO structure SET ?";
                    q_values := JObj (structure_db (payload_props official)) |})
              (elements_of structure))
        s in
    (Normal match failure with
            | None => {| status := 200;
                         body := JObj [("structure",
                                        nullish_or structure (JArr []))] |}
            | Some _ => internal_error
            end,
     {| pool_state := s'; sent := qs |}).
Proof.
  intros structure. unfold serve, put_site_structure.
  unfold pbind at 1. unfold plift at 1. rewrite getProp_not_nullish by exact Hbody.
  fold structure.
  rewrite <- (replace_run "DELETE FROM structure" "INSERT INTO structure SET ?"
                "structure"
                (fun official => JObj (structure_db (payload_props official)))
                structure s).
  unfold ptry.
  unfold pbind at 1. unfold pbind at 4.
  destruct (query pool_query "DELETE FROM structure" JUndefined _)
    as [[r1|e1] st1]; [|reflexivity].
  unfold pbind at 1. unfold pbind at 3.
  destruct (is_array structure); [|reflexivity].
  rewrite (for_each_ext _
             (fun item =>
                pbind (query pool_query "INSERT INTO structure SET ?"
                         (JObj (structure_db (payload_props item))))
                  (fun _ => pret tt))); [reflexivity|].
  intros x st'. unfold pbind at 1. unfold plift.
  now rewrite apiStructureToDb_any.
Qed.

(** X27: a failure while refilling is not undone.  When the pool accepts
    the [DELETE] and rejects the first [INSERT], the handler answers 500
    having sent those two statements and no other: the pool is left in the
    state after the [DELETE]. *)
Theorem site_list_refill_not_undone (table name : string) (p : Props)
    (item : JsVal) (rest : list JsVal) (s s1 s2 : S)
    (header : QueryResult) (e : JsError)
  (Hitems : lookupProp name p = JArr (item :: rest))
  (Hdelete : pool_query {| q_sql := "DELETE FROM " ++ table;
                           q_values := JUndefined |} s
             = (Normal header, s1))
  (Hinsert : pool_query {| q_sql := "INSERT INTO " ++ table ++ " SET ?";
                           q_values := item |} s1
             = (Throw e, s2)) :
  serve (put_site_list pool_query table name (JObj p)) s
  = (Normal internal_error,
     {| pool_state := s2;
        sent := [{| q_sql := "DELETE FROM " ++ table; q_values := JUndefined |};
                 {| q_sql := "INSERT INTO " ++ table ++ " SET ?";
                    q_values := item |}] |}).
Proof.
  unfold serve, put_site_list, ptry, pbind, plift, query.
  cbn [getProp pool_state sent app]. rewrite Hitems, Hdelete.
  cbn [is_array elements_of for_each pool_state sent app].
  unfold pbind, query. cbn [pool_state sent app]. rewrite Hinsert. reflexivity.
Qed.

(** X28: on a body that is not a string, a notification is inserted with
    exactly the four columns [userId], [message], [link] and [isRead],
    whatever else the body carries ([id], [isRead], [timestamp]): [isRead]
    is 0, [link] is [null] when missing and never [undefined]; a missing
    body counts as the empty object, and the handler never throws. *)
Theorem notification_insert (body : JsVal) (s : S)
  (Hbody : typeof_string body = false) :
  let link := nullish_or (lookupProp "link" (payload_props body)) JNull in
  exists r st,
    serve (post_notification pool_query body) s = (Normal r, st)
    /\ List.hd_error (sent st)
       = Some {| q_sql := "INSERT INTO notifications SET ?";
                 q_values :=
                   JObj [("userId", lookupProp "userId" (payload_props body));
                         ("message", lookupProp "message" (payload_props body));
                         ("link", link);
                         ("isRead", JNum num_zero)] |}
    /\ is_undefined link = false
    /\ (status r = 201%Z \/ r = internal_error).
Proof.
  intros link. unfold serve, post_notification.
  unfold pbind at 1. unfold plift at 1. rewrite getProp_orEmptyObject.
  unfold pbind at 1. unfold plift at 1. rewrite getProp_orEmptyObject.
  unfold pbind at 1. unfold plift at 1. rewrite getProp_orEmptyObject.
  fold link.
  destruct (write_then_read "INSERT INTO notifications SET ?"
              "SELECT * FROM notifications"
              (JObj [("userId", lookupProp "userId" (payload_props body));
                     ("message", lookupProp "message" (payload_props body));
                     ("link", link); ("isRead", JNum num_zero)])
              (fun rows => Normal (result_json rows))
              (fun notifications =>
                 {| status := 201;
                    body := JObj [("notifications", notifications)] |}) s)
    as (r & st & Hrun & Hsent & Hr).
  exists r, st. split; [exact Hrun|]. split; [exact Hsent|]. split.
  - apply nullish_or_default_defined. reflexivity.
  - destruct Hr as [[x ->] | ->]; [left | right]; reflexivity.
Qed.

End HandlerFacts.

Lemma put_user_no_field_witness :
  serve (put_user bare_host counting_pool (JStr "7")
           (JObj [("id", JNum num_one)])) 0
  = (Normal {| status := 400;
               body := JObj [("message", JStr "No valid fields to update")] |},
     {| pool_state := 0; sent := [] |}).
Proof.
  apply (put_user_no_field bare_host counting_pool (JStr "7")
           (JObj [("id", JNum num_one)]) 0).
  reflexivity.
Defined.

(** Two programs saved to a pool that accepts everything: three statements,
    answer 200. *)
Lemma site_list_replace_witness :
  serve (put_site_programs counting_pool
           (JObj [("programs", JArr [JObj [("title", JStr "Pelatihan")];
                                     JObj [("title", JStr "Lomba")]])])) 0
  = (Normal {| status := 200;
               body := JObj [("programs",
                              JArr [JObj [("title", JStr "Pelatihan")];
                                    JObj [("title", JStr "Lomba")]])] |},
     {| pool_state := 3;
        sent := [{| q_sql := "DELETE FROM programs"; q_values := JUndefined |};
                 {| q_sql := "INSERT INTO programs SET ?";
                    q_values := JObj [("title", JStr "Pelatihan")] |};
                 {| q_sql := "INSERT INTO programs SET ?";
                    q_values := JObj [("title", JStr "Lomba")] |}] |}).
Proof.
  apply (site_list_replace counting_pool "programs" "programs"
           (JObj [("programs", JArr [JObj [("title", JStr "Pelatihan")];
                                     JObj [("title", JStr "Lomba")]])]) 0).
  reflexivity.
Defined.

(** An official and a [null] element saved to a pool that accepts the
    [DELETE] only: the first insert is rejected, the second is not sent. *)
Lemma site_structure_replace_witness :
  serve (put_site_structure refusing_inserts
           (JObj [("structure", JArr [JObj [("name", JStr "Ketua")]; JNull])])) 0
  = (Normal internal_error,
     {| pool_state := 2;
        sent := [{| q_sql := "DELETE FROM structure"; q_values := JUndefined |};
                 {| q_sql := "INSERT INTO structure SET ?";
                    q_values := JObj [("name", JStr "Ketua");
                                      ("position", JUndefined);
                                      ("photo_url", JUndefined)] |}] |}).
Proof.
  apply (site_structure_replace refusing_inserts
           (JObj [("structure", JArr [JObj [("name", JStr "Ketua")]; JNull])]) 0).
  reflexivity.
Defined.

Lemma site_list_refill_not_undone_witness :
  serve (put_site_announcements refusing_inserts
           (JObj [("announcements", JArr [JStr "Rapat"; JStr "Libur"])])) 0
  = (Normal internal_error,
     {| pool_state := 2;
        sent := [{| q_sql := "DELETE FROM announcements"; q_values := JUndefined |};
                 {| q_sql := "INSERT INTO announcements SET ?";
                    q_values := JStr "Rapat" |}] |}).
Proof.
  apply (site_list_refill_not_undone refusing_inserts
           "announcements" "announcements"
           [("announcements", JArr [JStr "Rapat"; JStr "Libur"])]
           (JStr "Rapat") [JStr "Libur"] 0 1 2
           (ResultHeader [("affectedRows", JNum num_one)])
           (QueryError "ER_BAD_FIELD_ERROR"));
    reflexivity.
Defined.

Lemma put_partner_sends_three_columns_witness :
  exists r st,
    serve (put_partner counting_pool (JStr "3")
             (JObj [("id", JNum num_one); ("link", JStr "https://pwmoi.test")])) 0
    = (Normal r, st)
    /\ List.hd_error (sent st)
       = Some {| q_sql := "UPDATE partners SET ? WHERE id = ?";
                 q_values :=
                   JArr [JObj [("name", JUndefined);
                               ("logo_url", JUndefined);
                               ("link", JStr "https://pwmoi.test")];
                         JStr "3"] |}
    /\ (status r = 200%Z \/ r = internal_error).
Proof.
  apply (put_partner_sends_three_columns counting_pool (JStr "3")
           (JObj [("id", JNum num_one); ("link", JStr "https://pwmoi.test")]) 0).
  reflexivity.
Defined.

Lemma create_inserts_mapped_witness :
  (exists r st,
      serve (post_article counting_pool (JObj [("title", JStr "Berita")])) 0
      = (Normal r, st)
      /\ List.hd_error (sent st)
         = Some {| q_sql := "INSERT INTO articles SET ?";
                   q_values := JObj [("title", JStr "Berita")] |}
      /\ (status r = 201%Z \/ r = internal_error))
  /\ (exists r st,
      serve (post_partner counting_pool (JObj [("title", JStr "Berita")])) 0
      = (Normal r, st)
      /\ List.hd_error (sent st)
         = Some {| q_sql := "INSERT INTO partners SET ?";
                   q_values := JObj [("name", JUndefined);
                                     ("logo_url", JUndefined);
                                     ("link", JUndefined)] |}
      /\ (status r = 201%Z \/ r = internal_error)).
Proof.
  apply (create_inserts_mapped counting_pool (JObj [("title", JStr "Berita")]) 0).
  reflexivity.
Defined.

Lemma notification_insert_witness :
  exists r st,
    serve (post_notification counting_pool
             (JObj [("id", JNum num_one); ("userId", JStr "7");
                    ("message", JStr "Artikel terbit"); ("isRead", JNum num_one)])) 0
    = (Normal r, st)
    /\ List.hd_error (sent st)
       = Some {| q_sql := "INSERT INTO notifications SET ?";
                 q_values :=
                   JObj [("userId", JStr "7");
                         ("message", JStr "Artikel terbit");
                         ("link", JNull);
                         ("isRead", JNum num_zero)] |}
    /\ is_undefined JNull = false
    /\ (status r = 201%Z \/ r = internal_error).
Proof.
  apply (notification_insert counting_pool
           (JObj [("id", JNum num_one); ("userId", JStr "7");
                  ("message", JStr "Artikel terbit"); ("isRead", JNum num_one)]) 0).
  reflexivity.
Defined.
